(** * D-Scheduler: range store and persistence adapter

    A shallow embedding of the calendar application's window bookkeeping
    ([set_view_anchor], [rebuild_range], [_append_days], [_prepend_days],
    the scroll handler) and of its JSON persistence ([_load_json_path],
    [_write_json], [_autosave_tick]), for the two revisions that differ in
    them:

    - [Code]  : [D-Scheduler_Code/d-scheduler.py], the validating loader,
                the temp-file writer and the gated scroll handler;
    - [Sched] : [D-Scheduler/d-scheduler.py] (the same functions are found
                in the third file), the in-place writer, the ungated scroll
                handler and the settings dialog's column removal.

    Python values, the calendar and the operating system are modelled in
    the first three modules. *)

From Stdlib Require Import ZArith String Ascii DecimalString Lia.
From stdpp Require Import gmap strings list.

Local Open Scope string_scope.
Local Open Scope Z_scope.
Local Open Scope list_scope.

Set Warnings "-register-all".

(* ===================================================================== *)
(** ** Python values and the builtins the code applies to them *)
(* ===================================================================== *)

Module Py.

(** Strings are sequences of code points below 256; in that range the
    regular-expression class [\d] is exactly [0-9] and [str.isspace] is the
    set listed in [is_space]. *)

(** A float as the loader can observe it: through [str()], [int()] (which
    raises on infinities and NaN) and truth testing. *)
Record pyfloat := {
  float_repr : string;
  float_int : option Z;
  float_bool : bool
}.

(** What [json.load] can return.  A JSON object is kept as the sequence of
    its members; [norm] below turns it into a Python [dict]. *)
Inductive pyval :=
| PNone
| PBool (b : bool)
| PInt (z : Z)
| PFloat (f : pyfloat)
| PStr (s : string)
| PList (l : list pyval)
| PDict (d : list (string * pyval)).

Definition pydict := list (string * pyval).

(** *** dict operations, insertion ordered *)

Fixpoint dict_get {A} (k : string) (d : list (string * A)) : option A :=
  match d with
  | [] => None
  | (k', v) :: t => if String.eqb k k' then Some v else dict_get k t
  end.

Fixpoint dict_set {A} (k : string) (v : A) (d : list (string * A))
  : list (string * A) :=
  match d with
  | [] => [(k, v)]
  | (k', v') :: t =>
      if String.eqb k k' then (k, v) :: t else (k', v') :: dict_set k v t
  end.

(** [dict(pairs)]: later members overwrite earlier ones in place. *)
Definition dict_of_pairs {A} (l : list (string * A)) : list (string * A) :=
  fold_left (fun acc kv => dict_set kv.1 kv.2 acc) l [].

(** The value [json.load] builds from a document. *)
Fixpoint norm (v : pyval) : pyval :=
  match v with
  | PList l => PList (map norm l)
  | PDict d =>
      PDict (dict_of_pairs
               ((fix members (d : list (string * pyval)) :=
                   match d with
                   | [] => []
                   | (k, x) :: t => (k, norm x) :: members t
                   end) d))
  | a => a
  end.

(** *** characters *)

Definition is_digit (c : ascii) : bool :=
  let n := N_of_ascii c in ((48 <=? n) && (n <=? 57))%N.

Definition is_space (c : ascii) : bool :=
  let n := N_of_ascii c in
  (((9 <=? n) && (n <=? 13)) || ((28 <=? n) && (n <=? 32))
   || (n =? 133) || (n =? 160))%N.

Definition digit_val (c : ascii) : Z := Z.of_N (N_of_ascii c) - 48.

(** [re.fullmatch(r"\d{4}-\d{2}-\d{2}", k)] *)
Definition re_fullmatch_date (k : string) : bool :=
  match list_ascii_of_string k with
  | [y1; y2; y3; y4; h1; m1; m2; h2; d1; d2] =>
      is_digit y1 && is_digit y2 && is_digit y3 && is_digit y4
      && Ascii.eqb h1 "-" && is_digit m1 && is_digit m2
      && Ascii.eqb h2 "-" && is_digit d1 && is_digit d2
  | _ => false
  end.

(** *** str.strip *)

Fixpoint lstrip (s : string) : string :=
  match s with
  | EmptyString => EmptyString
  | String c t => if is_space c then lstrip t else s
  end.

Fixpoint rstrip (s : string) : string :=
  match s with
  | EmptyString => EmptyString
  | String c t =>
      match rstrip t with
      | EmptyString => if is_space c then EmptyString else String c EmptyString
      | t' => String c t'
      end
  end.

Definition strip (s : string) : string := rstrip (lstrip s).

(** *** repr and str *)

Definition string_of_Z (z : Z) : string := NilZero.string_of_int (Z.to_int z).

Definition hex_digit (n : N) : ascii :=
  ascii_of_N (if (n <? 10)%N then 48 + n else 87 + n)%N.

Definition hex_escape (c : ascii) : string :=
  let n := N_of_ascii c in
  String "\" (String "x" (String (hex_digit (n / 16)) (String (hex_digit (n mod 16)) EmptyString))).

Fixpoint contains_char (q : ascii) (s : string) : bool :=
  match s with
  | EmptyString => false
  | String c t => Ascii.eqb c q || contains_char q t
  end.

Definition repr_char (q c : ascii) : string :=
  let n := N_of_ascii c in
  if Ascii.eqb c q || Ascii.eqb c "\" then String "\" (String c EmptyString)
  else if (n =? 9)%N then "\t"
  else if (n =? 10)%N then "\n"
  else if (n =? 13)%N then "\r"
  else if ((n <? 32) || (n =? 127))%N then hex_escape c
  else if (n <? 127)%N then String c EmptyString
  else if ((n <=? 160) || (n =? 173))%N then hex_escape c
  else String c EmptyString.

Fixpoint repr_chars (q : ascii) (s : string) : string :=
  match s with
  | EmptyString => EmptyString
  | String c t => repr_char q c +:+ repr_chars q t
  end.

(** The double quote. *)
Definition dquote : ascii := ascii_of_N 34.

Definition repr_str (s : string) : string :=
  let q : ascii :=
    if contains_char "'" s && negb (contains_char dquote s) then dquote
    else "'"%char in
  String q (repr_chars q s) +:+ String q EmptyString.

Fixpoint py_repr (v : pyval) : string :=
  match v with
  | PNone => "None"
  | PBool true => "True"
  | PBool false => "False"
  | PInt z => string_of_Z z
  | PFloat f => float_repr f
  | PStr s => repr_str s
  | PList l => "[" +:+ String.concat ", " (map py_repr l) +:+ "]"
  | PDict d =>
      "{" +:+ String.concat ", "
        ((fix members (d : list (string * pyval)) :=
            match d with
            | [] => []
            | (k, x) :: t => (repr_str k +:+ ": " +:+ py_repr x) :: members t
            end) d) +:+ "}"
  end.

Definition py_str (v : pyval) : string :=
  match v with
  | PStr s => s
  | _ => py_repr v
  end.

(** Truth value, as tested by [or]. *)
Definition py_bool (v : pyval) : bool :=
  match v with
  | PNone => false
  | PBool b => b
  | PInt z => negb (z =? 0)
  | PFloat f => float_bool f
  | PStr s => negb (String.eqb s "")
  | PList l => match l with [] => false | _ => true end
  | PDict d => match d with [] => false | _ => true end
  end.

Definition py_or (a b : pyval) : pyval := if py_bool a then a else b.

(** *** int *)

(** Decimal digits with single underscores between them. *)
Fixpoint digits_value (acc : Z) (after_digit : bool) (s : string) : option Z :=
  match s with
  | EmptyString => if after_digit then Some acc else None
  | String c t =>
      if is_digit c then digits_value (10 * acc + digit_val c) true t
      else if Ascii.eqb c "_" && after_digit then digits_value acc false t
      else None
  end.

(** The white space that [int] skips around the number: of the characters
    below 128 the six of C's [isspace] only, so that the separators U+001C
    to U+001F, which [str.strip] removes, are an error for [int]; above
    128 the white space of [str.isspace]. *)
Definition is_int_space (c : ascii) : bool :=
  let n := N_of_ascii c in
  (((9 <=? n) && (n <=? 13)) || (n =? 32) || (n =? 133) || (n =? 160))%N.

Fixpoint int_lskip (s : string) : string :=
  match s with
  | EmptyString => EmptyString
  | String c t => if is_int_space c then int_lskip t else s
  end.

Fixpoint int_rskip (s : string) : string :=
  match s with
  | EmptyString => EmptyString
  | String c t =>
      match int_rskip t with
      | EmptyString => if is_int_space c then EmptyString else String c EmptyString
      | t' => String c t'
      end
  end.

(** [int(s)] for a string; [None] stands for [ValueError].  (The
    interpreter's limit on the number of digits is not modelled.) *)
Definition int_of_str (s : string) : option Z :=
  match int_rskip (int_lskip s) with
  | String "+" t => digits_value 0 false t
  | String "-" t => Z.opp <$> digits_value 0 false t
  | t => digits_value 0 false t
  end.

(** [int(v)]; [None] stands for the [TypeError], [ValueError] or
    [OverflowError] it raises. *)
Definition py_int (v : pyval) : option Z :=
  match v with
  | PBool b => Some (if b then 1 else 0)
  | PInt z => Some z
  | PFloat f => float_int f
  | PStr s => int_of_str s
  | PNone | PList _ | PDict _ => None
  end.

(** [isinstance(v, int)], with the integer it denotes ([bool] is a subclass
    of [int]). *)
Definition as_int (v : pyval) : option Z :=
  match v with
  | PBool b => Some (if b then 1 else 0)
  | PInt z => Some z
  | _ => None
  end.

End Py.

(* ===================================================================== *)
(** ** The calendar: [datetime.date] and [timedelta] *)
(* ===================================================================== *)

Module Date.

(** A [date] is represented by its proleptic Gregorian ordinal
    ([date.toordinal()]): 0001-01-01 is day 1, 9999-12-31 is day 3652059. *)
Definition date := Z.

Definition MINYEAR : Z := 1.
Definition MAXYEAR : Z := 9999.
Definition MAXORDINAL : Z := 3652059.

Definition is_leap (y : Z) : bool :=
  (y mod 4 =? 0) && (negb (y mod 100 =? 0) || (y mod 400 =? 0)).

Definition days_before_year (y : Z) : Z :=
  let y1 := y - 1 in y1 * 365 + y1 / 4 - y1 / 100 + y1 / 400.

Definition DAYS_IN_MONTH (m : Z) : Z :=
  if (m =? 2) then 28
  else if (m =? 4) || (m =? 6) || (m =? 9) || (m =? 11) then 30
  else 31.

Definition days_in_month (y m : Z) : Z :=
  if (m =? 2) && is_leap y then 29 else DAYS_IN_MONTH m.

(** Days of the year before the first day of month [m], leap day apart. *)
Definition DAYS_BEFORE_MONTH (m : Z) : Z :=
  match m with
  | 1 => 0 | 2 => 31 | 3 => 59 | 4 => 90 | 5 => 120 | 6 => 151
  | 7 => 181 | 8 => 212 | 9 => 243 | 10 => 273 | 11 => 304 | 12 => 334
  | _ => 0
  end.

Definition days_before_month (y m : Z) : Z :=
  DAYS_BEFORE_MONTH m + (if (2 <? m) && is_leap y then 1 else 0).

Definition ymd2ord (y m d : Z) : date :=
  days_before_year y + days_before_month y m + d.

(** [date(y, m, d)]; [None] stands for [ValueError]. *)
Definition mkdate (y m d : Z) : option date :=
  if (MINYEAR <=? y) && (y <=? MAXYEAR) && (1 <=? m) && (m <=? 12)
     && (1 <=? d) && (d <=? days_in_month y m)
  then Some (ymd2ord y m d) else None.

(** [(year, month, day)] of an ordinal. *)
Definition ord2ymd (n : date) : Z * Z * Z :=
  let n := n - 1 in
  let n400 := n / 146097 in let n := n mod 146097 in
  let n100 := n / 36524 in let n := n mod 36524 in
  let n4 := n / 1461 in let n := n mod 1461 in
  let n1 := n / 365 in let n := n mod 365 in
  let year := n400 * 400 + 1 + n100 * 100 + n4 * 4 + n1 in
  if (n1 =? 4) || (n100 =? 4) then (year - 1, 12, 31)
  else
    let leapyear := (n1 =? 3) && (negb (n4 =? 24) || (n100 =? 3)) in
    let month := Z.shiftr (n + 50) 5 in
    let preceding :=
      DAYS_BEFORE_MONTH month + (if (2 <? month) && leapyear then 1 else 0) in
    if (n <? preceding) then
      let month := month - 1 in
      let preceding :=
        preceding - (DAYS_IN_MONTH month
                     + (if (month =? 2) && leapyear then 1 else 0)) in
      (year, month, n - preceding + 1)
    else (year, month, n - preceding + 1).

Definition year (d : date) : Z := (ord2ymd d).1.1.
Definition month (d : date) : Z := (ord2ymd d).1.2.
Definition day (d : date) : Z := (ord2ymd d).2.

(** Monday is 0, Sunday is 6. *)
Definition weekday (d : date) : Z := (d + 6) mod 7.

(** [timedelta(days=n)] exists for [|n| <= 999999999]; [d + timedelta(days=n)]
    exists when the result is a date.  [None] stands for [OverflowError]. *)
Definition add_days (d : date) (n : Z) : option date :=
  if (Z.abs n <=? 999999999) && (0 <? d + n) && (d + n <=? MAXORDINAL)
  then Some (d + n) else None.

(** [str(n).zfill(w)] for a number that is not negative. *)
Fixpoint zfill_aux (k : nat) (s : string) : string :=
  match k with
  | O => s
  | S k' => zfill_aux k' (String "0" s)
  end.

Definition zfill (w : nat) (s : string) : string :=
  zfill_aux (w - String.length s) s.

(** [dt.strftime("%Y-%m-%d")], the key of a day in [cells].  (For years
    below 1000 the padding of [%Y] depends on the platform's C library; the
    four-digit form is the one that meets the loader's pattern.) *)
Definition date_key (d : date) : string :=
  zfill 4 (Py.string_of_Z (year d)) +:+ "-"
  +:+ zfill 2 (Py.string_of_Z (month d)) +:+ "-"
  +:+ zfill 2 (Py.string_of_Z (day d)).

End Date.

(* ===================================================================== *)
(** ** The machine: the application object and its environment *)
(* ===================================================================== *)

Module Machine.

Import Py.
Definition date := Date.date.

(** One entry of [self.columns]: a dict with the keys [id], [title], [width]. *)
Record column := { col_id : string; col_title : string; col_width : Z }.

(** [self.cells : Dict[str, Dict[str, str]]] *)
Abbreviation Cells := (gmap string (gmap string string)).

(** A table row built by [_build_row]: its date and the text of the editor
    of every column.  (The label and the colours of the date cell are
    presentation and are left out.) *)
Record row := { row_date : date; editors : list string }.

(** The vertical scroll bar of the table; its minimum is 0. *)
Record scrollbar := { value : Z; sliderDown : bool; signalsBlocked : bool }.

(** What a file holds: a complete JSON document, the serialisation of a
    value cut after [n] pieces (at least one is missing), or other text that
    [json.load] rejects. *)
Inductive content :=
| Doc (v : pyval)
| Cut (v : pyval) (n : nat)
| Text (s : string).

(** Attributes of the [CalendarApp] object and the state of its table. *)
Record CalendarApp := {
  columns : list column;
  cells : Cells;
  range_start : date;
  range_end : date;
  current_anchor_date : date;
  _dirty : bool;
  autosave_path : string;
  expand_each : Z;
  _is_building : bool;
  _sb_prev_block : bool;
  _last_user_scroll : option (Z * Z);
  table : list (option row);
  bar : scrollbar
}.

(** A finite float as the fraction it equals, here the screen's refresh
    rate as Qt reports it. *)
Record fraction := {
  numer : Z;
  denom : positive
}.

(** [int(x)] of such a float: towards zero. *)
Definition int_of_fraction (x : fraction) : Z := Z.quot (numer x) (Zpos (denom x)).

(** The environment: the file system with the snapshots a concurrent reader
    could have observed (newest first), which I/O calls fail, in how many
    pieces [json.dump] hands a value to the file, the random UUIDs, the
    message boxes shown, the clock (in milliseconds, and as the text of
    [datetime.now().isoformat()]), the screen's refresh rate and Qt's layout
    of the table (top visible row at a scroll value, scroll value that
    [scrollToItem] gives a row, scroll maximum). *)
Record world := {
  files : gmap string content;
  history : list (gmap string content);
  io_ok : nat -> bool;
  io_count : nat;
  chunks : pyval -> nat;
  uuid4 : nat -> string;
  uuid_count : nat;
  dialogs : list string;
  clock_ms : Z;
  now_iso : string;
  qt_refresh_rate : fraction;
  qt_row_at : list (option row) -> Z -> Z;
  qt_value_for : list (option row) -> nat -> Z;
  qt_maximum : list (option row) -> Z
}.

Record machine := { app : CalendarApp; os : world }.

(** Updates of one attribute. *)

Definition with_columns (v : list column) (x : CalendarApp) : CalendarApp :=
  {| columns := v; cells := cells x; range_start := range_start x; range_end
     := range_end x; current_anchor_date := current_anchor_date x; _dirty :=
     _dirty x; autosave_path := autosave_path x; expand_each := expand_each
     x; _is_building := _is_building x; _sb_prev_block := _sb_prev_block x;
     _last_user_scroll := _last_user_scroll x; table := table x; bar := bar x |}.

Definition with_cells (v : Cells) (x : CalendarApp) : CalendarApp :=
  {| columns := columns x; cells := v; range_start := range_start x;
     range_end := range_end x; current_anchor_date := current_anchor_date x;
     _dirty := _dirty x; autosave_path := autosave_path x; expand_each :=
     expand_each x; _is_building := _is_building x; _sb_prev_block :=
     _sb_prev_block x; _last_user_scroll := _last_user_scroll x; table :=
     table x; bar := bar x |}.

Definition with_range_start (v : date) (x : CalendarApp) : CalendarApp :=
  {| columns := columns x; cells := cells x; range_start := v; range_end :=
     range_end x; current_anchor_date := current_anchor_date x; _dirty :=
     _dirty x; autosave_path := autosave_path x; expand_each := expand_each
     x; _is_building := _is_building x; _sb_prev_block := _sb_prev_block x;
     _last_user_scroll := _last_user_scroll x; table := table x; bar := bar x |}.

Definition with_range_end (v : date) (x : CalendarApp) : CalendarApp :=
  {| columns := columns x; cells := cells x; range_start := range_start x;
     range_end := v; current_anchor_date := current_anchor_date x; _dirty :=
     _dirty x; autosave_path := autosave_path x; expand_each := expand_each
     x; _is_building := _is_building x; _sb_prev_block := _sb_prev_block x;
     _last_user_scroll := _last_user_scroll x; table := table x; bar := bar x |}.

Definition with_current_anchor_date (v : date) (x : CalendarApp) : CalendarApp :=
  {| columns := columns x; cells := cells x; range_start := range_start x;
     range_end := range_end x; current_anchor_date := v; _dirty := _dirty x;
     autosave_path := autosave_path x; expand_each := expand_each x;
     _is_building := _is_building x; _sb_prev_block := _sb_prev_block x;
     _last_user_scroll := _last_user_scroll x; table := table x; bar := bar x |}.

Definition with_dirty (v : bool) (x : CalendarApp) : CalendarApp :=
  {| columns := columns x; cells := cells x; range_start := range_start x;
     range_end := range_end x; current_anchor_date := current_anchor_date x;
     _dirty := v; autosave_path := autosave_path x; expand_each :=
     expand_each x; _is_building := _is_building x; _sb_prev_block :=
     _sb_prev_block x; _last_user_scroll := _last_user_scroll x; table :=
     table x; bar := bar x |}.

Definition with_is_building (v : bool) (x : CalendarApp) : CalendarApp :=
  {| columns := columns x; cells := cells x; range_start := range_start x;
     range_end := range_end x; current_anchor_date := current_anchor_date x;
     _dirty := _dirty x; autosave_path := autosave_path x; expand_each :=
     expand_each x; _is_building := v; _sb_prev_block := _sb_prev_block x;
     _last_user_scroll := _last_user_scroll x; table := table x; bar := bar x |}.

Definition with_sb_prev_block (v : bool) (x : CalendarApp) : CalendarApp :=
  {| columns := columns x; cells := cells x; range_start := range_start x;
     range_end := range_end x; current_anchor_date := current_anchor_date x;
     _dirty := _dirty x; autosave_path := autosave_path x; expand_each :=
     expand_each x; _is_building := _is_building x; _sb_prev_block := v;
     _last_user_scroll := _last_user_scroll x; table := table x; bar := bar x |}.

Definition with_last_user_scroll (v : option (Z * Z)) (x : CalendarApp) : CalendarApp :=
  {| columns := columns x; cells := cells x; range_start := range_start x;
     range_end := range_end x; current_anchor_date := current_anchor_date x;
     _dirty := _dirty x; autosave_path := autosave_path x; expand_each :=
     expand_each x; _is_building := _is_building x; _sb_prev_block :=
     _sb_prev_block x; _last_user_scroll := v; table := table x; bar := bar x |}.

Definition with_table (v : list (option row)) (x : CalendarApp) : CalendarApp :=
  {| columns := columns x; cells := cells x; range_start := range_start x;
     range_end := range_end x; current_anchor_date := current_anchor_date x;
     _dirty := _dirty x; autosave_path := autosave_path x; expand_each :=
     expand_each x; _is_building := _is_building x; _sb_prev_block :=
     _sb_prev_block x; _last_user_scroll := _last_user_scroll x; table := v;
     bar := bar x |}.

Definition with_bar (v : scrollbar) (x : CalendarApp) : CalendarApp :=
  {| columns := columns x; cells := cells x; range_start := range_start x;
     range_end := range_end x; current_anchor_date := current_anchor_date x;
     _dirty := _dirty x; autosave_path := autosave_path x; expand_each :=
     expand_each x; _is_building := _is_building x; _sb_prev_block :=
     _sb_prev_block x; _last_user_scroll := _last_user_scroll x; table :=
     table x; bar := v |}.

Definition with_files (v : gmap string content) (x : world) : world :=
  {| files := v; history := history x; io_ok := io_ok x; io_count := io_count
     x; chunks := chunks x; uuid4 := uuid4 x; uuid_count := uuid_count x;
     dialogs := dialogs x; clock_ms := clock_ms x; now_iso := now_iso x;
     qt_refresh_rate := qt_refresh_rate x; qt_row_at := qt_row_at x;
     qt_value_for := qt_value_for x; qt_maximum := qt_maximum x |}.

Definition with_history (v : list (gmap string content)) (x : world) : world :=
  {| files := files x; history := v; io_ok := io_ok x; io_count := io_count
     x; chunks := chunks x; uuid4 := uuid4 x; uuid_count := uuid_count x;
     dialogs := dialogs x; clock_ms := clock_ms x; now_iso := now_iso x;
     qt_refresh_rate := qt_refresh_rate x; qt_row_at := qt_row_at x;
     qt_value_for := qt_value_for x; qt_maximum := qt_maximum x |}.

Definition with_io_count (v : nat) (x : world) : world :=
  {| files := files x; history := history x; io_ok := io_ok x; io_count := v;
     chunks := chunks x; uuid4 := uuid4 x; uuid_count := uuid_count x;
     dialogs := dialogs x; clock_ms := clock_ms x; now_iso := now_iso x;
     qt_refresh_rate := qt_refresh_rate x; qt_row_at := qt_row_at x;
     qt_value_for := qt_value_for x; qt_maximum := qt_maximum x |}.

Definition with_uuid_count (v : nat) (x : world) : world :=
  {| files := files x; history := history x; io_ok := io_ok x; io_count :=
     io_count x; chunks := chunks x; uuid4 := uuid4 x; uuid_count := v;
     dialogs := dialogs x; clock_ms := clock_ms x; now_iso := now_iso x;
     qt_refresh_rate := qt_refresh_rate x; qt_row_at := qt_row_at x;
     qt_value_for := qt_value_for x; qt_maximum := qt_maximum x |}.

Definition with_dialogs (v : list string) (x : world) : world :=
  {| files := files x; history := history x; io_ok := io_ok x; io_count :=
     io_count x; chunks := chunks x; uuid4 := uuid4 x; uuid_count :=
     uuid_count x; dialogs := v; clock_ms := clock_ms x; now_iso := now_iso
     x; qt_refresh_rate := qt_refresh_rate x; qt_row_at := qt_row_at x;
     qt_value_for := qt_value_for x; qt_maximum := qt_maximum x |}.

Definition on_app (f : CalendarApp -> CalendarApp) (m : machine) : machine :=
  {| app := f (app m); os := os m |}.
Definition on_os (f : world -> world) (m : machine) : machine :=
  {| app := app m; os := f (os m) |}.

(** *** Exceptions and the monad of methods *)

Inductive exn :=
| OSError | JSONDecodeError | AttributeError | ValueError | OverflowError
| IndexError.

Inductive outcome (A : Type) :=
| Ret (a : A) (m : machine)
| Raise (e : exn) (m : machine)
| OutOfFuel.
Arguments Ret {A} a m.
Arguments Raise {A} e m.
Arguments OutOfFuel {A}.

Definition M (A : Type) := machine -> outcome A.

Definition ret {A} (a : A) : M A := fun m => Ret a m.
Definition raise {A} (e : exn) : M A := fun m => Raise e m.
Definition bind {A B} (c : M A) (k : A -> M B) : M B :=
  fun m => match c m with
           | Ret a m' => k a m'
           | Raise e m' => Raise e m'
           | OutOfFuel => OutOfFuel
           end.
Definition get : M machine := fun m => Ret m m.
Definition modify (f : machine -> machine) : M unit := fun m => Ret tt (f m).
Definition pass : M unit := ret tt.

(** [try: body  except Exception as e: handler e] *)
Definition try_except {A} (body : M A) (handler : exn -> M A) : M A :=
  fun m => match body m with
           | Raise e m' => handler e m'
           | r => r
           end.

(** [try: body  finally: fin] *)
Definition try_finally {A} (body : M A) (fin : M unit) : M A :=
  fun m => match body m with
           | Ret a m' => bind fin (fun _ => ret a) m'
           | Raise e m' => bind fin (fun _ => raise e) m'
           | OutOfFuel => OutOfFuel
           end.

Definition lift_opt {A} (e : exn) (o : option A) : M A :=
  match o with Some a => ret a | None => raise e end.

Fixpoint for_each {A} (l : list A) (body : A -> M unit) : M unit :=
  match l with
  | [] => pass
  | a :: t => bind (body a) (fun _ => for_each t body)
  end.

Definition when (b : bool) (c : M unit) : M unit := if b then c else pass.

Definition final {A} (r : outcome A) : option machine :=
  match r with
  | Ret _ m | Raise _ m => Some m
  | OutOfFuel => None
  end.

End Machine.

Declare Scope py_scope.
Delimit Scope py_scope with py.
Notation "x <- c1 ;; c2" := (Machine.bind c1 (fun x => c2))
  (at level 100, c1 at next level, right associativity) : py_scope.
Notation "c1 ;; c2" := (Machine.bind c1 (fun _ => c2))
  (at level 100, right associativity) : py_scope.

(* ===================================================================== *)
(** ** Files, UUIDs and message boxes *)
(* ===================================================================== *)

Module IO.

Import Py Machine.
Local Open Scope py_scope.

(** Every call into the file system takes the next answer of [io_ok]; a
    call that is refused raises [OSError] and leaves the files alone. *)
Definition io_step : M unit :=
  fun m =>
    let w := os m in
    let m' := on_os (with_io_count (S (io_count w))) m in
    if io_ok w (io_count w) then Ret tt m' else Raise OSError m'.

(** The files change, and the new state is one a reader can observe. *)
Definition set_files (fs : gmap string content) : M unit :=
  modify (on_os (fun w => with_history (fs :: history w) (with_files fs w))).

Definition fs_put (p : string) (c : content) : M unit :=
  io_step ;;
  m <- get ;;
  set_files (<[p := c]> (files (os m))).

(** [path.parent.mkdir(parents=True, exist_ok=True)]: directories are not
    part of the model, the call can only fail. *)
Definition mkdir_parents (p : string) : M unit := io_step.

(** [open(p, "w")] creates or truncates. *)
Definition open_w (p : string) : M unit := fs_put p (Text "").

(** The file object is flushed and closed when the [with] block is left. *)
Definition close (p : string) : M unit := io_step.

(** [json.dump(v, f)]: the serialisation reaches the file piece by piece;
    only with the last piece is it a document again. *)
Fixpoint dump_pieces (v : pyval) (p : string) (todo written : nat) : M unit :=
  match todo with
  | O => fs_put p (Doc v)
  | S todo' =>
      fs_put p (Cut v (S written)) ;;
      dump_pieces v p todo' (S written)
  end.

Definition json_dump (v : pyval) (p : string) : M unit :=
  m <- get ;;
  dump_pieces v p (chunks (os m) v) O.

(** [src.replace(dst)], the [rename] system call: one step. *)
Definition replace (src dst : string) : M unit :=
  io_step ;;
  m <- get ;;
  match files (os m) !! src with
  | Some c => set_files (<[dst := c]> (delete src (files (os m))))
  | None => raise OSError
  end.

(** [with open(p, "r") as f: json.load(f)] *)
Definition json_load (p : string) : M pyval :=
  io_step ;;
  m <- get ;;
  match files (os m) !! p with
  | Some (Doc v) => ret (norm v)
  | Some _ => raise JSONDecodeError
  | None => raise OSError
  end.

(** [uuid.uuid4()], as its 32 hexadecimal digits. *)
Definition uuid_hex : M string :=
  m <- get ;;
  modify (on_os (with_uuid_count (S (uuid_count (os m))))) ;;
  ret (uuid4 (os m) (uuid_count (os m))).

(** [str(u)] of a UUID: 8-4-4-4-12. *)
Definition uuid_str (h : string) : string :=
  substring 0 8 h +:+ "-" +:+ substring 8 4 h +:+ "-" +:+ substring 12 4 h
  +:+ "-" +:+ substring 16 4 h +:+ "-" +:+ substring 20 12 h.

(** [QMessageBox.warning(self, title, text)]: the user has to dismiss it. *)
Definition QMessageBox_warning (title : string) : M unit :=
  modify (on_os (fun w => with_dialogs (title :: dialogs w) w)).

End IO.

(* ===================================================================== *)
(** ** The table widget and its scroll bar *)
(* ===================================================================== *)

Module Qt.

Import Py Machine.
Local Open Scope py_scope.

Definition set_table (t : list (option row)) : M unit :=
  modify (on_app (with_table t)).

Definition rowCount : M Z :=
  m <- get ;; ret (Z.of_nat (length (table (app m)))).

(** [setRowCount(n)]: rows are cut or empty rows added at the end; a
    negative count is ignored. *)
Definition setRowCount (n : Z) : M unit :=
  m <- get ;;
  if n <? 0 then pass
  else set_table (take (Z.to_nat n) (table (app m))
                  ++ replicate (Z.to_nat n - length (table (app m))) None).

(** [clear()] removes the items and keeps the dimensions. *)
Definition clear : M unit :=
  m <- get ;; set_table (map (fun _ => None) (table (app m))).

Definition insertRow0 : M unit :=
  m <- get ;; set_table (None :: table (app m)).

(** [rowAt(0)]: the row shown at the top of the viewport, or -1. *)
Definition rowAt0 : M Z :=
  m <- get ;; ret (qt_row_at (os m) (table (app m)) (value (bar (app m)))).

Definition maximum (m : machine) : Z := qt_maximum (os m) (table (app m)).

Definition set_bar (b : scrollbar) : M unit := modify (on_app (with_bar b)).

(** [bar.blockSignals(b)] returns the previous setting. *)
Definition blockSignals (b : bool) : M bool :=
  m <- get ;;
  let old := bar (app m) in
  set_bar {| value := value old; sliderDown := sliderDown old;
             signalsBlocked := b |} ;;
  ret (signalsBlocked old).

(** [bar.setValue(v)]: the value is bounded by the range; when it changes,
    [valueChanged] is emitted and the connected slot runs at once, unless
    signals are blocked. *)
Definition setValue (slot : Z -> M unit) (v : Z) : M unit :=
  m <- get ;;
  let old := bar (app m) in
  let v' := Z.max 0 (Z.min v (maximum m)) in
  if v' =? value old then pass
  else
    set_bar {| value := v'; sliderDown := sliderDown old;
               signalsBlocked := signalsBlocked old |} ;;
    if signalsBlocked old then pass else slot v'.

(** [scrollToItem(item(idx, 0), hint)], when the item exists. *)
Definition scrollToItem (slot : Z -> M unit) (idx : nat) : M unit :=
  m <- get ;;
  match table (app m) !! idx with
  | Some (Some _) => setValue slot (qt_value_for (os m) (table (app m)) idx)
  | _ => pass
  end.

(** The text an editor shows for a day and a column. *)
Definition cell_text (cs : Cells) (key cid : string) : string :=
  match cs !! key with
  | Some e => default "" (e !! cid)
  | None => ""
  end.

(** [_build_row(row, dt)]: the date item and one editor per column, filled
    from [cells] when the day has an entry for the column. *)
Definition _build_row (r : Z) (dt : date) : M unit :=
  m <- get ;;
  let key := Date.date_key dt in
  let texts := map (fun c => cell_text (cells (app m)) key (col_id c))
                   (columns (app m)) in
  if r <? 0 then pass
  else set_table (<[Z.to_nat r := Some {| row_date := dt; editors := texts |}]>
                    (table (app m))).

(** [for i in range(n): self._build_row(r + i, dt); dt += timedelta(days=1)] *)
Fixpoint build_rows (n : nat) (r : Z) (dt : date) : M unit :=
  match n with
  | O => pass
  | S n' =>
      _build_row r dt ;;
      dt' <- lift_opt OverflowError (Date.add_days dt 1) ;;
      build_rows n' (r + 1) dt'
  end.

(** [valueChanged.connect(handler)]: the handler runs whenever the value
    changes, also when the change is made by code the handler itself calls;
    [fuel] bounds the depth of that nesting. *)
Fixpoint connect (handler : (Z -> M unit) -> Z -> M unit) (fuel : nat)
  : Z -> M unit :=
  fun v =>
    match fuel with
    | O => fun _ => OutOfFuel
    | S fuel' => handler (connect handler fuel') v
    end.

(** The date of the top visible row, row 0 when there is none. *)
Definition top_visible_date : M date :=
  top_row <- rowAt0 ;;
  let top_row := if top_row <? 0 then 0 else top_row in
  m <- get ;;
  lift_opt OverflowError (Date.add_days (range_start (app m)) top_row).

Fixpoint repeat_n (n : nat) (c : M unit) : M unit :=
  match n with
  | O => pass
  | S n' => c ;; repeat_n n' c
  end.

End Qt.

(* ===================================================================== *)
(** ** Revision [D-Scheduler_Code] *)
(* ===================================================================== *)

Module Code.

Import Py Machine IO Qt.
Local Open Scope py_scope.

(** [obj.get(k, dflt)]; only a dict has the method. *)
Definition py_get (obj : pyval) (k : string) (dflt : pyval) : M pyval :=
  match obj with
  | PDict d => ret (default dflt (dict_get k d))
  | _ => raise AttributeError
  end.

(** The in-memory columns and cells as Python values, where the loader
    falls back on them. *)
Definition column_to_py (c : column) : pyval :=
  PDict [("id", PStr (col_id c)); ("title", PStr (col_title c));
         ("width", PInt (col_width c))].

Definition columns_to_py (cols : list column) : pyval :=
  PList (map column_to_py cols).

Definition entry_to_py (e : gmap string string) : pyval :=
  PDict (map (fun kv => (kv.1, PStr kv.2)) (map_to_list e)).

Definition cells_to_py (cs : Cells) : pyval :=
  PDict (map (fun kv => (kv.1, entry_to_py kv.2)) (map_to_list cs)).

(** The loop over [cols_raw]. *)
Fixpoint load_columns (raw : list pyval) (seen : gset string)
    (cols : list column) : M (list column) :=
  match raw with
  | [] => ret cols
  | PDict c :: rest =>
      let given :=
        strip (py_str (py_or (default PNone (dict_get "id" c)) (PStr ""))) in
      cid <- (if String.eqb given "" then
                h <- uuid_hex ;; ret (uuid_str h)
              else ret given) ;;
      cid <- (if bool_decide (cid ∈ seen) then
                h <- uuid_hex ;; ret (cid +:+ "-" +:+ substring 0 4 h)
              else ret cid) ;;
      let title :=
        py_str (py_or (default PNone (dict_get "title" c)) (PStr cid)) in
      let width :=
        default 240 (py_int (default (PInt 240) (dict_get "width" c))) in
      let width := Z.max 80 (Z.min width 1200) in
      load_columns rest ({[cid]} ∪ seen)
        (cols ++ [{| col_id := cid; col_title := title; col_width := width |}])
  | _ :: rest => load_columns rest seen cols
  end.

(** ["" if txt is None else str(txt)] *)
Definition text_of (txt : pyval) : string :=
  match txt with
  | PNone => ""
  | _ => py_str txt
  end.

(** The inner loop over the items of one day. *)
Definition load_entry (v : pydict) : gmap string string :=
  fold_left (fun entry kv => <[kv.1 := text_of kv.2]> entry) v ∅.

(** The loop over [cells_raw.items()]. *)
Definition load_cells (raw : pydict) : Cells :=
  fold_left
    (fun cells kv =>
       if re_fullmatch_date kv.1 then
         match kv.2 with
         | PDict v => <[kv.1 := load_entry v]> cells
         | _ => cells
         end
       else cells)
    raw ∅.

Definition _load_json_path (path : string) (silent : bool) : M bool :=
  try_except
    (obj <- json_load path ;;
     m <- get ;;
     (* columns *)
     cols_raw <- py_get obj "columns" (columns_to_py (columns (app m))) ;;
     cols <- match cols_raw with
             | PList l => load_columns l ∅ []
             | _ => ret []
             end ;;
     match cols with [] => raise ValueError | _ => pass end ;;
     (* cells *)
     cells_raw <- py_get obj "cells" (cells_to_py (cells (app m))) ;;
     let cells := match cells_raw with
                  | PDict d => load_cells d
                  | _ => ∅
                  end in
     modify (on_app (with_columns cols)) ;;
     modify (on_app (with_cells cells)) ;;
     (* year / month *)
     y <- py_get obj "year" PNone ;;
     mo <- py_get obj "month" PNone ;;
     match as_int y, as_int mo with
     | Some y, Some mo =>
         if (1 <=? mo) && (mo <=? 12) then
           ms <- lift_opt ValueError (Date.mkdate y mo 1) ;;
           modify (on_app (with_range_start ms)) ;;
           e <- lift_opt OverflowError (Date.add_days ms 61) ;;
           modify (on_app (with_range_end e))
         else pass
     | _, _ => pass
     end ;;
     modify (on_app (with_dirty false)) ;;
     ret true)
    (fun e =>
       when (negb silent) (QMessageBox_warning "読み込み失敗") ;;
       ret false).

(** [path.with_suffix(path.suffix + ".tmp")]: the name with [.tmp] appended;
    a path without a name is refused. *)
Definition no_name (path : string) : bool :=
  String.eqb path "" || String.eqb path "." || String.eqb path "/".

Definition with_suffix_tmp (path : string) : M string :=
  if no_name path then raise ValueError else ret (path +:+ ".tmp").

Definition document (a : CalendarApp) : pyval :=
  PDict [("columns", columns_to_py (columns a)); ("cells", cells_to_py (cells a))].

Definition _write_json (path : string) : M unit :=
  try_except
    (mkdir_parents path ;;
     tmp <- with_suffix_tmp path ;;
     open_w tmp ;;
     m <- get ;;
     json_dump (document (app m)) tmp ;;
     close tmp ;;
     replace tmp path)
    (fun e => QMessageBox_warning "保存失敗").

Definition _mark_dirty : M unit := modify (on_app (with_dirty true)).

Definition _autosave_tick : M unit :=
  m <- get ;;
  if _dirty (app m) then
    try_except
      (_write_json (autosave_path (app m)) ;;
       modify (on_app (with_dirty false)))
      (fun e => pass)
  else pass.

(** The search dialog's reading of a key of [cells]:
    [y, m, d = map(int, key.split("-")); date(y, m, d)], for a key of the
    loader's shape.  [None] where the dialog skips the key. *)
Definition key_date (key : string) : option date :=
  if re_fullmatch_date key then
    y ← int_of_str (substring 0 4 key);
    mo ← int_of_str (substring 5 2 key);
    d ← int_of_str (substring 8 2 key);
    Date.mkdate y mo d
  else None.

(** *** The view window *)

Definition _begin_table_update : M unit :=
  modify (on_app (with_is_building true)) ;;
  prev <- blockSignals true ;;
  modify (on_app (with_sb_prev_block prev)).

Definition _end_table_update : M unit :=
  m <- get ;;
  blockSignals (_sb_prev_block (app m)) ;;
  modify (on_app (with_is_building false)).

(** [slot] is what is connected to the bar's [valueChanged]. *)
Definition scroll_to_date (slot : Z -> M unit) (dt : date) : M unit :=
  m <- get ;;
  if (dt <? range_start (app m)) || (range_end (app m) <? dt) then pass
  else scrollToItem slot (Z.to_nat (dt - range_start (app m))).

Definition rebuild_range (slot : Z -> M unit) (start end_ : date)
    (keep_scroll : bool) : M unit :=
  rc <- rowCount ;;
  anchor_dt <- (if keep_scroll && (0 <? rc)
                then d <- top_visible_date ;; ret (Some d)
                else ret None) ;;
  _begin_table_update ;;
  try_finally
    (modify (on_app (fun a => with_range_end end_ (with_range_start start a))) ;;
     let total_days := end_ - start + 1 in
     clear ;;
     setRowCount total_days ;;
     build_rows (Z.to_nat total_days) 0 start)
    _end_table_update ;;
  match anchor_dt with
  | Some d => scroll_to_date slot d
  | None => pass
  end.

Definition rebuild_all (slot : Z -> M unit) : M unit :=
  m <- get ;;
  rebuild_range slot (range_start (app m)) (range_end (app m)) true.

Definition set_view_anchor (slot : Z -> M unit) (anchor : date) : M unit :=
  modify (on_app (with_current_anchor_date anchor)) ;;
  end_ <- lift_opt OverflowError (Date.add_days anchor 61) ;;
  rebuild_range slot anchor end_ false.

(** [actionTriggered] of the scroll bar: the user acted on it.  The time
    for which the action counts is [int(refreshRate() or 60) * 4]. *)
Definition _on_scroll_action : M unit :=
  m <- get ;;
  let rate := qt_refresh_rate (os m) in
  let hz := if numer rate =? 0 then 60 else int_of_fraction rate in
  modify (on_app (with_last_user_scroll (Some (clock_ms (os m), hz * 4)))).

Definition _append_days_auto (slot : Z -> M unit) (n : Z) : M unit :=
  prev <- blockSignals true ;;
  try_finally
    (m <- get ;;
     end_ <- lift_opt OverflowError (Date.add_days (range_end (app m)) n) ;;
     rebuild_range slot (range_start (app m)) end_ true)
    (blockSignals prev ;; pass).

Definition _prepend_days_auto (slot : Z -> M unit) (n : Z) : M unit :=
  prev <- blockSignals true ;;
  try_finally
    (m <- get ;;
     start <- lift_opt OverflowError (Date.add_days (range_start (app m)) (- n)) ;;
     rebuild_range slot start (range_end (app m)) true)
    (blockSignals prev ;; pass).

(** The gate: a user action on the bar recorded at most
    [max(80, expire)] ms ago, or the slider held down. *)
Definition user_gate (m : machine) : bool :=
  let ok_user :=
    match _last_user_scroll (app m) with
    | Some (last, expire) => clock_ms (os m) - last <=? Z.max 80 expire
    | None => false
    end in
  let ok_drag := sliderDown (bar (app m)) in
  ok_user || ok_drag.

Definition _on_scroll_extend_if_needed (slot : Z -> M unit) (_value : Z)
  : M unit :=
  m <- get ;;
  if negb (user_gate m) then pass
  else
    let rng := maximum m - 0 in
    if rng <=? 0 then pass
    else
      let near := Z.max 8 (rng / 20) in
      if maximum m - near <=? value (bar (app m)) then
        _append_days_auto slot (expand_each (app m))
      else if value (bar (app m)) <=? 0 + near then
        _prepend_days_auto slot (expand_each (app m))
      else pass.

(** The slot as wired in [__init__]. *)
Definition valueChanged (fuel : nat) : Z -> M unit :=
  connect _on_scroll_extend_if_needed fuel.

End Code.

(* ===================================================================== *)
(** ** Revision [D-Scheduler] *)
(* ===================================================================== *)

Module Sched.

Import Py Machine IO Qt.
Local Open Scope py_scope.

(** *** The view window *)

Definition scroll_to_date (slot : Z -> M unit) (dt : date) : M unit :=
  m <- get ;;
  if (dt <? range_start (app m)) || (range_end (app m) <? dt) then pass
  else scrollToItem slot (Z.to_nat (dt - range_start (app m))).

Definition rebuild_range (slot : Z -> M unit) (start end_ : date)
    (keep_scroll : bool) : M unit :=
  rc <- rowCount ;;
  anchor_dt <- (if keep_scroll && (0 <? rc)
                then d <- top_visible_date ;; ret (Some d)
                else ret None) ;;
  modify (on_app (fun a => with_range_end end_ (with_range_start start a))) ;;
  let total_days := end_ - start + 1 in
  clear ;;
  setRowCount total_days ;;
  build_rows (Z.to_nat total_days) 0 start ;;
  match anchor_dt with
  | Some d => scroll_to_date slot d
  | None => pass
  end.

Definition rebuild_all (slot : Z -> M unit) : M unit :=
  m <- get ;;
  rebuild_range slot (range_start (app m)) (range_end (app m)) true.

Definition set_view_anchor (slot : Z -> M unit) (anchor : date) : M unit :=
  modify (on_app (with_current_anchor_date anchor)) ;;
  end_ <- lift_opt OverflowError (Date.add_days anchor 61) ;;
  rebuild_range slot anchor end_ false.

Definition _append_days (n : Z) : M unit :=
  start_row <- rowCount ;;
  setRowCount (start_row + n) ;;
  m <- get ;;
  dt <- lift_opt OverflowError (Date.add_days (range_end (app m)) 1) ;;
  build_rows (Z.to_nat n) start_row dt ;;
  end_ <- lift_opt OverflowError (Date.add_days (range_end (app m)) n) ;;
  modify (on_app (with_range_end end_)).

Definition _prepend_days (slot : Z -> M unit) (n : Z) : M unit :=
  anchor_dt <- top_visible_date ;;
  repeat_n (Z.to_nat n) insertRow0 ;;
  m <- get ;;
  dt <- lift_opt OverflowError (Date.add_days (range_start (app m)) (- n)) ;;
  build_rows (Z.to_nat n) 0 dt ;;
  start <- lift_opt OverflowError (Date.add_days (range_start (app m)) (- n)) ;;
  modify (on_app (with_range_start start)) ;;
  scroll_to_date slot anchor_dt.

Definition _on_scroll_extend_if_needed (slot : Z -> M unit) (_value : Z)
  : M unit :=
  m <- get ;;
  let val := value (bar (app m)) in
  let mx := maximum m in
  when (mx - val <? 120) (_append_days 60) ;;
  when (val <? 120) (_prepend_days slot 60).

(** The slot as wired in [__init__]. *)
Definition valueChanged (fuel : nat) : Z -> M unit :=
  connect _on_scroll_extend_if_needed fuel.

(** *** Persistence *)

Definition document (m : machine) : pyval :=
  PDict [("year", PInt (Date.year (range_start (app m))));
         ("month", PInt (Date.month (range_start (app m))));
         ("columns", Code.columns_to_py (columns (app m)));
         ("cells", Code.cells_to_py (cells (app m)));
         ("savedAt", PStr (now_iso (os m)))].

Definition _write_json (path : string) : M unit :=
  m <- get ;;
  let obj := document m in
  open_w path ;;
  json_dump obj path ;;
  close path.

Definition _mark_dirty : M unit := modify (on_app (with_dirty true)).

Definition _autosave_tick : M unit :=
  m <- get ;;
  if _dirty (app m) then
    try_except
      (_write_json (autosave_path (app m)) ;;
       modify (on_app (with_dirty false)))
      (fun e => pass)
  else pass.

(** *** The settings dialog: removing the selected column *)


(** [_save_settings]: the settings file is rewritten, failures are
    ignored.  (Of the settings only the columns are part of the model.) *)
Definition SETTINGS_PATH : string := "~/.calendar_notes_settings.json".

Definition _save_settings : M unit :=
  try_except
    (m <- get ;;
     open_w SETTINGS_PATH ;;
     json_dump (PDict [("columns", Code.columns_to_py (columns (app m)))])
       SETTINGS_PATH ;;
     close SETTINGS_PATH)
    (fun e => pass).


End Sched.

(* ===================================================================== *)
(** ** Weakest preconditions and the relations used in the statements *)
(* ===================================================================== *)

Module Logic.

Import Py Machine IO Qt.

(** [wp_gen F c Q E m]: run from [m], [c] returns [a] in a machine with
    [Q a], or raises [e] in a machine with [E e]; [F] says whether running
    out of fuel is acceptable. *)
Definition wp_gen (F : Prop) {A} (c : M A) (Q : A -> machine -> Prop)
    (E : exn -> machine -> Prop) (m : machine) : Prop :=
  match c m with
  | Ret a m' => Q a m'
  | Raise e m' => E e m'
  | OutOfFuel => F
  end.

(** Total: the method ends. *)
Abbreviation wp := (wp_gen False).

(** The I/O calls still to come all succeed. *)
Definition io_fine (m : machine) : Prop :=
  forall i, (io_count (os m) <= i)%nat -> io_ok (os m) i = true.

(** [m'] is [m] after some calls into the file system: only the files,
    their history and the call counter may differ. *)
Definition fs_only (m m' : machine) : Prop :=
  app m' = app m
  /\ io_ok (os m') = io_ok (os m)
  /\ (io_count (os m) <= io_count (os m'))%nat
  /\ chunks (os m') = chunks (os m)
  /\ uuid4 (os m') = uuid4 (os m)
  /\ uuid_count (os m') = uuid_count (os m)
  /\ dialogs (os m') = dialogs (os m).

(** The machine after one more call into the file system. *)
Definition bump (m : machine) : machine :=
  on_os (with_io_count (S (io_count (os m)))) m.

(** The snapshots a reader could have taken between [m] and [m']. *)
Definition snapshots_since (m m' : machine) : list (gmap string content) :=
  take (length (history (os m')) - length (history (os m))) (history (os m')).

(** A write of [doc m] to [p] from [m] never exposes a partial file: at
    every moment the destination holds what it held before or the complete
    new document. *)
Definition never_partial (write : string -> M unit) (doc : machine -> pyval)
    (p : string) (m : machine) : Prop :=
  forall m', final (write p m) = Some m' ->
    forall snap, snap ∈ snapshots_since m m' ->
      snap !! p = files (os m) !! p \/ snap !! p = Some (Doc (doc m)).

(** During a write that has not touched [p] yet. *)
Record untouched (p : string) (m0 m : machine) : Prop := {
  un_app : app m = app m0;
  un_dialogs : dialogs (os m) = dialogs (os m0);
  un_hist : exists snaps, history (os m) = snaps ++ history (os m0)
            /\ Forall (fun s => s !! p = files (os m0) !! p) snaps;
  un_files : files (os m) !! p = files (os m0) !! p
}.

(** After the destination [p] was replaced by [c]. *)
Record replaced (p : string) (c : content) (m0 m : machine) : Prop := {
  re_app : app m = app m0;
  re_dialogs : dialogs (os m) = dialogs (os m0);
  re_hist : exists snaps, history (os m) = snaps ++ history (os m0)
            /\ Forall (fun s => s !! p = files (os m0) !! p \/ s !! p = Some c)
                 snaps;
  re_files : files (os m) !! p = Some c
}.

(** Values built by [json.load]: the keys of every dict are distinct. *)
Inductive wf : pyval -> Prop :=
| wf_none : wf PNone
| wf_bool b : wf (PBool b)
| wf_int z : wf (PInt z)
| wf_float f : wf (PFloat f)
| wf_str s : wf (PStr s)
| wf_list l : Forall wf l -> wf (PList l)
| wf_dict d : NoDup d.*1 -> Forall (fun kv => wf kv.2) d -> wf (PDict d).

Definition is_dict (v : pyval) : bool :=
  match v with PDict _ => true | _ => false end.

(** The cells the loader adopts for the parsed document [d]. *)
Definition loaded_cells (d : pydict) (a : CalendarApp) : Cells :=
  match default (Code.cells_to_py (cells a)) (dict_get "cells" d) with
  | PDict cs => Code.load_cells cs
  | _ => ∅
  end.

(** One round of the loop over [cells_raw.items()]. *)
Definition day_of (kv : string * pyval) : option (gmap string string) :=
  if re_fullmatch_date kv.1 then
    match kv.2 with
    | PDict v => Some (Code.load_entry v)
    | _ => None
    end
  else None.

Definition cells_step (cells : Cells) (kv : string * pyval) : Cells :=
  if re_fullmatch_date kv.1 then
    match kv.2 with
    | PDict v => <[kv.1 := Code.load_entry v]> cells
    | _ => cells
    end
  else cells.

(** What the window operations may do to the application: the data stays,
    the window does not shrink. *)
Record evolves (m m' : machine) : Prop := {
  ev_columns : columns (app m') = columns (app m);
  ev_cells : cells (app m') = cells (app m);
  ev_dirty : _dirty (app m') = _dirty (app m);
  ev_os : os m' = os m;
  ev_start : range_start (app m') <= range_start (app m);
  ev_end : range_end (app m) <= range_end (app m')
}.

(** The same, with the window left as it is. *)
Record repaints (m m' : machine) : Prop := {
  rp_columns : columns (app m') = columns (app m);
  rp_cells : cells (app m') = cells (app m);
  rp_dirty : _dirty (app m') = _dirty (app m);
  rp_os : os m' = os m;
  rp_start : range_start (app m') = range_start (app m);
  rp_end : range_end (app m') = range_end (app m);
  rp_anchor : current_anchor_date (app m') = current_anchor_date (app m);
  rp_gate : _last_user_scroll (app m') = _last_user_scroll (app m);
  rp_expand : expand_each (app m') = expand_each (app m);
  rp_down : sliderDown (bar (app m')) = sliderDown (bar (app m))
}.

(** The operations of the application on its view window, the load of a
    file apart. *)
Inductive window_op :=
| JumpTo (anchor : date)
| ExtendForward (n : Z)
| ExtendBackward (n : Z)
| RebuildAll.

Definition run_op (fuel : nat) (op : window_op) : M unit :=
  match op with
  | JumpTo anchor => Sched.set_view_anchor (Sched.valueChanged fuel) anchor
  | ExtendForward n => Sched._append_days n
  | ExtendBackward n => Sched._prepend_days (Sched.valueChanged fuel) n
  | RebuildAll => Sched.rebuild_all (Sched.valueChanged fuel)
  end.

(** The precondition of the extensions: [n > 0]. *)
Definition op_ok (op : window_op) : Prop :=
  match op with
  | ExtendForward n | ExtendBackward n => 0 < n
  | _ => True
  end.

Definition is_jump (op : window_op) : bool :=
  match op with JumpTo _ => true | _ => false end.

(** The rows of a window of [n] days from [start] over [ncols] columns
    without any text. *)
Definition empty_rows (start : date) (n : nat) (ncols : nat)
  : list (option row) :=
  map (fun i => Some {| row_date := start + Z.of_nat i;
                        editors := replicate ncols "" |}) (seq 0 n).

(** Induction over values, through the lists and dicts they contain. *)
Section pyval_induction.
Variable P : pyval -> Prop.
Hypothesis Hnone : P PNone.
Hypothesis Hbool : forall b, P (PBool b).
Hypothesis Hint : forall z, P (PInt z).
Hypothesis Hfloat : forall f, P (PFloat f).
Hypothesis Hstr : forall s, P (PStr s).
Hypothesis Hlist : forall l, Forall P l -> P (PList l).
Hypothesis Hdict : forall d, Forall (fun kv => P kv.2) d -> P (PDict d).

Fixpoint pyval_nested_ind (v : pyval) : P v :=
  match v with
  | PNone => Hnone
  | PBool b => Hbool b
  | PInt z => Hint z
  | PFloat f => Hfloat f
  | PStr s => Hstr s
  | PList l =>
      Hlist l ((fix go (l : list pyval) : Forall P l :=
                  match l with
                  | [] => @List.Forall_nil _ P
                  | x :: t => @List.Forall_cons _ P x t (pyval_nested_ind x) (go t)
                  end) l)
  | PDict d =>
      Hdict d ((fix go (d : list (string * pyval)) : Forall (fun kv => P kv.2) d :=
                  match d with
                  | [] => @List.Forall_nil _ _
                  | (k, x) :: t =>
                      @List.Forall_cons _ (fun kv => P kv.2) (k, x) t (pyval_nested_ind x) (go t)
                  end) d)
  end.
End pyval_induction.

(** The row [_build_row] makes for a day, and the rows of a window. *)
Definition row_for (a : CalendarApp) (dt : date) : option row :=
  Some {| row_date := dt;
          editors := map (fun c => cell_text (cells a) (Date.date_key dt) (col_id c))
                         (columns a) |}.

Definition rows_for (a : CalendarApp) (start : date) (n : nat) : list (option row) :=
  map (fun i => row_for a (start + Z.of_nat i)) (seq 0 n).

(** A slot connected to [valueChanged] that, run from a machine with [P],
    only lets the application evolve and can only fail on the calendar's
    end. *)
Definition slot_ok (F : Prop) (P : machine -> Prop) (slot : Z -> M unit) : Prop :=
  forall v m, P m ->
    wp_gen F (slot v) (fun _ m' => evolves m m')
      (fun e m' => e = OverflowError /\ evolves m m') m.

(** Fuel for every nested signal: each nesting moves the start of the
    window at least one day towards day 1. *)
Definition bounded (F : Prop) (fuel : nat) (m : machine) : Prop :=
  F \/ (Z.to_nat (range_start (app m)) < fuel)%nat.

(** The machine with the window set to [start .. end_]. *)
Definition set_range (start end_ : date) (m : machine) : machine :=
  on_app (fun a => with_range_end end_ (with_range_start start a)) m.


End Logic.

(* ===================================================================== *)
(** ** Concrete machines *)
(* ===================================================================== *)

Module Examples.

Import Py Machine.

(** An environment in which every I/O call succeeds, the screen is
    refreshed 60 times a second, rows are 30 units high and the viewport
    shows 20 of them. *)
Definition env : world :=
  {| files := ∅; history := []; io_ok := fun _ => true; io_count := 0;
     chunks := fun _ => 2%nat;
     uuid4 := fun _ => "0123456789abcdef0123456789abcdef";
     uuid_count := 0; dialogs := []; clock_ms := 1000;
     now_iso := "2025-01-01T09:00:00";
     qt_refresh_rate := {| numer := 60; denom := 1 |};
     qt_row_at := fun _ v => v / 30;
     qt_value_for := fun _ i => 30 * Z.of_nat i;
     qt_maximum := fun t => Z.max 0 (30 * Z.of_nat (length t) - 600) |}.

(** The same with a disk that refuses every call. *)
Definition env_disk_full : world :=
  {| files := ∅; history := []; io_ok := fun _ => false; io_count := 0;
     chunks := fun _ => 2%nat;
     uuid4 := fun _ => "0123456789abcdef0123456789abcdef";
     uuid_count := 0; dialogs := []; clock_ms := 1000;
     now_iso := "2025-01-01T09:00:00";
     qt_refresh_rate := {| numer := 60; denom := 1 |};
     qt_row_at := fun _ v => v / 30;
     qt_value_for := fun _ i => 30 * Z.of_nat i;
     qt_maximum := fun t => Z.max 0 (30 * Z.of_nat (length t) - 600) |}.

Definition jan1 : date := Date.ymd2ord 2025 1 1.

(** The application as [__init__] leaves its attributes, before any file
    is loaded and any row is built, with one column. *)
Definition fresh : CalendarApp :=
  {| columns := [ {| col_id := "col-1"; col_title := "plan"; col_width := 260 |} ];
     cells := ∅; range_start := jan1 - 31; range_end := jan1 + 31;
     current_anchor_date := jan1; _dirty := false;
     autosave_path := "notes.json"; expand_each := 60;
     _is_building := false; _sb_prev_block := false;
     _last_user_scroll := None; table := [];
     bar := {| value := 0; sliderDown := false; signalsBlocked := false |} |}.

Definition with_file (p : string) (c : content) (m : machine) : machine :=
  on_os (fun w => with_files (<[p := c]> (files w)) w) m.

Definition start : machine := {| app := fresh; os := env |}.

(** A document with a key that is no date and a key of the date shape
    that names no day of the calendar. *)
Definition doc_feb30 : pyval :=
  PDict [("columns", PList [PDict [("id", PStr "col-1"); ("title", PStr "plan");
                                   ("width", PInt 260)]]);
         ("cells", PDict [("bad-key", PDict [("col-1", PStr "x")]);
                          ("2025-02-30", PDict [("col-1", PStr "y")])])].

(** A document whose cells use a column that the columns do not define. *)
Definition doc_ghost : pyval :=
  PDict [("columns", PList [PDict [("id", PStr "col-1"); ("title", PStr "plan");
                                   ("width", PInt 260)]]);
         ("cells", PDict [("2025-01-05",
                           PDict [("col-1", PStr "meeting");
                                  ("ghost", PStr "kept"); ("n", PNone);
                                  ("i", PInt 7)])])].

(** A document with good columns and the last month of the calendar: the
    first of the month is a date, the day 61 days later is not. *)
Definition doc_year9999 : pyval :=
  PDict [("columns", PList [PDict [("id", PStr "col-1"); ("title", PStr "plan");
                                   ("width", PInt 260)]]);
         ("cells", PDict []);
         ("year", PInt 9999); ("month", PInt 12)].

(** A document with good columns and cells and a year that is no year. *)
Definition doc_year0 : pyval :=
  PDict [("columns", PList [PDict [("id", PStr "other"); ("title", PStr "other");
                                   ("width", PInt 100)]]);
         ("cells", PDict [("2025-01-05", PDict [("other", PStr "z")])]);
         ("year", PInt 0); ("month", PInt 1)].

(** The machine holding in memory what it loaded from [doc_feb30]. *)
Definition loaded_feb30 : machine :=
  match Code._load_json_path "in.json" true
          (with_file "in.json" (Doc doc_feb30) start) with
  | Ret _ m => m
  | _ => start
  end.

(** The machine holding in memory what it loaded from [doc_ghost]. *)
Definition loaded_ghost : machine :=
  match Code._load_json_path "in.json" true
          (with_file "in.json" (Doc doc_ghost) start) with
  | Ret _ m => m
  | _ => start
  end.

(** A machine whose file [notes.json] holds an earlier save. *)
Definition saved : machine := with_file "notes.json" (Doc doc_ghost) start.

(** Unsaved edits and a disk that refuses every call. *)
Definition dirty_disk_full : machine :=
  {| app := with_dirty true fresh; os := env_disk_full |}.

(** The window built around 2025-01-01, 62 rows. *)
Definition shown (fuel : nat) : machine :=
  match Sched.set_view_anchor (Sched.valueChanged fuel) jan1 start with
  | Ret _ m => m
  | _ => start
  end.

(** The same in the later revision, and after the user has then acted on
    the scroll bar. *)
Definition code_shown : machine :=
  match Code.set_view_anchor (Code.valueChanged 1) jan1 start with
  | Ret _ m => m
  | _ => start
  end.

Definition code_scrolled : machine :=
  match Code._on_scroll_action code_shown with
  | Ret _ m => m
  | _ => code_shown
  end.

End Examples.

(* ===================================================================== *)
(** ** The calendar, checked over one cycle of 400 years *)
(* ===================================================================== *)

Module Calendar.

Import Py.

(** [P] holds for the [fuel] numbers from [n] on. *)
Fixpoint all_from (P : Z -> bool) (fuel : nat) (n : Z) : bool :=
  match fuel with
  | O => true
  | S f => P n && all_from P f (n + 1)
  end.

(** The days of one cycle of 400 years: the date of ordinal [n] is a date of
    the calendar, and its ordinal is [n]. *)
Definition cycle_ok (n : Z) : bool :=
  let '(y, m, d) := Date.ord2ymd n in
  (1 <=? y) && (y <=? 400) && (negb (n <=? 145731) || (y <=? 399))
  && (1 <=? m) && (m <=? 12) && (1 <=? d) && (d <=? Date.days_in_month y m)
  && (Date.ymd2ord y m d =? n).

(** The dates of one year: the ordinal of each gives the date back. *)
Definition month_ok (y m : Z) : bool :=
  all_from
    (fun d =>
       let n := Date.ymd2ord y m d in
       (1 <=? n) && (n <=? 146097) && bool_decide (Date.ord2ymd n = (y, m, d)))
    (Z.to_nat (Date.days_in_month y m)) 1.

Definition year_ok (y : Z) : bool := all_from (month_ok y) 12 1.

(** A number below 10^[w] is written with [w] digits, and [int] reads it
    back. *)
Definition all_digits (s : string) : bool :=
  forallb is_digit (list_ascii_of_string s).

Definition padded_ok (w : nat) (n : Z) : bool :=
  let s := Date.zfill w (string_of_Z n) in
  (String.length s =? w)%nat && all_digits s
  && bool_decide (int_of_str s = Some n).

End Calendar.

(* ===================================================================== *)
(** ** Text utilities of the module level *)
(* ===================================================================== *)

Module Text.

Import Py.

(** [s[-1]] and [s[:-1]]. *)
Fixpoint str_last (s : string) : option ascii :=
  match s with
  | EmptyString => None
  | String c EmptyString => Some c
  | String _ t => str_last t
  end.

Fixpoint str_init (s : string) : string :=
  match s with
  | EmptyString => EmptyString
  | String c EmptyString => EmptyString
  | String c t => String c (str_init t)
  end.

(** A Python [str] in full is the list of its code points.  A string of
    the model, of code points below 256, is the list [codes] gives, and
    [of_codes] is the string of such a list. *)
Definition codes (s : string) : list N :=
  map N_of_ascii (list_ascii_of_string s).

Definition of_codes (l : list N) : string :=
  string_of_list_ascii (map ascii_of_N l).

(** The characters of [")]}.,;:!?、。"], as code points; the last two are
    U+3001 and U+3002. *)
Definition TRAILING_PUNCT : list N :=
  [41; 93; 125; 46; 44; 59; 58; 33; 63; 12289; 12290]%N.

Definition is_trailing_punct (c : N) : bool :=
  existsb (N.eqb c) TRAILING_PUNCT.

(** [while u and u[-1] in ")]}.,;:!?、。": u = u[:-1]]; every round makes [u]
    shorter, so that [len(u)] rounds are enough. *)
Fixpoint strip_loop (fuel : nat) (u : list N) : list N :=
  match fuel with
  | O => u
  | S fuel' =>
      match last u with
      | Some c => if is_trailing_punct c then strip_loop fuel' (removelast u) else u
      | None => u
      end
  end.

(** [_strip_url_trailing_punct(u)], for any [str]. *)
Definition _strip_url_trailing_punct (u : list N) : list N :=
  match u with
  | [] => u
  | _ => strip_loop (length u) u
  end.

(** *** [URL_RE = re.compile(r"https?://\S+", re.IGNORECASE)] *)

(** A lower-case letter of the pattern against a character of the text,
    ignoring case. *)
Definition ci (p c : ascii) : bool :=
  (N_of_ascii c =? N_of_ascii p)%N || (N_of_ascii c + 32 =? N_of_ascii p)%N.

(** What is left of [s] after the prefix [p]. *)
Fixpoint strip_prefix (eq : ascii -> ascii -> bool) (p s : string)
  : option string :=
  match p, s with
  | EmptyString, _ => Some s
  | String a p', String c s' => if eq a c then strip_prefix eq p' s' else None
  | String _ _, EmptyString => None
  end.

(** The length of the longest run of [\S] at the start of [s]. *)
Fixpoint nonspace_run (s : string) : nat :=
  match s with
  | EmptyString => O
  | String c t => if is_space c then O else S (nonspace_run t)
  end.

(** [://\S+] at the start of [r]: the length of the match. *)
Definition url_tail (r : string) : option nat :=
  r' ← strip_prefix Ascii.eqb "://" r;
  let n := nonspace_run r' in
  if (n =? 0)%nat then None else Some (3 + n)%nat.

(** The pattern at the start of [s]: the length of the match.  The optional
    [s] is tried first. *)
Definition url_match (s : string) : option nat :=
  r1 ← strip_prefix ci "http" s;
  let with_s :=
    match r1 with
    | String c r => if ci "s" c then S <$> url_tail r else None
    | EmptyString => None
    end in
  (fun n => 4 + n)%nat <$>
    (match with_s with Some n => Some n | None => url_tail r1 end).

(** [URL_RE.findall(s)]: the matches from left to right, the search going
    on behind each match; [skip] characters belong to the last match. *)
Fixpoint findall_from (skip : nat) (s : string) : list string :=
  match s with
  | EmptyString => []
  | String c t =>
      match skip with
      | S k => findall_from k t
      | O =>
          match url_match s with
          | Some n => substring 0 n s :: findall_from (n - 1) t
          | None => findall_from 0 t
          end
      end
  end.

Definition URL_RE_findall (s : string) : list string := findall_from 0 s.

(** [AutoResizeTextEdit._extract_urls], for the text [txt] of the editor. *)
Definition _extract_urls (txt : string) : list string :=
  map (fun u => of_codes (_strip_url_trailing_punct (codes u)))
      (URL_RE_findall txt).

(** *** [str.lower], [in], [str.replace], [str.split], [str.splitlines] *)

(** In the code points below 256 the upper-case letters are A-Z and the
    letters from 192 to 222 except the multiplication sign. *)
Definition lower_ascii (c : ascii) : ascii :=
  let n := N_of_ascii c in
  if ((65 <=? n) && (n <=? 90)
      || (192 <=? n) && (n <=? 222) && negb (n =? 215))%N
  then ascii_of_N (n + 32) else c.

Fixpoint lower (s : string) : string :=
  match s with
  | EmptyString => EmptyString
  | String c t => String (lower_ascii c) (lower t)
  end.

(** [q in s] *)
Fixpoint contains (q s : string) : bool :=
  String.prefix q s
  || match s with
     | EmptyString => false
     | String _ t => contains q t
     end.

(** [s.replace("\n", " ")] *)
Fixpoint newlines_to_spaces (s : string) : string :=
  match s with
  | EmptyString => EmptyString
  | String c t =>
      String (if (N_of_ascii c =? 10)%N then " "%char else c)
             (newlines_to_spaces t)
  end.

(** [s.split(sep)] for a separator of one character. *)
Fixpoint split_on (sep : ascii) (s : string) : list string :=
  match s with
  | EmptyString => [EmptyString]
  | String c t =>
      if Ascii.eqb c sep then EmptyString :: split_on sep t
      else match split_on sep t with
           | p :: ps => String c p :: ps
           | [] => [String c EmptyString]
           end
  end.

(** [re.split(r"[,\s]+", s)]: the pieces between the longest runs of commas
    and white space; [in_sep] says that the character before was one. *)
Definition is_sep (c : ascii) : bool := Ascii.eqb c "," || is_space c.

Fixpoint re_split_seps (in_sep : bool) (s : string) : list string :=
  match s with
  | EmptyString => [EmptyString]
  | String c t =>
      if is_sep c then
        if in_sep then re_split_seps true t
        else EmptyString :: re_split_seps true t
      else match re_split_seps false t with
           | p :: ps => String c p :: ps
           | [] => [String c EmptyString]
           end
  end.

(** The line boundaries of [str.splitlines] below 256: LF, VT, FF, CR, FS,
    GS, RS and NEL; CR LF is one boundary. *)
Definition is_linebreak (c : ascii) : bool :=
  let n := N_of_ascii c in
  (((10 <=? n) && (n <=? 13)) || ((28 <=? n) && (n <=? 30)) || (n =? 133))%N.

Fixpoint splitlines (s : string) : list string :=
  match s with
  | EmptyString => []
  | String c t =>
      if is_linebreak c then
        EmptyString ::
          match t with
          | String c' t' =>
              if (N_of_ascii c =? 13)%N && (N_of_ascii c' =? 10)%N
              then splitlines t' else splitlines t
          | EmptyString => []
          end
      else match splitlines t with
           | l :: ls => String c l :: ls
           | [] => [String c EmptyString]
           end
  end.

(** *** [parse_holidays_str] *)

Definition parse_holidays_str (s : string) : gset string :=
  if String.eqb s "" then ∅
  else
    fold_left
      (fun vals token =>
         let t := strip token in
         if re_fullmatch_date t then {[t]} ∪ vals else vals)
      (re_split_seps false (strip s)) ∅.

End Text.

(* ===================================================================== *)
(** ** The dialogs *)
(* ===================================================================== *)

Module Dialogs.

Import Py Machine IO Qt Text.
Local Open Scope py_scope.

(** [y, m, d = map(int, key.split("-")); date(y, m, d)] of the search
    dialog; [None] where the [except] clause skips the key. *)
Definition key_to_date (key : string) : option date :=
  match split_on "-" key with
  | [a; b; c] =>
      y ← int_of_str a;
      mo ← int_of_str b;
      d ← int_of_str c;
      Date.mkdate y mo d
  | _ => None
  end.

(** *** The search dialog *)

(** A line of the result tree: the texts of its columns for the column
    title and the content, and the data [(dt.year, dt.month, dt.day)] kept
    with it.  (The label of the date column is presentation and is left
    out.) *)
Record item := {
  item_col : string;
  item_text : string;
  item_data : Z * Z * Z
}.

Definition add_result (dt : date) (col_title txt : string) (tree : list item)
  : list item :=
  tree ++ [{| item_col := col_title; item_text := newlines_to_spaces txt;
              item_data := (Date.year dt, Date.month dt, Date.day dt) |}].

(** [for col in self.app.columns: txt = row.get(col["id"], "") or ""; ...] *)
Definition search_row (q : string) (cols : list column)
    (row : gmap string string) (dt : date) (tree : list item) : list item :=
  fold_left
    (fun tree col =>
       let txt := default "" (row !! col_id col) in
       if contains q (lower txt) then add_result dt (col_title col) txt tree
       else tree)
    cols tree.

(** The scope "all": the loop over [self.app.cells.items()].  (The model
    of [cells] does not keep the order of insertion, so that the order of
    the days in the result is not the one of the program.) *)
Definition search_all (q : string) (a : CalendarApp) (tree : list item)
  : list item :=
  fold_left
    (fun tree kv =>
       match key_to_date kv.1 with
       | Some dt => search_row q (columns a) kv.2 dt tree
       | None => tree
       end)
    (map_to_list (cells a)) tree.

(** How a search ends: with the tree filled, or by an exception that
    leaves the tree as far as it was filled. *)
Inductive searched :=
| Found (tree : list item)
| Broken (e : exn) (tree : list item)
| SearchOutOfFuel.

(** The scope "range":
    [while cur <= self.app.range_end: ...; cur += timedelta(days=1)] *)
Fixpoint search_range (fuel : nat) (q : string) (a : CalendarApp)
    (cur : date) (tree : list item) : searched :=
  match fuel with
  | O => SearchOutOfFuel
  | S fuel' =>
      if cur <=? range_end a then
        let row := default ∅ (cells a !! Date.date_key cur) in
        let tree := search_row q (columns a) row cur tree in
        match Date.add_days cur 1 with
        | Some cur' => search_range fuel' q a cur' tree
        | None => Broken OverflowError tree
        end
      else Found tree
  end.

(** [query] is the text of the search field, [rb_all] the state of the
    radio button "all". *)
Definition _do_search (fuel : nat) (query : string) (rb_all : bool)
    (a : CalendarApp) : searched :=
  let q := lower (strip query) in
  if String.eqb q "" then Found []
  else if rb_all then Found (search_all q a [])
  else search_range fuel q a (range_start a) [].

(** [_jump_and_close(item)] *)
Definition _jump_and_close (slot : Z -> M unit) (it : item) : M unit :=
  let '(y, m, d) := item_data it in
  target <- lift_opt ValueError (Date.mkdate y m d) ;;
  Code.set_view_anchor slot target.

(** *** Holidays *)

(** [jpholiday] is the optional library: [None] when it could not be
    imported, and its [is_holiday] answers [None] where it raises. *)
Definition _is_holiday_jp (jpholiday : option (date -> option bool))
    (holidays : gset string) (dt : date) : bool :=
  match jpholiday with
  | Some is_holiday =>
      match is_holiday dt with
      | Some true => true
      | _ => bool_decide (Date.date_key dt ∈ holidays)
      end
  | None => bool_decide (Date.date_key dt ∈ holidays)
  end.

(** [re.compile(r"^\d{4}-\d{2}-\d{2}$").match(s)]: the dollar also matches
    before a line feed that ends the string. *)
Definition rx_match (s : string) : bool :=
  re_fullmatch_date s
  || match str_last s with
     | Some c => (N_of_ascii c =? 10)%N && re_fullmatch_date (str_init s)
     | None => false
     end.

(** [sorted(set(l))]: the elements of [l] in increasing order, each once. *)
Fixpoint insert_sorted (x : string) (l : list string) : list string :=
  match l with
  | [] => [x]
  | y :: t =>
      match String.compare x y with
      | Lt => x :: l
      | Eq => l
      | Gt => y :: insert_sorted x t
      end
  end.

Definition sorted_set (l : list string) : list string :=
  foldr insert_sorted [] l.

(** The manual holidays of [SettingsDialog._on_apply], from the text of
    the holiday editor, and the string stored under ["holidays"]. *)
Definition mh_list (mh_text : string) : list string :=
  sorted_set
    (List.filter (fun s => negb (String.eqb s "") && rx_match s)
            (map strip (splitlines mh_text))).

Definition line_feed : string := String (ascii_of_N 10) EmptyString.

Definition holidays_setting (mh_text : string) : string :=
  String.concat line_feed (mh_list mh_text).

End Dialogs.

(* ===================================================================== *)
(** ** [D-Scheduler_Code]: editing, saving and opening *)
(* ===================================================================== *)

Module Session.

Import Py Machine IO Qt.
Local Open Scope py_scope.

Definition with_autosave_path (v : string) (x : CalendarApp) : CalendarApp :=
  {| columns := columns x; cells := cells x; range_start := range_start x;
     range_end := range_end x; current_anchor_date := current_anchor_date x;
     _dirty := _dirty x; autosave_path := v; expand_each := expand_each x;
     _is_building := _is_building x; _sb_prev_block := _sb_prev_block x;
     _last_user_scroll := _last_user_scroll x; table := table x;
     bar := bar x |}.

(** The slot that [_build_row] connects to [textChanged] of the editor of
    the day with key [k] and the column [col_id]:
    [self.cells.setdefault(k, {})[col_id] = ed.toPlainText()], with [text]
    the text of the editor. *)
Definition _slot (k col_id text : string) : M unit :=
  modify (on_app (fun a =>
    with_cells (<[k := <[col_id := text]> (default ∅ (cells a !! k))]> (cells a)) a)) ;;
  Code._mark_dirty.

(** [d.setdefault(k, v)] *)
Definition setdefault (k : string) (v : pyval) (d : pydict) : pydict :=
  match dict_get k d with
  | Some _ => d
  | None => d ++ [(k, v)]
  end.

(** [self.settings] and [self.font_pt] are not attributes of the model's
    application object: the methods that use them take them as arguments
    and return the settings as they leave them. *)

(** The assignments and [setdefault] calls at the head of
    [_save_settings]. *)
Definition updated_settings (font_pt : Z) (a : CalendarApp) (settings : pydict)
  : pydict :=
  let s := dict_set "font_pt" (PInt font_pt) settings in
  let s := dict_set "columns" (Code.columns_to_py (columns a)) s in
  let s := setdefault "holidays" (PStr "") s in
  let s := setdefault "autosave_enabled" (PBool true) s in
  let s := setdefault "autosave_interval_sec" (PInt 10) s in
  let s := setdefault "autosave_path" (PStr (autosave_path a)) s in
  setdefault "theme" (default (PStr "light") (dict_get "theme" s)) s.

Definition _save_settings (font_pt : Z) (settings : pydict) : M pydict :=
  m <- get ;;
  let s := updated_settings font_pt (app m) settings in
  try_except
    (open_w Sched.SETTINGS_PATH ;;
     json_dump (PDict s) Sched.SETTINGS_PATH ;;
     close Sched.SETTINGS_PATH)
    (fun e => pass) ;;
  ret s.

(** [chosen] is the path that the file dialog returns, empty when the user
    cancels.  (As elsewhere in the model a path is the string that names
    it: [str(Path(chosen))] is [chosen].) *)
Definition save_json (chosen : string) (font_pt : Z) (settings : pydict)
  : M pydict :=
  if String.eqb chosen "" then ret settings
  else
    Code._write_json chosen ;;
    modify (on_app (with_autosave_path chosen)) ;;
    let settings := dict_set "autosave_path" (PStr chosen) settings in
    settings <- _save_settings font_pt settings ;;
    modify (on_app (with_dirty false)) ;;
    ret settings.

Definition load_json (slot : Z -> M unit) (chosen : string) (font_pt : Z)
    (settings : pydict) : M pydict :=
  if String.eqb chosen "" then ret settings
  else
    ok <- Code._load_json_path chosen false ;;
    if ok : bool then
      m <- get ;;
      end_ <- lift_opt OverflowError (Date.add_days (range_start (app m)) 61) ;;
      Code.rebuild_range slot (range_start (app m)) end_ false ;;
      modify (on_app (with_autosave_path chosen)) ;;
      let settings := dict_set "autosave_path" (PStr chosen) settings in
      settings <- _save_settings font_pt settings ;;
      modify (on_app (with_dirty false)) ;;
      m <- get ;;
      modify (on_app (with_current_anchor_date (range_start (app m)))) ;;
      ret settings
    else ret settings.

(** [closeEvent]: whatever is raised is dropped, and the settings are then
    returned as they were when the event came.  ([self.autosave_path] is a
    [Path], which counts as true whatever it names.) *)
Definition closeEvent (font_pt : Z) (settings : pydict) : M pydict :=
  try_except
    (s <- _save_settings font_pt settings ;;
     m <- get ;;
     (if _dirty (app m) then Code._write_json (autosave_path (app m)) else pass) ;;
     ret s)
    (fun e => ret settings).

End Session.

(* ===================================================================== *)
(** ** Vocabulary of the further properties *)
(* ===================================================================== *)

Module Props.

Import Py Machine IO Qt Logic Text Dialogs Session.
Local Open Scope py_scope.

(** The first day of the year 1000: from there on [%Y] gives four digits
    on every platform. *)
Definition year1000 : date := Date.ymd2ord 1000 1 1.

(** Every code point of [l] is one of the trailing punctuation marks. *)
Definition all_punct (l : list N) : bool := forallb is_trailing_punct l.

(** [l] is empty or ends in a code point outside the set. *)
Definition ends_clean (l : list N) : bool :=
  match last l with
  | Some c => negb (is_trailing_punct c)
  | None => true
  end.

Definition no_space (s : string) : bool :=
  forallb (fun c => negb (is_space c)) (list_ascii_of_string s).

(** [u] starts with [http://] or [https://], in any case of the letters. *)
Definition has_scheme (u : string) : bool :=
  String.eqb (lower (substring 0 7 u)) "http://"
  || String.eqb (lower (substring 0 8 u)) "https://".

(** No character of [s] is a comma or white space. *)
Definition plain (s : string) : bool :=
  forallb (fun c => negb (is_sep c)) (list_ascii_of_string s).

(** The line of the result tree for the text of column [col] on day [dt]. *)
Definition hit (a : CalendarApp) (dt : date) (key : string) (col : column) : item :=
  {| item_col := col_title col;
     item_text := newlines_to_spaces (cell_text (cells a) key (col_id col));
     item_data := (Date.year dt, Date.month dt, Date.day dt) |}.

(** The text of column [col] under [key] holds the query [q]. *)
Definition holds_query (q : string) (a : CalendarApp) (key : string) (col : column) : Prop :=
  col ∈ columns a
  /\ contains q (lower (cell_text (cells a) key (col_id col))) = true.

(** The lines that the search lists for the day [dt]: one for each column
    whose text holds the query [q], in the order of the columns. *)
Definition hits_of_day (q : string) (a : CalendarApp) (dt : date) : list item :=
  map (hit a dt (Date.date_key dt))
      (List.filter
         (fun col => contains q (lower (cell_text (cells a) (Date.date_key dt) (col_id col))))
         (columns a)).

(** The lines for the [n] days from [start], day after day. *)
Definition hits_of_days (q : string) (a : CalendarApp) (start : date) (n : nat)
  : list item :=
  concat (map (fun i => hits_of_day q a (start + Z.of_nat i)) (seq 0 n)).

(** Every key of the cells has the shape that the loader accepts. *)
Definition keys_shaped (a : CalendarApp) : Prop :=
  forall k, is_Some (cells a !! k) -> re_fullmatch_date k = true.

(** A column as the loader leaves it: an id that is not empty and a width
    from 80 to 1200. *)
Definition good_column (c : column) : Prop :=
  col_id c <> "" /\ 80 <= col_width c <= 1200.

(** Columns that the loader reads back as they are: in addition the id has
    no white space around it, the title is not empty, and no two columns
    share an id. *)
Definition canonical_column (c : column) : Prop :=
  strip (col_id c) = col_id c /\ col_id c <> "" /\ col_title c <> ""
  /\ 80 <= col_width c <= 1200.

Definition canonical_columns (cols : list column) : Prop :=
  Forall canonical_column cols /\ NoDup (map col_id cols).

(** [m'] is [m] but for random numbers drawn. *)
Definition same_disk (m m' : machine) : Prop :=
  files (os m') = files (os m) /\ history (os m') = history (os m)
  /\ io_ok (os m') = io_ok (os m) /\ io_count (os m') = io_count (os m)
  /\ chunks (os m') = chunks (os m) /\ dialogs (os m') = dialogs (os m).

(** The window that a document with the year [y] and the month [mo] asks
    for, if it asks for one. *)
Definition asked_window (d : pydict) : option (Z * Z) :=
  match as_int (default PNone (dict_get "year" d)),
        as_int (default PNone (dict_get "month" d)) with
  | Some y, Some mo => if (1 <=? mo) && (mo <=? 12) then Some (y, mo) else None
  | _, _ => None
  end.

(** What a successful load of [p] from [m] leaves in [m']. *)
Record loaded (p : string) (m m' : machine) : Prop := {
  ld_doc : exists raw d,
      files (os m) !! p = Some (Doc raw) /\ norm raw = PDict d
      /\ cells (app m') = loaded_cells d (app m)
      /\ (exists l mc,
            default (Code.columns_to_py (columns (app m))) (dict_get "columns" d) = PList l
            /\ Code.load_columns l ∅ [] (bump m) = Ret (columns (app m')) mc)
      /\ match asked_window d with
         | Some (y, mo) =>
             exists ms, Date.mkdate y mo 1 = Some ms
                        /\ range_start (app m') = ms /\ range_end (app m') = ms + 61
         | None =>
             range_start (app m') = range_start (app m)
             /\ range_end (app m') = range_end (app m)
         end;
  ld_columns : columns (app m') <> [] /\ Forall good_column (columns (app m'));
  ld_dirty : _dirty (app m') = false;
  ld_anchor : current_anchor_date (app m') = current_anchor_date (app m);
  ld_path : autosave_path (app m') = autosave_path (app m);
  ld_table : table (app m') = table (app m);
  ld_bar : bar (app m') = bar (app m);
  ld_gate : _last_user_scroll (app m') = _last_user_scroll (app m);
  ld_expand : expand_each (app m') = expand_each (app m);
  ld_files : files (os m') = files (os m);
  ld_history : history (os m') = history (os m);
  ld_dialogs : dialogs (os m') = dialogs (os m);
  ld_io : io_ok (os m') = io_ok (os m) /\ io_count (os m') = S (io_count (os m))
}.

(** Two runs have the same outcome, and it is not a run out of fuel. *)
Definition agree {A} (x y : outcome A) : Prop := x = y /\ x <> OutOfFuel.

(** The scroll bar and what [_begin_table_update] remembers of it. *)
Definition keeps_bar (m m' : machine) : Prop :=
  bar (app m') = bar (app m) /\ _sb_prev_block (app m') = _sb_prev_block (app m)
  /\ _is_building (app m') = _is_building (app m).

(** [rebuild_range] up to its last statement: the date to scroll back to,
    if any. *)
Definition rebuild_prefix (start end_ : date) (keep_scroll : bool)
  : M (option date) :=
  rc <- rowCount ;;
  anchor_dt <- (if keep_scroll && (0 <? rc)
                then d <- top_visible_date ;; ret (Some d)
                else ret None) ;;
  Code._begin_table_update ;;
  try_finally
    (modify (on_app (fun a => with_range_end end_ (with_range_start start a))) ;;
     let total_days := end_ - start + 1 in
     clear ;;
     setRowCount total_days ;;
     build_rows (Z.to_nat total_days) 0 start)
    Code._end_table_update ;;
  ret anchor_dt.

Definition scroll_back (slot : Z -> M unit) (anchor_dt : option date) : M unit :=
  match anchor_dt with
  | Some d => Code.scroll_to_date slot d
  | None => pass
  end.

(** The row at the top of the viewport, as [_get_top_visible_date] reads
    it: row 0 when Qt reports none. *)
Definition top_row (m : machine) : Z :=
  Z.max 0 (qt_row_at (os m) (table (app m)) (value (bar (app m)))).

(** Where [scrollToItem] puts the bar to show row [idx] of the rows [t] at
    the top: Qt's value for the row, within the bar's range. *)
Definition scrolled_value (m : machine) (t : list (option row)) (idx : nat) : Z :=
  Z.max 0 (Z.min (qt_value_for (os m) t idx) (qt_maximum (os m) t)).

(** What a rebuild leaves alone. *)
Record same_document (m m' : machine) : Prop := {
  sd_columns : columns (app m') = columns (app m);
  sd_cells : cells (app m') = cells (app m);
  sd_dirty : _dirty (app m') = _dirty (app m);
  sd_os : os m' = os m;
  sd_gate : _last_user_scroll (app m') = _last_user_scroll (app m);
  sd_expand : expand_each (app m') = expand_each (app m);
  sd_down : sliderDown (bar (app m')) = sliderDown (bar (app m))
}.

(** The distance from an end of the bar's range within which the handler
    extends the window. *)
Definition near (m : machine) : Z := Z.max 8 (maximum m / 20).

End Props.

(* ===================================================================== *)
(** ** Further concrete machines *)
(* ===================================================================== *)

Module Cases.

Import Py Machine Examples.

(** [code_scrolled] with the bar dragged to the end of its range. *)
Definition code_scrolled_down : machine :=
  on_app (with_bar {| value := 1260; sliderDown := false;
                      signalsBlocked := false |}) code_scrolled.

(** The window over the last 62 days of the calendar. *)
Definition last_days : machine :=
  {| app := with_range_end Date.MAXORDINAL
              (with_range_start (Date.MAXORDINAL - 61) fresh);
     os := env |}.

(** An application whose columns have all been removed. *)
Definition no_columns : machine := on_app (with_columns []) start.

(** The file that [loaded_ghost] was loaded from. *)
Definition ghost_on_disk : machine := with_file "in.json" (Doc doc_ghost) start.

End Cases.

(* ===================================================================== *)
(** ** Rules of the weakest precondition, and the file system *)
(* ===================================================================== *)

Import Py Machine IO Qt Logic Examples.
Local Open Scope py_scope.

Section Rules.
Context (F : Prop).

Lemma wp_ret {A} (a : A) Q E m : Q a m -> wp_gen F (ret a) Q E m.
Proof. auto. Qed.

Lemma wp_raise {A} e (Q : A -> machine -> Prop) E m :
  E e m -> wp_gen F (raise e) Q E m.
Proof. auto. Qed.

Lemma wp_bind {A B} (c : M A) (k : A -> M B) Q E m :
  wp_gen F c (fun a m' => wp_gen F (k a) Q E m') E m
  -> wp_gen F (bind c k) Q E m.
Proof. unfold wp_gen, bind. destruct (c m); auto. Qed.

Lemma wp_get Q E m : Q m m -> wp_gen F get Q E m.
Proof. auto. Qed.

Lemma wp_modify f Q E m : Q tt (f m) -> wp_gen F (modify f) Q E m.
Proof. auto. Qed.

Lemma wp_try_except {A} (b : M A) h Q E m :
  wp_gen F b Q (fun e m' => wp_gen F (h e) Q E m') m
  -> wp_gen F (try_except b h) Q E m.
Proof. unfold wp_gen, try_except. destruct (b m); auto. Qed.

Lemma wp_mono {A} (c : M A) (Q Q' : A -> machine -> Prop) (E E' : exn -> machine -> Prop) m :
  wp_gen F c Q E m ->
  (forall a m', Q a m' -> Q' a m') ->
  (forall e m', E e m' -> E' e m') ->
  wp_gen F c Q' E' m.
Proof. unfold wp_gen. destruct (c m); auto. Qed.

Lemma wp_lift_opt {A} e (o : option A) Q E m :
  match o with Some a => Q a m | None => E e m end
  -> wp_gen F (lift_opt e o) Q E m.
Proof. destruct o; auto. Qed.

End Rules.

Lemma wp_ends {A} (c : M A) Q E m :
  wp c Q E m ->
  (exists a m', c m = Ret a m' /\ Q a m') \/ (exists e m', c m = Raise e m' /\ E e m').
Proof. unfold wp_gen. destruct (c m); [left|right|tauto]; eauto. Qed.

(** file system *)

Lemma io_step_run m :
  io_step m = if io_ok (os m) (io_count (os m)) then Ret tt (bump m) else Raise OSError (bump m).
Proof. reflexivity. Qed.

Lemma untouched_refl p m : untouched p m m.
Proof. split; auto. exists []. split; auto. Qed.

Lemma untouched_bump p m0 m : untouched p m0 m -> untouched p m0 (bump m).
Proof. intros [? ? ? ?]. split; auto. Qed.

Lemma io_step_untouched F p m0 m :
  untouched p m0 m ->
  wp_gen F io_step (fun _ m' => untouched p m0 m' /\ files (os m') = files (os m))
     (fun _ m' => untouched p m0 m') m.
Proof.
  intros H. unfold wp_gen. rewrite io_step_run.
  destruct (io_ok _ _); simpl; auto using untouched_bump.
Qed.

Lemma fs_put_untouched F p q c m0 m :
  q <> p -> untouched p m0 m ->
  wp_gen F (fs_put q c)
     (fun _ m' => untouched p m0 m' /\ files (os m') !! q = Some c)
     (fun _ m' => untouched p m0 m') m.
Proof.
  intros Hq H. unfold fs_put. apply wp_bind.
  eapply wp_mono; [apply (io_step_untouched F p m0 m H)| |auto].
  intros [] m1 [H1 Hf]. cbn. destruct H1 as [? ? [snaps [Hh Hs]] ?].
  split.
  - split; cbn; auto.
    + exists (<[q:=c]> (files (os m1)) :: snaps). rewrite Hh. split; auto.
      constructor; auto. rewrite lookup_insert_ne; auto.
    + rewrite lookup_insert_ne; auto.
  - apply lookup_insert_eq.
Qed.

Lemma dump_pieces_untouched F p q v m0 todo : forall written m,
  q <> p -> untouched p m0 m ->
  wp_gen F (dump_pieces v q todo written)
     (fun _ m' => untouched p m0 m' /\ files (os m') !! q = Some (Doc v))
     (fun _ m' => untouched p m0 m') m.
Proof.
  induction todo as [|todo IH]; intros written m Hq H; simpl.
  - apply fs_put_untouched; auto.
  - apply wp_bind.
    eapply wp_mono; [apply (fs_put_untouched F p q _ m0 m Hq H)| |auto].
    intros [] m1 [H1 _]. apply IH; auto.
Qed.

Lemma json_dump_untouched F p q v m0 m :
  q <> p -> untouched p m0 m ->
  wp_gen F (json_dump v q)
     (fun _ m' => untouched p m0 m' /\ files (os m') !! q = Some (Doc v))
     (fun _ m' => untouched p m0 m') m.
Proof.
  intros. unfold json_dump. apply wp_bind, wp_get.
  apply dump_pieces_untouched; auto.
Qed.

Lemma replace_untouched F p q c m0 m :
  q <> p -> untouched p m0 m -> files (os m) !! q = Some c ->
  wp_gen F (replace q p)
     (fun _ m' => replaced p c m0 m')
     (fun _ m' => untouched p m0 m') m.
Proof.
  intros Hq H Hc. unfold replace. apply wp_bind.
  eapply wp_mono; [apply (io_step_untouched F p m0 m H)| |auto].
  intros [] m1 [H1 Hf]. apply wp_bind, wp_get. rewrite Hf, Hc.
  cbn. destruct H1 as [? ? [snaps [Hh Hs]] ?].
  split; cbn; auto.
  - exists (<[p:=c]> (delete q (files (os m))) :: snaps). rewrite Hh. split; auto.
    constructor.
    + right. apply lookup_insert_eq.
    + eapply Forall_impl; [exact Hs|]. cbn. auto.
  - apply lookup_insert_eq.
Qed.

Lemma length_append (s t : string) :
  String.length (s +:+ t) = (String.length s + String.length t)%nat.
Proof. induction s as [|c s IH]; simpl; auto. Qed.

Lemma append_tmp_neq (p : string) : p +:+ ".tmp" <> p.
Proof.
  intros H. apply (f_equal String.length) in H.
  rewrite length_append in H. simpl in H. lia.
Qed.

Lemma write_json_body F p m :
  wp_gen F
    (mkdir_parents p ;;
     tmp <- Code.with_suffix_tmp p ;;
     open_w tmp ;;
     m' <- get ;;
     json_dump (Code.document (app m')) tmp ;;
     close tmp ;;
     replace tmp p)
    (fun _ m' => replaced p (Doc (Code.document (app m))) m m')
    (fun _ m' => untouched p m m') m.
Proof.
  apply wp_bind.
  eapply wp_mono; [apply (io_step_untouched F p m m (untouched_refl p m))| |auto].
  intros [] m1 [H1 _]. apply wp_bind. unfold Code.with_suffix_tmp.
  destruct (Code.no_name p); [apply wp_raise; auto|]. apply wp_ret.
  pose proof (append_tmp_neq p) as Hne.
  apply wp_bind.
  eapply wp_mono; [apply (fs_put_untouched F p _ _ m m1 Hne H1)| |auto].
  intros [] m2 [H2 _]. apply wp_bind, wp_get. apply wp_bind.
  rewrite (un_app _ _ _ H2).
  eapply wp_mono; [apply (json_dump_untouched F p _ _ m m2 Hne H2)| |auto].
  intros [] m3 [H3 Hf3]. apply wp_bind.
  eapply wp_mono; [apply (io_step_untouched F p m m3 H3)| |auto].
  intros [] m4 [H4 Hf4]. cbn beta.
  apply replace_untouched; auto. rewrite Hf4. exact Hf3.
Qed.

Lemma fs_only_refl m : fs_only m m.
Proof. repeat split; auto. Qed.

Lemma fs_only_trans m1 m2 m3 : fs_only m1 m2 -> fs_only m2 m3 -> fs_only m1 m3.
Proof.
  intros (A1 & B1 & C1 & D1 & E1 & G1 & H1) (A2 & B2 & C2 & D2 & E2 & G2 & H2).
  repeat split; try congruence. lia.
Qed.

Lemma io_fine_step m m' : io_fine m -> fs_only m m' -> io_fine m'.
Proof.
  intros H (_ & B & C & _) i Hi. rewrite B. apply H. lia.
Qed.

Lemma fs_only_bump m : fs_only m (bump m).
Proof. repeat split; auto. cbn. lia. Qed.

Lemma io_step_fine m Q E :
  io_fine m -> Q tt (bump m) -> wp io_step Q E m.
Proof.
  intros H HQ. unfold wp_gen. rewrite io_step_run, (H _ (le_n _)). exact HQ.
Qed.

Lemma fs_put_fine p c m :
  io_fine m ->
  wp (fs_put p c)
     (fun _ m' => io_fine m' /\ fs_only m m' /\ files (os m') = <[p:=c]> (files (os m)))
     (fun _ _ => False) m.
Proof.
  intros H. unfold fs_put. apply wp_bind, io_step_fine; auto.
  cbn. split; [|split; auto].
  - intros i Hi. apply H. cbn in Hi. lia.
  - repeat split; auto. cbn. lia.
Qed.

Lemma dump_pieces_fine v p todo : forall written m,
  io_fine m ->
  wp (dump_pieces v p todo written)
     (fun _ m' => io_fine m' /\ fs_only m m' /\ files (os m') = <[p:=Doc v]> (files (os m)))
     (fun _ _ => False) m.
Proof.
  induction todo as [|todo IH]; intros written m H; simpl.
  - apply fs_put_fine; auto.
  - apply wp_bind. eapply wp_mono; [apply fs_put_fine; auto| |intros ? ? []].
    intros [] m1 (H1 & O1 & F1). cbn beta.
    eapply wp_mono; [apply IH; auto| |intros ? ? []].
    intros [] m2 (H2 & O2 & F2). cbn beta. split; auto. split.
    + eapply fs_only_trans; eauto.
    + rewrite F2, F1. apply insert_insert_eq.
Qed.

Lemma write_json_fine p m :
  io_fine m ->
  Code.no_name p = false ->
  wp (Code._write_json p)
     (fun _ m' => io_fine m' /\ fs_only m m'
                  /\ files (os m') !! p = Some (Doc (Code.document (app m)))
                  /\ files (os m') !! (p +:+ ".tmp") = None)
     (fun _ _ => False) m.
Proof.
  intros H Hname. unfold Code._write_json. apply wp_try_except.
  apply wp_bind. apply io_step_fine; auto.
  assert (H0 : io_fine (bump m)) by (apply (io_fine_step m); auto using fs_only_bump).
  pose proof (fs_only_bump m) as O0.
  apply wp_bind. unfold Code.with_suffix_tmp. rewrite Hname. apply wp_ret.
  apply wp_bind. eapply wp_mono; [apply fs_put_fine; auto| |intros ? ? []].
  intros [] m1 (H1 & O1 & F1). apply wp_bind, wp_get. apply wp_bind.
  unfold json_dump. apply wp_bind, wp_get.
  eapply wp_mono; [apply dump_pieces_fine; auto| |intros ? ? []].
  intros [] m2 (H2 & O2 & F2). apply wp_bind. apply io_step_fine; auto.
  unfold replace. apply wp_bind. apply io_step_fine.
  { apply (io_fine_step m2); auto using fs_only_bump. }
  apply wp_bind, wp_get. cbn [bump on_os os files with_io_count].
  rewrite F2, lookup_insert_eq. cbn.
  assert (Ha : app m2 = app m).
  { destruct O2 as [-> _]. destruct O1 as [-> _]. reflexivity. }
  split; [|split; [|split]].
  - intros i Hi. cbn in Hi. apply H2. lia.
  - destruct O0 as (A0 & B0 & C0 & D0 & E0 & G0 & I0).
    destruct O1 as (A1 & B1 & C1 & D1 & E1 & G1 & I1).
    destruct O2 as (A2 & B2 & C2 & D2 & E2 & G2 & I2).
    cbn in *. repeat split; cbn; try congruence. lia.
  - rewrite lookup_insert_eq. destruct O1 as [A1 _]. destruct O2 as [A2 _].
    cbn in A1. rewrite A1. reflexivity.
  - rewrite lookup_insert_ne by (symmetry; apply append_tmp_neq).
    apply lookup_delete_eq.
Qed.

(** ** Dicts as association lists *)

Lemma dict_get_elem {A} (k : string) (v : A) d :
  dict_get k d = Some v -> (k, v) ∈ d.
Proof.
  induction d as [|[k' v'] d IH]; simpl; [discriminate|].
  destruct (String.eqb_spec k k') as [->|Hne].
  - intros [= ->]. left.
  - intros H. right. auto.
Qed.

Lemma dict_get_None {A} (k : string) (d : list (string * A)) :
  dict_get k d = None <-> k ∉ d.*1.
Proof.
  induction d as [|[k' v'] d IH]; simpl.
  - split; auto. intros _ H. inversion H.
  - destruct (String.eqb_spec k k') as [->|Hne].
    + split; [discriminate|]. intros H. exfalso. apply H. left.
    + rewrite IH. rewrite not_elem_of_cons. tauto.
Qed.

Lemma elem_dict_get {A} (k : string) (v : A) d :
  NoDup d.*1 -> (k, v) ∈ d -> dict_get k d = Some v.
Proof.
  induction d as [|[k' v'] d IH]; simpl; intros Hnd Hin.
  - inversion Hin.
  - apply NoDup_cons in Hnd as [Hk Hnd].
    apply elem_of_cons in Hin as [[= -> ->]|Hin].
    + rewrite String.eqb_refl. reflexivity.
    + destruct (String.eqb_spec k k') as [->|Hne]; auto.
      exfalso. apply Hk. apply (list_elem_of_fmap_2 fst) in Hin. exact Hin.
Qed.

Lemma dict_set_fresh {A} (k : string) (v : A) d :
  k ∉ d.*1 -> dict_set k v d = d ++ [(k, v)].
Proof.
  induction d as [|[k' v'] d IH]; simpl; intros H; auto.
  apply not_elem_of_cons in H as [Hne H].
  destruct (String.eqb_spec k k'); [contradiction|]. rewrite IH; auto.
Qed.

Lemma dict_of_pairs_acc {A} (l : list (string * A)) : forall acc,
  NoDup (acc.*1 ++ l.*1) ->
  fold_left (fun acc kv => dict_set kv.1 kv.2 acc) l acc = acc ++ l.
Proof.
  induction l as [|[k v] l IH]; intros acc H; simpl.
  - rewrite app_nil_r. reflexivity.
  - simpl in H. rewrite dict_set_fresh.
    + rewrite IH.
      * rewrite <- app_assoc. reflexivity.
      * rewrite fmap_app. simpl. rewrite <- app_assoc. exact H.
    + apply NoDup_app in H as (_ & H & _). intros Hin. apply (H _ Hin). left.
Qed.

Lemma dict_of_pairs_nodup {A} (l : list (string * A)) :
  NoDup l.*1 -> dict_of_pairs l = l.
Proof. intros H. unfold dict_of_pairs. rewrite dict_of_pairs_acc; auto. Qed.

Lemma dict_set_keys {A} (k : string) (v : A) d :
  NoDup d.*1 -> NoDup (dict_set k v d).*1
  /\ (forall x, x ∈ (dict_set k v d).*1 <-> x = k \/ x ∈ d.*1).
Proof.
  induction d as [|[k' v'] d IH]; simpl; intros H.
  - split; [apply NoDup_singleton|]. intros x. rewrite list_elem_of_singleton.
    split; [auto|]. intros [?|H']; auto. inversion H'.
  - apply NoDup_cons in H as [Hk H].
    destruct (String.eqb_spec k k') as [->|Hne]; simpl.
    + split; [apply NoDup_cons; auto|]. intros x. rewrite elem_of_cons. tauto.
    + destruct (IH H) as [IH1 IH2]. split.
      * apply NoDup_cons. split; auto. simpl. rewrite IH2. intros [?|?]; [congruence|contradiction].
      * intros x. rewrite !elem_of_cons, IH2. tauto.
Qed.

Lemma dict_set_elems {A} (P : string * A -> Prop) (k : string) (v : A) d :
  P (k, v) -> Forall P d -> Forall P (dict_set k v d).
Proof.
  intros Hk. induction 1 as [|[k' v'] d Hx Hd IH]; simpl.
  - constructor; auto.
  - destruct (String.eqb k k'); constructor; auto.
Qed.

Lemma dict_of_pairs_wf {A} (P : string * A -> Prop) (l : list (string * A)) :
  Forall P l ->
  NoDup (dict_of_pairs l).*1 /\ Forall P (dict_of_pairs l).
Proof.
  unfold dict_of_pairs.
  assert (G : forall acc, NoDup acc.*1 -> Forall P acc -> Forall P l ->
     NoDup (fold_left (fun acc kv => dict_set kv.1 kv.2 acc) l acc).*1
     /\ Forall P (fold_left (fun acc kv => dict_set kv.1 kv.2 acc) l acc)).
  { induction l as [|[k v] l IH]; intros acc Hnd Hacc Hl; simpl; auto.
    apply Forall_cons in Hl as [Hkv Hl]. apply IH; auto.
    - apply dict_set_keys; auto.
    - apply dict_set_elems; auto. }
  intros Hl. apply G; auto. constructor.
Qed.

(** ** Values built by [json.load] *)

Lemma norm_dict d :
  norm (PDict d) = PDict (dict_of_pairs (map (fun kv => (kv.1, norm kv.2)) d)).
Proof.
  simpl. do 2 f_equal. induction d as [|[k x] d IH]; simpl; auto. rewrite IH. reflexivity.
Qed.

Lemma norm_wf v : wf (norm v).
Proof.
  induction v using pyval_nested_ind; try (simpl; constructor; fail).
  - simpl. constructor. induction H; simpl; constructor; auto.
  - rewrite norm_dict.
    destruct (dict_of_pairs_wf (fun kv => wf kv.2) (map (fun kv => (kv.1, norm kv.2)) d)) as [H1 H2].
    + induction H; simpl; constructor; auto.
    + constructor; auto.
Qed.

(** ** The loader's loops *)

Lemma load_entry_acc v : forall (acc : gmap string string) cid,
  NoDup v.*1 ->
  fold_left (fun entry kv => <[kv.1 := Code.text_of kv.2]> entry) v acc !! cid
  = match dict_get cid v with
    | Some txt => Some (Code.text_of txt)
    | None => acc !! cid
    end.
Proof.
  induction v as [|[k x] v IH]; intros acc cid Hnd; simpl; auto.
  apply NoDup_cons in Hnd as [Hk Hnd]. rewrite IH; auto.
  destruct (String.eqb_spec cid k) as [->|Hne].
  - apply dict_get_None in Hk. simpl in Hk. rewrite Hk. apply lookup_insert_eq.
  - destruct (dict_get cid v); auto. simpl. apply lookup_insert_ne. congruence.
Qed.

Lemma load_entry_lookup v cid :
  NoDup v.*1 ->
  Code.load_entry v !! cid = Code.text_of <$> dict_get cid v.
Proof.
  intros H. unfold Code.load_entry. rewrite load_entry_acc by auto.
  destruct (dict_get cid v); auto.
Qed.

Lemma cells_step_day cells kv :
  cells_step cells kv = match day_of kv with Some e => <[kv.1 := e]> cells | None => cells end.
Proof. unfold cells_step, day_of. destruct (re_fullmatch_date _); auto. destruct kv.2; auto. Qed.

Lemma load_cells_acc raw : forall (acc : Cells) k,
  NoDup raw.*1 ->
  fold_left cells_step raw acc !! k
  = match dict_get k raw with
    | Some x => match day_of (k, x) with Some e => Some e | None => acc !! k end
    | None => acc !! k
    end.
Proof.
  induction raw as [|[k' x] raw IH]; intros acc k Hnd; simpl; auto.
  apply NoDup_cons in Hnd as [Hk Hnd]. rewrite IH; auto.
  destruct (String.eqb_spec k k') as [->|Hne].
  - apply dict_get_None in Hk. simpl in Hk. rewrite Hk. rewrite cells_step_day. simpl.
    destruct (day_of (k', x)); auto. apply lookup_insert_eq.
  - assert (Hacc : cells_step acc (k', x) !! k = acc !! k).
    { rewrite cells_step_day. destruct (day_of _); auto. simpl. apply lookup_insert_ne. congruence. }
    rewrite Hacc. reflexivity.
Qed.

Lemma load_cells_lookup raw k :
  NoDup raw.*1 ->
  Code.load_cells raw !! k = dict_get k raw ≫= fun x => day_of (k, x).
Proof.
  intros H. change (Code.load_cells raw) with (fold_left cells_step raw ∅).
  rewrite load_cells_acc by auto.
  destruct (dict_get k raw); simpl; auto. destruct (day_of _); auto.
Qed.

Lemma load_cells_keys_acc raw : forall (acc : Cells) k,
  (forall k, is_Some (acc !! k) -> re_fullmatch_date k = true) ->
  is_Some (fold_left cells_step raw acc !! k) -> re_fullmatch_date k = true.
Proof.
  induction raw as [|[k' x] raw IH]; intros acc k Hacc; simpl; auto.
  apply IH. intros k0. unfold cells_step. simpl.
  destruct (re_fullmatch_date k') eqn:Hk'; auto.
  destruct x; auto. destruct (decide (k0 = k')) as [->|Hne]; auto.
  rewrite lookup_insert_ne; auto.
Qed.

Lemma load_cells_keys raw k :
  is_Some (Code.load_cells raw !! k) -> re_fullmatch_date k = true.
Proof.
  apply load_cells_keys_acc. intros k0 [x Hx]. rewrite lookup_empty in Hx. discriminate.
Qed.

(** ** The loader *)

Lemma fresh_id_app (b : bool) (f : string -> string) (x : string) Q m :
  (forall r m', app m' = app m -> Q r m') ->
  wp (if b then h <- uuid_hex ;; ret (f h) else ret x) Q (fun _ _ => False) m.
Proof. intros H. destruct b; apply H; reflexivity. Qed.

Lemma load_columns_spec raw : forall seen cols m,
  wp (Code.load_columns raw seen cols)
     (fun res m' => app m' = app m
                    /\ (cols <> [] \/ existsb is_dict raw = true -> res <> []))
     (fun _ _ => False) m.
Proof.
  induction raw as [|x raw IH]; intros seen cols m.
  - simpl. split; auto. intros [H|H]; [exact H|discriminate].
  - assert (Hskip : wp (Code.load_columns raw seen cols)
       (fun res m' => app m' = app m
                    /\ (cols <> [] \/ existsb is_dict (x :: raw) = true -> res <> []))
     (fun _ _ => False) m -> is_dict x = false ->
       wp (Code.load_columns raw seen cols)
       (fun res m' => app m' = app m
                    /\ (cols <> [] \/ existsb is_dict (x :: raw) = true -> res <> []))
     (fun _ _ => False) m) by auto.
    destruct x; simpl;
      try (eapply wp_mono; [apply IH| |auto]; intros res m' [Ha Hr]; split; auto; fail).
    apply wp_bind. apply fresh_id_app. intros cid0 m1 H1.
    apply wp_bind. apply fresh_id_app. intros cid m2 H2.
    eapply wp_mono; [apply IH| |auto].
    intros res m' [Ha Hr]. split; [congruence|].
    intros _. apply Hr. left. destruct cols; discriminate.
Qed.

Lemma handler_false (s : bool) (Q : bool -> machine -> Prop) m :
  (forall m', Q false m') ->
  wp (when (negb s) (QMessageBox_warning "読み込み失敗") ;; ret false)
     Q (fun _ _ => False) m.
Proof. intros H. destruct s; apply H. Qed.

Ltac load_fail HE := first [ apply HE | apply wp_raise; apply HE ].

Lemma load_inv p s m :
  wp (Code._load_json_path p s)
     (fun b m' => b = true ->
        exists raw d, files (os m) !! p = Some (Doc raw) /\ norm raw = PDict d
          /\ cells (app m') = loaded_cells d (app m)
          /\ columns (app m') <> [])
     (fun _ _ => False) m.
Proof.
  unfold Code._load_json_path. apply wp_try_except.
  match goal with |- wp_gen _ _ ?Q ?E _ => set (E0 := E); set (Q0 := Q) end.
  assert (HE : forall e m', E0 e m').
  { intros e m'. apply handler_false. intros m'' H; discriminate. }
  clearbody E0.
  apply wp_bind. unfold json_load. apply wp_bind.
  unfold wp_gen at 1. rewrite io_step_run.
  destruct (io_ok _ _); [|apply HE].
  apply wp_bind, wp_get. change (files (os (bump m))) with (files (os m)).
  destruct (files (os m) !! p) as [[raw| |]|] eqn:Hf; try (load_fail HE).
  apply wp_ret. apply wp_bind, wp_get. apply wp_bind.
  destruct (norm raw) as [| | | | | |d] eqn:Hn; try (load_fail HE).
  apply wp_ret. apply wp_bind.
  destruct (default _ _) as [| | | | |l|] eqn:Hc;
    try (apply wp_ret, wp_bind, wp_raise, HE).
  eapply wp_mono; [apply load_columns_spec| |auto].
  intros res m2 [Ha Hr].
  destruct res as [|c res]; [apply wp_bind, wp_raise, HE|].
  assert (Hfin : forall m3, cells (app m3) = loaded_cells d (app m) ->
            columns (app m3) = c :: res -> Q0 true m3).
  { intros m3 Hc3 Hl3 _. exists raw, d. rewrite Hl3. repeat split; auto. }
  apply wp_bind, wp_ret. apply wp_bind, wp_ret.
  apply wp_bind, wp_modify. apply wp_bind, wp_modify.
  apply wp_bind, wp_ret. apply wp_bind, wp_ret. apply wp_bind.
  destruct (as_int _) as [y|]; [destruct (as_int _) as [mo|]|];
    try (apply wp_ret, wp_bind, wp_modify, wp_ret, Hfin; reflexivity).
  destruct (_ && _);
    try (apply wp_ret, wp_bind, wp_modify, wp_ret, Hfin; reflexivity).
  apply wp_bind. destruct (Date.mkdate y mo 1) as [ms|]; [|load_fail HE].
  apply wp_ret, wp_bind, wp_modify, wp_bind.
  destruct (Date.add_days ms 61) as [e|]; [|load_fail HE].
  apply wp_ret, wp_modify, wp_bind, wp_modify, wp_ret, Hfin; reflexivity.
Qed.

(** ** Writing what was loaded and loading it again *)

Lemma dict_get_map_to_list {A B} (f : A -> B) (m : gmap string A) k :
  dict_get k (map (fun kv => (kv.1, f kv.2)) (map_to_list m)) = f <$> m !! k.
Proof.
  assert (Hkeys : (map (fun kv : string * A => (kv.1, f kv.2)) (map_to_list m)).*1
                  = (map_to_list m).*1).
  { unfold fmap. rewrite !map_map. reflexivity. }
  destruct (m !! k) as [x|] eqn:Hk; simpl.
  - apply elem_dict_get.
    + rewrite Hkeys. apply NoDup_fst_map_to_list.
    + apply elem_of_map_to_list in Hk.
      apply (list_elem_of_fmap_2 (fun kv : string * A => (kv.1, f kv.2))) in Hk. exact Hk.
  - apply dict_get_None. rewrite Hkeys. intros Hin.
    apply list_elem_of_fmap in Hin as [[k' x] [-> Hin]].
    apply elem_of_map_to_list in Hin. simpl in Hk. congruence.
Qed.

Lemma map_to_list_keys_nodup {A B} (f : A -> B) (m : gmap string A) :
  NoDup (map (fun kv => (kv.1, f kv.2)) (map_to_list m)).*1.
Proof.
  replace ((map (fun kv : string * A => (kv.1, f kv.2)) (map_to_list m)).*1)
    with ((map_to_list m).*1).
  - apply NoDup_fst_map_to_list.
  - unfold fmap. rewrite !map_map. reflexivity.
Qed.

Lemma load_entry_roundtrip (e : gmap string string) :
  Code.load_entry (map (fun kv => (kv.1, PStr kv.2)) (map_to_list e)) = e.
Proof.
  apply map_eq. intros cid.
  rewrite load_entry_lookup by apply map_to_list_keys_nodup.
  rewrite dict_get_map_to_list. destruct (e !! cid); reflexivity.
Qed.

Lemma load_cells_roundtrip (cs : Cells) :
  (forall k, is_Some (cs !! k) -> re_fullmatch_date k = true) ->
  Code.load_cells (map (fun kv => (kv.1, Code.entry_to_py kv.2)) (map_to_list cs)) = cs.
Proof.
  intros Hkeys. apply map_eq. intros k.
  rewrite load_cells_lookup by apply map_to_list_keys_nodup.
  rewrite dict_get_map_to_list.
  destruct (cs !! k) as [e|] eqn:Hk; simpl; auto.
  unfold day_of. simpl. rewrite Hkeys by (rewrite Hk; eauto).
  rewrite load_entry_roundtrip. reflexivity.
Qed.

Lemma norm_entry e : norm (Code.entry_to_py e) = Code.entry_to_py e.
Proof.
  unfold Code.entry_to_py. rewrite norm_dict, map_map. simpl.
  rewrite dict_of_pairs_nodup; auto. apply map_to_list_keys_nodup.
Qed.

Lemma norm_cells cs : norm (Code.cells_to_py cs) = Code.cells_to_py cs.
Proof.
  unfold Code.cells_to_py. rewrite norm_dict, map_map.
  erewrite map_ext.
  - rewrite dict_of_pairs_nodup; [reflexivity|].
    apply (map_to_list_keys_nodup Code.entry_to_py).
  - intros [k e]. cbn [fst snd]. rewrite norm_entry. reflexivity.
Qed.

Lemma norm_columns cols : norm (Code.columns_to_py cols) = Code.columns_to_py cols.
Proof.
  unfold Code.columns_to_py. simpl. f_equal. rewrite map_map.
  apply map_ext. intros c. reflexivity.
Qed.

Lemma norm_document a : norm (Code.document a) = Code.document a.
Proof.
  unfold Code.document. rewrite norm_dict. cbn [map fst snd].
  rewrite norm_columns, norm_cells. reflexivity.
Qed.

Lemma existsb_columns cols :
  cols <> [] -> existsb is_dict (map Code.column_to_py cols) = true.
Proof. destruct cols; [contradiction|reflexivity]. Qed.

Lemma load_ok p s m raw d l :
  io_ok (os m) (io_count (os m)) = true ->
  files (os m) !! p = Some (Doc raw) ->
  norm raw = PDict d ->
  dict_get "columns" d = Some (PList l) ->
  existsb is_dict l = true ->
  dict_get "year" d = None ->
  wp (Code._load_json_path p s)
     (fun b m' => b = true /\ cells (app m') = loaded_cells d (app m))
     (fun _ _ => False) m.
Proof.
  intros Hio Hf Hn Hc Hl Hy.
  unfold Code._load_json_path. apply wp_try_except.
  apply wp_bind. unfold json_load. apply wp_bind.
  unfold wp_gen at 1. rewrite io_step_run, Hio.
  apply wp_bind, wp_get. change (files (os (bump m))) with (files (os m)).
  rewrite Hf, Hn. apply wp_ret, wp_bind, wp_get, wp_bind.
  unfold Code.py_get at 1. rewrite Hc. apply wp_ret, wp_bind. simpl default.
  eapply wp_mono; [apply load_columns_spec| |intros ? ? []].
  intros res m2 [Ha Hr].
  destruct res as [|c res]; [exfalso; apply Hr; auto|].
  apply wp_bind, wp_ret. apply wp_bind, wp_ret.
  apply wp_bind, wp_modify. apply wp_bind, wp_modify.
  apply wp_bind. unfold Code.py_get at 1. rewrite Hy. apply wp_ret.
  apply wp_bind, wp_ret. simpl as_int.
  apply wp_bind, wp_ret, wp_bind, wp_modify, wp_ret.
  split; reflexivity.
Qed.

(** A load that fails before the year and the month are read leaves the
    application as it was: a file that cannot be read or parsed, a
    document that is no mapping, columns without a valid entry.  The loads
    that fail later are those whose year and month are integers with the
    month in 1..12 and for which the calendar refuses the first of the
    month or the day 61 days later. *)
Lemma load_failure_cases p s m :
  wp (Code._load_json_path p s)
     (fun b m' => b = false ->
        app m' = app m
        \/ exists raw d y mo,
             files (os m) !! p = Some (Doc raw) /\ norm raw = PDict d
             /\ as_int (default PNone (dict_get "year" d)) = Some y
             /\ as_int (default PNone (dict_get "month" d)) = Some mo
             /\ 1 <= mo <= 12
             /\ (Date.mkdate y mo 1 = None
                 \/ exists ms, Date.mkdate y mo 1 = Some ms
                               /\ Date.add_days ms 61 = None)
             /\ cells (app m') = loaded_cells d (app m))
     (fun _ _ => False) m.
Proof.
  unfold Code._load_json_path. apply wp_try_except.
  set (Q0 := fun (b : bool) (m' : machine) => b = false ->
        app m' = app m
        \/ exists raw d y mo,
             files (os m) !! p = Some (Doc raw) /\ norm raw = PDict d
             /\ as_int (default PNone (dict_get "year" d)) = Some y
             /\ as_int (default PNone (dict_get "month" d)) = Some mo
             /\ 1 <= mo <= 12
             /\ (Date.mkdate y mo 1 = None
                 \/ exists ms, Date.mkdate y mo 1 = Some ms
                               /\ Date.add_days ms 61 = None)
             /\ cells (app m') = loaded_cells d (app m)).
  assert (Hh : forall (e : exn) m', Q0 false m' ->
     wp (when (negb s) (QMessageBox_warning "読み込み失敗");; ret false)
        Q0 (fun _ _ => False) m').
  { intros e m' H. destruct s; cbn; intros _; apply H; reflexivity. }
  assert (Hearly : forall m', app m' = app m -> Q0 false m').
  { intros m' H _. left. exact H. }
  apply wp_bind. unfold json_load. apply wp_bind.
  unfold wp_gen at 1. rewrite io_step_run.
  destruct (io_ok _ _); [|apply (Hh OSError), Hearly; reflexivity].
  apply wp_bind, wp_get. change (files (os (bump m))) with (files (os m)).
  destruct (files (os m) !! p) as [[raw| |]|] eqn:Hf;
    try (apply wp_raise, (Hh OSError), Hearly; reflexivity).
  apply wp_ret. apply wp_bind, wp_get. apply wp_bind.
  destruct (norm raw) as [| | | | | |d] eqn:Hn;
    try (apply wp_raise, (Hh OSError), Hearly; reflexivity).
  apply wp_ret. apply wp_bind.
  destruct (default _ _) as [| | | | |l|] eqn:Hc;
    try (apply wp_ret, wp_bind, wp_raise, (Hh OSError), Hearly; reflexivity).
  eapply wp_mono; [apply load_columns_spec| |intros ? ? []].
  intros res m2 [Ha Hr].
  destruct res as [|c res]; [apply wp_bind, wp_raise, (Hh OSError), Hearly, Ha|].
  apply wp_bind, wp_ret. apply wp_bind, wp_ret.
  apply wp_bind, wp_modify. apply wp_bind, wp_modify.
  apply wp_bind, wp_ret. apply wp_bind, wp_ret. apply wp_bind.
  destruct (as_int (default PNone (dict_get "year" d))) as [y|] eqn:Hy;
    [destruct (as_int (default PNone (dict_get "month" d))) as [mo|] eqn:Hmo|];
    try (apply wp_ret, wp_bind, wp_modify, wp_ret; intros ?; discriminate).
  destruct ((1 <=? mo) && (mo <=? 12)) eqn:Hrange;
    try (apply wp_ret, wp_bind, wp_modify, wp_ret; intros ?; discriminate).
  assert (Hmo' : 1 <= mo <= 12).
  { apply andb_prop in Hrange as [H1 H2]. apply Z.leb_le in H1, H2. lia. }
  apply wp_bind. destruct (Date.mkdate y mo 1) as [ms|] eqn:Hms.
  - apply wp_ret, wp_bind, wp_modify, wp_bind.
    destruct (Date.add_days ms 61) as [e|] eqn:He.
    + apply wp_ret, wp_modify, wp_bind, wp_modify, wp_ret. intros ?; discriminate.
    + apply wp_raise, (Hh OverflowError). intros _. right.
      exists raw, d, y, mo. repeat split; auto; try lia. right. eauto.
  - apply wp_raise, (Hh ValueError). intros _. right.
    exists raw, d, y, mo. repeat split; auto; lia.
Qed.

(* ===================================================================== *)
(** ** Persistence: the claims *)
(* ===================================================================== *)

Lemma wp_run {A} (c : M A) Q m :
  wp c Q (fun _ _ => False) m -> exists a m', c m = Ret a m' /\ Q a m'.
Proof. intros H. apply wp_ends in H as [H|(e & m' & _ & [])]. exact H. Qed.

Lemma load_total p s m : exists b m', Code._load_json_path p s m = Ret b m'.
Proof.
  destruct (wp_run _ _ _ (load_inv p s m)) as (b & m' & H & _). eauto.
Qed.

Lemma load_success p s m m' :
  Code._load_json_path p s m = Ret true m' ->
  exists raw d, files (os m) !! p = Some (Doc raw) /\ norm raw = PDict d
    /\ cells (app m') = loaded_cells d (app m)
    /\ columns (app m') <> [].
Proof.
  intros H. pose proof (load_inv p s m) as Hw. unfold wp_gen in Hw.
  rewrite H in Hw. auto.
Qed.

Lemma loaded_cells_keys d a k :
  is_Some (loaded_cells d a !! k) -> re_fullmatch_date k = true.
Proof.
  unfold loaded_cells. destruct (default _ _); try (intros [x Hx]; rewrite lookup_empty in Hx; discriminate).
  apply load_cells_keys.
Qed.

Lemma norm_dict_wf raw d : norm raw = PDict d ->
  NoDup d.*1 /\ Forall (fun kv => wf kv.2) d.
Proof.
  intros H. pose proof (norm_wf raw) as Hw. rewrite H in Hw. inversion Hw; auto.
Qed.

Lemma wf_member d k v :
  Forall (fun kv => wf kv.2) d -> dict_get k d = Some v -> wf v.
Proof.
  intros Hd Hk. apply dict_get_elem in Hk.
  rewrite Forall_forall in Hd. apply (Hd _ Hk).
Qed.

(** C1. Loading a document that the loader accepts, writing the loaded
    state at once to a second path (no I/O call failing) and loading that
    file gives a second successful load whose cells are the cells of the
    first load: for every date the same day record.  The keys and entries
    that the first load dropped are not in either. *)
Theorem load_write_load_same_cells (p p' : string) (s : bool) (m m1 : machine) :
  Code._load_json_path p s m = Ret true m1 ->
  io_fine m1 ->
  Code.no_name p' = false ->
  exists m2 m3,
    Code._write_json p' m1 = Ret tt m2
    /\ Code._load_json_path p' s m2 = Ret true m3
    /\ cells (app m3) = cells (app m1)
    /\ forall d : date,
         cells (app m3) !! Date.date_key d = cells (app m1) !! Date.date_key d.
Proof.
  intros Hload Hio Hname.
  destruct (load_success _ _ _ _ Hload) as (raw & d & _ & _ & Hcells & Hcols).
  destruct (wp_run _ _ _ (write_json_fine p' m1 Hio Hname))
    as ([] & m2 & Hw & Hio2 & Hfs & Hfile & _).
  assert (Ha : app m2 = app m1) by apply Hfs.
  assert (Hl : wp (Code._load_json_path p' s)
             (fun b m' => b = true /\ cells (app m') =
                loaded_cells [("columns", Code.columns_to_py (columns (app m1)));
                              ("cells", Code.cells_to_py (cells (app m1)))] (app m2))
             (fun _ _ => False) m2).
  { eapply load_ok.
    - apply Hio2. apply le_n.
    - exact Hfile.
    - apply norm_document.
    - reflexivity.
    - apply existsb_columns. exact Hcols.
    - reflexivity. }
  destruct (wp_run _ _ _ Hl) as (b & m3 & Hr & -> & Hc3).
  exists m2, m3. split; [exact Hw|]. split; [exact Hr|].
  assert (Heq : cells (app m3) = cells (app m1)).
  { rewrite Hc3. unfold loaded_cells. simpl. unfold Code.cells_to_py.
    apply load_cells_roundtrip. intros k. rewrite Hcells. apply loaded_cells_keys. }
  split; [exact Heq|]. intros dt. rewrite Heq. reflexivity.
Qed.

(** C10. On a successful load, an entry of a day of the document is in the
    loaded cells under its own column id with its text ([None] as the
    empty string, any other value as [str] gives it, a string unchanged),
    whether or not the loaded columns define that id. *)
Theorem load_keeps_entries_of_unknown_columns
    (p : string) (s : bool) (m m' : machine) (raw : pyval) (d cs v : pydict)
    (k cid : string) (txt : pyval) :
  Code._load_json_path p s m = Ret true m' ->
  files (os m) !! p = Some (Doc raw) ->
  norm raw = PDict d ->
  dict_get "cells" d = Some (PDict cs) ->
  re_fullmatch_date k = true ->
  dict_get k cs = Some (PDict v) ->
  dict_get cid v = Some txt ->
  exists e, cells (app m') !! k = Some e
            /\ e !! cid = Some (Code.text_of txt)
            /\ (forall t, txt = PStr t -> e !! cid = Some t).
Proof.
  intros Hload Hf Hn Hc Hk Hv Ht.
  destruct (load_success _ _ _ _ Hload) as (raw' & d' & Hf' & Hn' & Hcells & _).
  rewrite Hf in Hf'. injection Hf' as <-. rewrite Hn in Hn'. injection Hn' as <-.
  destruct (norm_dict_wf _ _ Hn) as [Hnd Hwf].
  pose proof (wf_member _ _ _ Hwf Hc) as Hwcs. inversion Hwcs as [| | | | | |? Hndcs Hwfcs]; subst.
  pose proof (wf_member _ _ _ Hwfcs Hv) as Hwv. inversion Hwv as [| | | | | |? Hndv Hwfv]; subst.
  exists (Code.load_entry v). rewrite Hcells. unfold loaded_cells. rewrite Hc. simpl.
  rewrite load_cells_lookup by exact Hndcs. rewrite Hv. simpl.
  unfold day_of. simpl. rewrite Hk.
  rewrite load_entry_lookup by exact Hndv. rewrite Ht. simpl.
  repeat split; auto. intros t ->. reflexivity.
Qed.

(** C5, as amended.  In the revision [D-Scheduler_Code] the load always
    ends with an answer; when it succeeds, no key without the shape of four
    digits, a dash, two digits, a dash and two digits is in the loaded
    cells, and every key of that shape whose value is a mapping is, whether
    or not it names a day of the calendar. *)
Theorem load_filters_keys_by_shape (p : string) (s : bool) (m : machine) :
  exists b m',
    Code._load_json_path p s m = Ret b m'
    /\ (b = true ->
        (forall k, re_fullmatch_date k = false -> cells (app m') !! k = None)
        /\ (forall raw d cs k v,
              files (os m) !! p = Some (Doc raw) ->
              norm raw = PDict d ->
              dict_get "cells" d = Some (PDict cs) ->
              re_fullmatch_date k = true ->
              dict_get k cs = Some (PDict v) ->
              cells (app m') !! k = Some (Code.load_entry v))).
Proof.
  destruct (load_total p s m) as (b & m' & Hload). exists b, m'.
  split; [exact Hload|]. intros ->.
  destruct (load_success _ _ _ _ Hload) as (raw & d & Hf & Hn & Hcells & _).
  split.
  - intros k Hk. destruct (cells (app m') !! k) as [e|] eqn:He; auto.
    rewrite Hcells in He. rewrite (loaded_cells_keys d (app m) k) in Hk; [discriminate|].
    rewrite He. eauto.
  - intros raw' d' cs k v Hf' Hn' Hc Hk Hv.
    rewrite Hf in Hf'. injection Hf' as <-. rewrite Hn in Hn'. injection Hn' as <-.
    destruct (norm_dict_wf _ _ Hn) as [Hnd Hwf].
    pose proof (wf_member _ _ _ Hwf Hc) as Hwcs.
    inversion Hwcs as [| | | | | |? Hndcs Hwfcs]; subst.
    rewrite Hcells. unfold loaded_cells. rewrite Hc. simpl.
    rewrite load_cells_lookup by exact Hndcs. rewrite Hv. simpl.
    unfold day_of. simpl. rewrite Hk. reflexivity.
Qed.

Lemma load_write_load_witness :
  Code._load_json_path "in.json" true (with_file "in.json" (Doc doc_feb30) start)
  = Ret true loaded_feb30
  /\ io_fine loaded_feb30
  /\ Code.no_name "out.json" = false
  /\ exists m2 m3,
       Code._write_json "out.json" loaded_feb30 = Ret tt m2
       /\ Code._load_json_path "out.json" true m2 = Ret true m3
       /\ cells (app m3) = cells (app loaded_feb30)
       /\ forall d : date,
            cells (app m3) !! Date.date_key d
            = cells (app loaded_feb30) !! Date.date_key d.
Proof.
  assert (H1 : Code._load_json_path "in.json" true
                 (with_file "in.json" (Doc doc_feb30) start)
               = Ret true loaded_feb30) by (vm_compute; reflexivity).
  assert (H2 : io_fine loaded_feb30) by (intros i _; reflexivity).
  split; [exact H1|]. split; [exact H2|]. split; [reflexivity|].
  exact (load_write_load_same_cells "in.json" "out.json" true _ _ H1 H2 eq_refl).
Defined.

Lemma load_keeps_entries_witness :
  exists e, cells (app loaded_ghost) !! "2025-01-05" = Some e
            /\ e !! "ghost" = Some (Code.text_of (PStr "kept"))
            /\ (forall t, PStr "kept" = PStr t -> e !! "ghost" = Some t).
Proof.
  apply (load_keeps_entries_of_unknown_columns "in.json" true
           (with_file "in.json" (Doc doc_ghost) start) loaded_ghost
           doc_ghost
           [("columns", PList [PDict [("id", PStr "col-1"); ("title", PStr "plan");
                                      ("width", PInt 260)]]);
            ("cells", PDict [("2025-01-05",
                              PDict [("col-1", PStr "meeting");
                                     ("ghost", PStr "kept"); ("n", PNone);
                                     ("i", PInt 7)])])]
           [("2025-01-05", PDict [("col-1", PStr "meeting");
                                  ("ghost", PStr "kept"); ("n", PNone);
                                  ("i", PInt 7)])]
           [("col-1", PStr "meeting"); ("ghost", PStr "kept"); ("n", PNone);
            ("i", PInt 7)]
           "2025-01-05" "ghost" (PStr "kept"));
    vm_compute; reflexivity.
Defined.

(** C5, the claim as stated fails in the revision [D-Scheduler_Code], the
    one that filters keys: the document of the scenario loads, the key
    ["2025-02-30"] names no day of the calendar, and the two entries are
    not both dropped. *)
Lemma feb_30_is_not_dropped :
  Code._load_json_path "in.json" true (with_file "in.json" (Doc doc_feb30) start)
  = Ret true loaded_feb30
  /\ Code.key_date "2025-02-30" = None
  /\ ~ (cells (app loaded_feb30) !! "bad-key" = None
        /\ cells (app loaded_feb30) !! "2025-02-30" = None).
Proof.
  split; [vm_compute; reflexivity|]. split; [vm_compute; reflexivity|].
  intros [_ H]. vm_compute in H. discriminate.
Qed.

Lemma load_filters_keys_witness :
  cells (app loaded_feb30) !! "bad-key" = None
  /\ cells (app loaded_feb30) !! "2025-02-30" = Some (Code.load_entry [("col-1", PStr "y")]).
Proof.
  destruct (load_filters_keys_by_shape "in.json" true
              (with_file "in.json" (Doc doc_feb30) start)) as (b & m' & Hl & H).
  assert (Hc : Code._load_json_path "in.json" true
                 (with_file "in.json" (Doc doc_feb30) start)
               = Ret true loaded_feb30) by (vm_compute; reflexivity).
  rewrite Hc in Hl. injection Hl as <- <-.
  destruct (H eq_refl) as [H1 H2]. split.
  - apply H1. reflexivity.
  - eapply (H2 doc_feb30); reflexivity.
Defined.

Lemma snapshots_since_app m m' snaps :
  history (os m') = snaps ++ history (os m) -> snapshots_since m m' = snaps.
Proof.
  intros H. unfold snapshots_since. rewrite H, length_app.
  replace (length snaps + length (history (os m)) - length (history (os m)))%nat
    with (length snaps) by lia.
  apply take_app_length.
Qed.

Lemma write_json_total p m : exists m', Code._write_json p m = Ret tt m'.
Proof.
  pose proof (write_json_body False p m) as H.
  unfold Code._write_json, try_except. unfold wp_gen in H.
  destruct (bind _ _ m) as [[] m1|e m1|]; [eauto| |contradiction].
  eexists. reflexivity.
Qed.

(** C3, as amended.  In the revision [D-Scheduler_Code] a write always
    ends; every state of the file system that a reader can observe while it
    runs, whether it fails or not, shows at the destination what was there
    before or the complete new document; and when no I/O call fails the
    destination ends up with the new document and the temporary file
    [path + ".tmp"] is gone. *)
Theorem write_json_is_atomic (p : string) (m : machine) :
  (exists m', Code._write_json p m = Ret tt m')
  /\ never_partial Code._write_json (fun m => Code.document (app m)) p m
  /\ (io_fine m -> Code.no_name p = false ->
      exists m', Code._write_json p m = Ret tt m'
                 /\ files (os m') !! p = Some (Doc (Code.document (app m)))
                 /\ files (os m') !! (p +:+ ".tmp") = None).
Proof.
  split; [apply write_json_total|]. split.
  - intros m' Hfin snap Hsnap.
    pose proof (write_json_body False p m) as H.
    unfold Code._write_json, try_except in Hfin. unfold wp_gen in H.
    destruct (bind _ _ m) as [[] m1|e m1|]; [| |contradiction].
    + injection Hfin as <-. destruct H as [_ _ (snaps & Hh & Hs) _].
      rewrite (snapshots_since_app _ _ _ Hh) in Hsnap.
      rewrite Forall_forall in Hs. apply Hs, Hsnap.
    + cbn in Hfin. injection Hfin as <-. destruct H as [_ _ (snaps & Hh & Hs) _].
      cbn in Hsnap. unfold snapshots_since in Hsnap. cbn in Hsnap.
      fold (snapshots_since m m1) in Hsnap.
      rewrite (snapshots_since_app _ _ _ Hh) in Hsnap.
      rewrite Forall_forall in Hs. left. apply Hs, Hsnap.
  - intros Hio Hname.
    destruct (wp_run _ _ _ (write_json_fine p m Hio Hname))
      as ([] & m' & Hw & _ & _ & Hp & Htmp). eauto.
Qed.

Lemma write_json_is_atomic_witness :
  io_fine saved /\ Code.no_name "notes.json" = false
  /\ exists m', Code._write_json "notes.json" saved = Ret tt m'
                /\ files (os m') !! "notes.json" = Some (Doc (Code.document (app saved)))
                /\ files (os m') !! ("notes.json" +:+ ".tmp") = None.
Proof.
  assert (H1 : io_fine saved) by (intros i _; reflexivity).
  split; [exact H1|]. split; [reflexivity|].
  exact (proj2 (proj2 (write_json_is_atomic "notes.json" saved)) H1 eq_refl).
Defined.

(** C3, the claim as stated fails for the revision [D-Scheduler] (and the
    third file): its write opens the destination itself, and a reader can
    find it empty. *)
Lemma in_place_write_exposes_empty_file :
  ~ never_partial Sched._write_json Sched.document "notes.json" saved.
Proof.
  intros H.
  set (m' := match Sched._write_json "notes.json" saved with
             | Ret _ m => m | _ => saved end).
  assert (Hfin : final (Sched._write_json "notes.json" saved) = Some m')
    by (vm_compute; reflexivity).
  specialize (H m' Hfin (<["notes.json" := Text ""]> (files (os saved)))).
  destruct H as [H|H].
  - apply list_elem_of_lookup. exists 3%nat. vm_compute. reflexivity.
  - vm_compute in H. discriminate.
  - vm_compute in H. discriminate.
Qed.

(** C4, the code at the failing input: the file has columns and cells
    that pass validation and a year that [date] refuses; the load answers
    [False], and the columns and the cells in memory are those of the
    file. *)
Lemma failed_load_adopts_columns_and_cells :
  exists m',
    Code._load_json_path "in.json" true (with_file "in.json" (Doc doc_year0) start)
    = Ret false m'
    /\ columns (app m') = [{| col_id := "other"; col_title := "other"; col_width := 100 |}]
    /\ columns (app m') <> columns (app start)
    /\ cells (app m') !! "2025-01-05" = Some {["other" := "z"]}
    /\ cells (app m') <> cells (app start).
Proof.
  eexists. split; [vm_compute; reflexivity|].
  split; [reflexivity|]. split; [discriminate|].
  split; [vm_compute; reflexivity|].
  intros H. apply (f_equal (fun c => c !! "2025-01-05")) in H.
  vm_compute in H. discriminate.
Qed.

(** C7, the code at the failing input: the tick runs with unsaved edits
    and the first call into the file system fails.  The writer reports the
    failure in a message box itself and returns, and the tick then clears
    the flag. *)
Theorem autosave_tick_clears_dirty_on_failure (m : machine) :
  _dirty (app m) = true ->
  io_ok (os m) (io_count (os m)) = false ->
  exists m',
    Code._autosave_tick m = Ret tt m'
    /\ _dirty (app m') = false
    /\ dialogs (os m') = "保存失敗" :: dialogs (os m)
    /\ files (os m') = files (os m).
Proof.
  intros Hd Hio.
  unfold Code._autosave_tick, bind, get. rewrite Hd.
  unfold try_except, bind, Code._write_json, try_except, bind, mkdir_parents.
  rewrite io_step_run, Hio. cbn. eexists. repeat split.
Qed.

Lemma autosave_tick_failure_witness :
  _dirty (app dirty_disk_full) = true
  /\ io_ok (os dirty_disk_full) (io_count (os dirty_disk_full)) = false
  /\ exists m',
       Code._autosave_tick dirty_disk_full = Ret tt m'
       /\ _dirty (app m') = false
       /\ dialogs (os m') = "保存失敗" :: dialogs (os dirty_disk_full)
       /\ files (os m') = files (os dirty_disk_full).
Proof.
  split; [reflexivity|]. split; [reflexivity|].
  exact (autosave_tick_clears_dirty_on_failure dirty_disk_full eq_refl eq_refl).
Defined.

(** X21. The earlier revision [D-Scheduler]: its writer lets the error
    through, and [_autosave_tick] keeps the flag for the next round.  When
    the first I/O call of the write fails, the tick returns with the dirty
    flag still set, no dialog shown and the files as they were. *)
Lemma sched_tick_keeps_dirty_on_failure (m : machine) :
  _dirty (app m) = true ->
  io_ok (os m) (io_count (os m)) = false ->
  exists m',
    Sched._autosave_tick m = Ret tt m'
    /\ _dirty (app m') = true
    /\ dialogs (os m') = dialogs (os m)
    /\ files (os m') = files (os m).
Proof.
  intros Hd Hio.
  unfold Sched._autosave_tick, bind, get. rewrite Hd.
  unfold try_except, bind, Sched._write_json, bind, get, open_w, fs_put, bind.
  rewrite io_step_run, Hio. cbn. eexists. repeat split. exact Hd.
Qed.

(* ===================================================================== *)
(** ** The view window: frames *)
(* ===================================================================== *)

Lemma repaints_refl m : repaints m m.
Proof. split; reflexivity. Qed.

Lemma repaints_trans m1 m2 m3 : repaints m1 m2 -> repaints m2 m3 -> repaints m1 m3.
Proof. intros [] []. split; congruence. Qed.

Lemma evolves_refl m : evolves m m.
Proof. split; reflexivity. Qed.

Lemma evolves_trans m1 m2 m3 : evolves m1 m2 -> evolves m2 m3 -> evolves m1 m3.
Proof. intros [] []. split; try congruence; lia. Qed.

Lemma repaints_evolves m m' : repaints m m' -> evolves m m'.
Proof. intros []. split; auto; lia. Qed.

Lemma repaints_table t m : repaints m (on_app (with_table t) m).
Proof. split; reflexivity. Qed.

Lemma repaints_bar v b m :
  repaints m (on_app (with_bar {| value := v; sliderDown := sliderDown (bar (app m));
                                   signalsBlocked := b |}) m).
Proof. split; reflexivity. Qed.

Lemma build_row_run r dt m :
  _build_row r dt m
  = Ret tt (if r <? 0 then m
            else on_app (with_table (<[Z.to_nat r := row_for (app m) dt]> (table (app m)))) m).
Proof. unfold _build_row, bind, get. destruct (r <? 0); reflexivity. Qed.

Lemma setRowCount_run n m :
  setRowCount n m
  = Ret tt (if n <? 0 then m
            else on_app (with_table (take (Z.to_nat n) (table (app m))
                     ++ replicate (Z.to_nat n - length (table (app m))) None)) m).
Proof. unfold setRowCount, bind, get. destruct (n <? 0); reflexivity. Qed.

Lemma add_days_Some d n :
  Z.abs n <= 999999999 -> 0 < d + n <= Date.MAXORDINAL ->
  Date.add_days d n = Some (d + n).
Proof.
  intros H1 [H2 H3]. unfold Date.add_days.
  apply Z.leb_le in H1, H3. apply Z.ltb_lt in H2. rewrite H1, H2, H3. reflexivity.
Qed.

Lemma add_days_inv d n d' :
  Date.add_days d n = Some d' -> d' = d + n /\ 0 < d + n <= Date.MAXORDINAL.
Proof.
  unfold Date.add_days. destruct (_ && _) eqn:H; [|discriminate].
  intros [= <-]. apply andb_prop in H as [H H3]. apply andb_prop in H as [H1 H2].
  apply Z.ltb_lt in H2. apply Z.leb_le in H3. auto.
Qed.

(** [build_rows] only repaints, and can only fail on the calendar's end. *)
Lemma build_rows_frame F n : forall r dt m0 m,
  repaints m0 m ->
  wp_gen F (build_rows n r dt)
    (fun _ m' => repaints m0 m')
    (fun e m' => e = OverflowError /\ repaints m0 m') m.
Proof.
  induction n as [|n IH]; intros r dt m0 m H; simpl; [exact H|].
  apply wp_bind. unfold wp_gen at 1. rewrite build_row_run.
  assert (H1 : repaints m0 (if r <? 0 then m
     else on_app (with_table (<[Z.to_nat r:=row_for (app m) dt]> (table (app m)))) m)).
  { destruct (r <? 0); auto. eapply repaints_trans; [exact H|apply repaints_table]. }
  apply wp_bind. destruct (Date.add_days dt 1) as [dt'|].
  - apply wp_ret. apply IH. exact H1.
  - apply wp_raise. split; auto.
Qed.

(** The table after [build_rows], row by row. *)
Lemma build_rows_table n : forall r dt m,
  0 <= r -> 0 < dt -> dt + Z.of_nat n <= Date.MAXORDINAL ->
  wp (build_rows n r dt)
    (fun _ m' =>
       repaints m m'
       /\ length (table (app m')) = length (table (app m))
       /\ bar (app m') = bar (app m)
       /\ forall i : nat,
            table (app m') !! i
            = if bool_decide (Z.to_nat r <= i < Z.to_nat r + n)%nat
                 && bool_decide (i < length (table (app m)))%nat
              then Some (row_for (app m) (dt + (Z.of_nat i - r)))
              else table (app m) !! i)
    (fun _ _ => False) m.
Proof.
  induction n as [|n IH]; intros r dt m Hr Hdt Hmax; simpl.
  - split; [apply repaints_refl|]. split; auto. split; auto. intros i.
    rewrite bool_decide_eq_false_2 by lia. reflexivity.
  - apply wp_bind. unfold wp_gen at 1. rewrite build_row_run.
    destruct (r <? 0) eqn:Hneg; [apply Z.ltb_lt in Hneg; lia|].
    apply wp_bind. rewrite add_days_Some by (unfold Date.MAXORDINAL in *; lia).
    apply wp_ret.
    set (m1 := on_app (with_table (<[Z.to_nat r:=row_for (app m) dt]> (table (app m)))) m).
    eapply wp_mono; [apply (IH (r + 1) (dt + 1) m1); lia| |auto].
    intros [] m' (Hrp & Hlen & Hbar & Htab). cbn beta.
    assert (Hrp1 : repaints m m1) by apply repaints_table.
    split; [eapply repaints_trans; eauto|].
    split; [rewrite Hlen; subst m1; cbn; apply length_insert|].
    split; [rewrite Hbar; reflexivity|].
    assert (Hs : Z.to_nat (r + 1) = S (Z.to_nat r)).
    { rewrite Z2Nat.inj_add by lia. simpl. lia. }
    intros i. rewrite Htab, Hs. subst m1. cbn [app on_app table with_table].
    rewrite length_insert.
    assert (Hrow : row_for (with_table (<[Z.to_nat r:=row_for (app m) dt]> (table (app m))) (app m))
                   = row_for (app m)) by reflexivity.
    rewrite Hrow.
    destruct (decide (i < length (table (app m)))%nat) as [Hi|Hi].
    + rewrite !(bool_decide_eq_true_2 (i < _)%nat) by exact Hi. rewrite !andb_true_r.
      destruct (decide (i = Z.to_nat r)) as [->|Hne].
      * rewrite bool_decide_eq_false_2 by lia. rewrite bool_decide_eq_true_2 by lia.
        rewrite list_lookup_insert_eq by exact Hi.
        replace (dt + (Z.of_nat (Z.to_nat r) - r)) with dt by lia. reflexivity.
      * rewrite list_lookup_insert_ne by auto.
        destruct (decide (S (Z.to_nat r) <= i < S (Z.to_nat r) + n)%nat).
        -- rewrite !bool_decide_eq_true_2 by lia.
           replace (dt + 1 + (Z.of_nat i - (r + 1))) with (dt + (Z.of_nat i - r)) by lia.
           reflexivity.
        -- rewrite !bool_decide_eq_false_2 by lia. reflexivity.
    + rewrite !(bool_decide_eq_false_2 (i < _)%nat) by exact Hi. rewrite !andb_false_r.
      destruct (decide (i = Z.to_nat r)) as [->|Hne].
      * rewrite list_insert_ge by lia. reflexivity.
      * rewrite list_lookup_insert_ne by auto. reflexivity.
Qed.

(** ** Rebuilding the rows of a window *)

Lemma cleared_resized {A} (t : list (option A)) (n : nat) :
  take n (map (fun _ : option A => @None A) t) ++ replicate (n - length t) (@None A)
  = replicate n None.
Proof.
  apply list_eq. intros i.
  destruct (decide (i < n)%nat) as [Hi|Hi].
  - rewrite (lookup_replicate_2 n None i Hi).
    destruct (decide (i < length t)%nat) as [Ht|Ht].
    + rewrite lookup_app_l by (rewrite length_take, length_map; lia).
      rewrite lookup_take_lt by lia. rewrite list_lookup_fmap.
      destruct (t !! i) eqn:E; [reflexivity|].
      apply lookup_ge_None in E. lia.
    + rewrite lookup_app_r by (rewrite length_take, length_map; lia).
      rewrite length_take, length_map.
      apply lookup_replicate_2. lia.
  - rewrite !lookup_ge_None_2; auto.
    + rewrite length_replicate. lia.
    + rewrite length_app, length_take, length_map, length_replicate. lia.
Qed.

Lemma rebuild_rows_core F (m : machine) (start : date) (n : nat) :
  0 < start -> start + Z.of_nat n <= Date.MAXORDINAL ->
  wp_gen F (clear ;; setRowCount (Z.of_nat n) ;; build_rows n 0 start)
     (fun _ m' => repaints m m' /\ bar (app m') = bar (app m)
                  /\ table (app m') = rows_for (app m) start n)
     (fun _ _ => False) m.
Proof.
  intros Hs Hmax. apply wp_bind. unfold clear. apply wp_bind, wp_get, wp_modify.
  apply wp_bind. unfold wp_gen at 1. rewrite setRowCount_run.
  destruct (Z.of_nat n <? 0) eqn:Hn; [apply Z.ltb_lt in Hn; lia|].
  cbn [app on_app table with_table]. rewrite Nat2Z.id.
  rewrite length_map, cleared_resized.
  set (m1 := on_app (with_table (replicate n None)) (on_app (with_table (map (fun _ => None) (table (app m)))) m)).
  pose proof (build_rows_table n 0 start m1 ltac:(lia) Hs Hmax) as Hb.
  unfold wp_gen in Hb |- *.
  destruct (build_rows n 0 start m1) as [[] m'|e m'|]; try contradiction.
  destruct Hb as (Hrp & Hlen & Hbar & Htab).
  split; [|split].
  - eapply repaints_trans; [|exact Hrp]. split; reflexivity.
  - rewrite Hbar. reflexivity.
  - apply list_eq. intros i. rewrite Htab. subst m1. cbn [app on_app table with_table].
    rewrite length_replicate. unfold rows_for.
    destruct (decide (i < n)%nat) as [Hi|Hi].
    + rewrite !bool_decide_eq_true_2 by lia. simpl.
      rewrite list_lookup_fmap, lookup_seq_lt by exact Hi. simpl.
      replace (start + (Z.of_nat i - 0)) with (start + Z.of_nat i) by lia. reflexivity.
    + rewrite (bool_decide_eq_false_2 (i < n)%nat) by exact Hi. rewrite andb_false_r.
      transitivity (@None (option row)).
      * apply lookup_replicate_None. lia.
      * symmetry. apply lookup_ge_None_2. rewrite length_map, length_seq. lia.
Qed.

Lemma bind_assoc {A B C} (c : M A) (f : A -> M B) (g : B -> M C) m :
  bind c (fun x => bind (f x) g) m = bind (bind c f) g m.
Proof. unfold bind. destruct (c m); reflexivity. Qed.

Lemma rebuild_rows {A} F (k : M A) Q E (m : machine) (start : date) (n : nat) :
  0 < start -> start + Z.of_nat n <= Date.MAXORDINAL ->
  (forall m', repaints m m' -> bar (app m') = bar (app m) ->
              table (app m') = rows_for (app m) start n ->
              wp_gen F k Q E m') ->
  wp_gen F (clear ;; setRowCount (Z.of_nat n) ;; build_rows n 0 start ;; k) Q E m.
Proof.
  intros Hs Hmax Hk.
  assert (Heq : (clear ;; setRowCount (Z.of_nat n) ;; build_rows n 0 start ;; k) m
                = ((clear ;; setRowCount (Z.of_nat n) ;; build_rows n 0 start) ;; k) m).
  { unfold bind. destruct (clear m) as [[] m1|e m1|]; auto.
    destruct (setRowCount (Z.of_nat n) m1) as [[] m2|e m2|]; auto. }
  unfold wp_gen. rewrite Heq. apply wp_bind.
  eapply wp_mono; [apply rebuild_rows_core; auto| |intros ? ? []].
  intros [] m' (H1 & H2 & H3). apply Hk; auto.
Qed.

Lemma rows_for_empty (a : CalendarApp) start n :
  cells a = ∅ -> rows_for a start n = empty_rows start n (length (columns a)).
Proof.
  intros Hc. unfold rows_for, empty_rows. apply map_ext. intros i.
  unfold row_for. do 2 f_equal. rewrite Hc.
  induction (columns a) as [|c cols IH]; simpl; [reflexivity|].
  rewrite IH. reflexivity.
Qed.

Lemma sched_set_view_anchor_run slot anchor m :
  0 < anchor -> anchor + 62 <= Date.MAXORDINAL ->
  wp (Sched.set_view_anchor slot anchor)
     (fun _ m' => range_start (app m') = anchor
                  /\ range_end (app m') = anchor + 61
                  /\ current_anchor_date (app m') = anchor
                  /\ columns (app m') = columns (app m)
                  /\ cells (app m') = cells (app m)
                  /\ table (app m') = rows_for (app m) anchor 62)
     (fun _ _ => False) m.
Proof.
  intros Ha Hmax. unfold Sched.set_view_anchor.
  apply wp_bind, wp_modify. apply wp_bind.
  rewrite add_days_Some by (unfold Date.MAXORDINAL in *; lia). apply wp_ret.
  unfold Sched.rebuild_range. apply wp_bind. unfold rowCount. apply wp_bind, wp_get, wp_ret.
  apply wp_bind. simpl andb. apply wp_ret. apply wp_bind, wp_modify.
  replace (anchor + 61 - anchor + 1) with (Z.of_nat 62) by lia.
  rewrite Nat2Z.id.
  apply rebuild_rows; [exact Ha|lia|].
  intros m' Hrp _ Ht. apply wp_ret. destruct Hrp. cbn in *.
  repeat split; auto.
Qed.

Lemma wp_try_finally F {A} (b : M A) fin Q E m :
  wp_gen F b (fun a m' => wp_gen F fin (fun _ m'' => Q a m'') E m')
             (fun e m' => wp_gen F fin (fun _ m'' => E e m'') E m') m
  -> wp_gen F (try_finally b fin) Q E m.
Proof.
  unfold wp_gen, try_finally, bind. destruct (b m) as [a m'|e m'|]; auto.
  - destruct (fin m'); auto.
  - destruct (fin m'); auto.
Qed.

Lemma code_set_view_anchor_run slot anchor m :
  0 < anchor -> anchor + 62 <= Date.MAXORDINAL ->
  wp (Code.set_view_anchor slot anchor)
     (fun _ m' => range_start (app m') = anchor
                  /\ range_end (app m') = anchor + 61
                  /\ current_anchor_date (app m') = anchor
                  /\ columns (app m') = columns (app m)
                  /\ cells (app m') = cells (app m)
                  /\ table (app m') = rows_for (app m) anchor 62)
     (fun _ _ => False) m.
Proof.
  intros Ha Hmax. unfold Code.set_view_anchor.
  apply wp_bind, wp_modify. apply wp_bind.
  rewrite add_days_Some by (unfold Date.MAXORDINAL in *; lia). apply wp_ret.
  unfold Code.rebuild_range. apply wp_bind. unfold rowCount. apply wp_bind, wp_get, wp_ret.
  apply wp_bind. simpl andb. apply wp_ret.
  apply wp_bind. unfold Code._begin_table_update.
  apply wp_bind, wp_modify. apply wp_bind. unfold blockSignals.
  apply wp_bind, wp_get. apply wp_bind. unfold set_bar. apply wp_modify, wp_ret, wp_modify.
  apply wp_bind. apply wp_try_finally. apply wp_bind, wp_modify.
  replace (anchor + 61 - anchor + 1) with (Z.of_nat 62) by lia.
  rewrite Nat2Z.id.
  eapply wp_mono; [apply rebuild_rows_core; [exact Ha|lia]| |intros ? ? []].
  intros [] m' (Hrp & _ & Ht). cbn beta.
  unfold Code._end_table_update. apply wp_bind, wp_get. apply wp_bind.
  unfold blockSignals. apply wp_bind, wp_get. apply wp_bind. unfold set_bar.
  apply wp_modify, wp_ret, wp_modify, wp_ret.
  destruct Hrp. cbn in *. repeat split; auto.
Qed.

(** C9, as amended.  From a store without cells, making 2025-01-01 the
    anchor gives, in both revisions, a window from 2025-01-01 to
    2025-03-03, its end 61 days after its start, of 62 rows, one for each
    day in order, in which every field of every column is empty. *)
Theorem anchor_2025_01_01_shows_62_empty_rows (slot : Z -> M unit) (m : machine) :
  cells (app m) = ∅ ->
  (exists m',
     Sched.set_view_anchor slot (Date.ymd2ord 2025 1 1) m = Ret tt m'
     /\ range_start (app m') = Date.ymd2ord 2025 1 1
     /\ range_end (app m') = Date.ymd2ord 2025 3 3
     /\ range_end (app m') = range_start (app m') + 61
     /\ table (app m')
        = empty_rows (Date.ymd2ord 2025 1 1) 62 (length (columns (app m))))
  /\ (exists m',
        Code.set_view_anchor slot (Date.ymd2ord 2025 1 1) m = Ret tt m'
        /\ range_start (app m') = Date.ymd2ord 2025 1 1
        /\ range_end (app m') = Date.ymd2ord 2025 3 3
        /\ range_end (app m') = range_start (app m') + 61
        /\ table (app m')
           = empty_rows (Date.ymd2ord 2025 1 1) 62 (length (columns (app m)))).
Proof.
  intros Hc.
  assert (Ha : 0 < Date.ymd2ord 2025 1 1) by reflexivity.
  assert (Hm : Date.ymd2ord 2025 1 1 + 62 <= Date.MAXORDINAL) by (vm_compute; discriminate).
  split.
  - destruct (wp_run _ _ _ (sched_set_view_anchor_run slot _ m Ha Hm))
      as ([] & m' & Hr & Hs & He & _ & Hcols & _ & Ht).
    exists m'. split; [exact Hr|]. rewrite Hs, He, Ht.
    rewrite (rows_for_empty _ _ _ Hc). repeat split; reflexivity.
  - destruct (wp_run _ _ _ (code_set_view_anchor_run slot _ m Ha Hm))
      as ([] & m' & Hr & Hs & He & _ & Hcols & _ & Ht).
    exists m'. split; [exact Hr|]. rewrite Hs, He, Ht.
    rewrite (rows_for_empty _ _ _ Hc). repeat split; reflexivity.
Qed.

Lemma anchor_2025_01_01_witness :
  cells (app start) = ∅
  /\ exists m',
       Sched.set_view_anchor (Sched.valueChanged 1) (Date.ymd2ord 2025 1 1) start
       = Ret tt m'
       /\ range_start (app m') = Date.ymd2ord 2025 1 1
       /\ range_end (app m') = Date.ymd2ord 2025 3 3
       /\ range_end (app m') = range_start (app m') + 61
       /\ table (app m')
          = empty_rows (Date.ymd2ord 2025 1 1) 62 (length (columns (app start))).
Proof.
  split; [reflexivity|].
  exact (proj1 (anchor_2025_01_01_shows_62_empty_rows (Sched.valueChanged 1) start eq_refl)).
Defined.

(** C9, the claim as stated fails: the window built around 2025-01-01 does
    not end on 2025-03-02; its last row, the 62nd, is 2025-03-03. *)
Lemma window_does_not_end_on_march_2 :
  exists m',
    Sched.set_view_anchor (Sched.valueChanged 1) (Date.ymd2ord 2025 1 1) start
    = Ret tt m'
    /\ range_end (app m') <> Date.ymd2ord 2025 3 2
    /\ Date.ord2ymd (range_end (app m')) = (2025, 3, 3)
    /\ table (app m') !! 61%nat
       = Some (Some {| row_date := Date.ymd2ord 2025 3 3; editors := [""] |}).
Proof.
  eexists. split; [vm_compute; reflexivity|].
  split; [vm_compute; discriminate|].
  split; vm_compute; reflexivity.
Qed.

(* ===================================================================== *)
(** ** The view window of [D-Scheduler]: what the operations preserve *)
(* ===================================================================== *)

Section Frames.
Context (F : Prop).

Lemma top_visible_date_spec m :
  wp_gen F top_visible_date (fun _ m' => m' = m)
    (fun e m' => e = OverflowError /\ m' = m) m.
Proof.
  unfold top_visible_date, rowAt0. apply wp_bind, wp_bind, wp_get, wp_ret.
  apply wp_bind, wp_get. destruct (Date.add_days _ _); [apply wp_ret|apply wp_raise]; auto.
Qed.

Lemma setValue_spec P slot v m :
  slot_ok F P slot -> (forall m1, repaints m m1 -> P m1) ->
  wp_gen F (setValue slot v) (fun _ m' => evolves m m')
    (fun e m' => e = OverflowError /\ evolves m m') m.
Proof.
  intros Hslot HP. unfold setValue. apply wp_bind, wp_get.
  destruct (_ =? _); [apply evolves_refl|].
  apply wp_bind. unfold set_bar. apply wp_modify.
  assert (Hrp : repaints m (on_app (with_bar
     {| value := Z.max 0 (Z.min v (maximum m)); sliderDown := sliderDown (bar (app m));
        signalsBlocked := signalsBlocked (bar (app m)) |}) m)) by apply repaints_bar.
  destruct (signalsBlocked _).
  - apply repaints_evolves, Hrp.
  - eapply wp_mono; [apply Hslot, HP, Hrp| |].
    + intros [] m' H. eapply evolves_trans; [apply repaints_evolves, Hrp|exact H].
    + intros e m' [-> H]. split; auto.
      eapply evolves_trans; [apply repaints_evolves, Hrp|exact H].
Qed.

Lemma scroll_to_date_spec P slot dt m :
  slot_ok F P slot -> (forall m1, repaints m m1 -> P m1) ->
  wp_gen F (Sched.scroll_to_date slot dt) (fun _ m' => evolves m m')
    (fun e m' => e = OverflowError /\ evolves m m') m.
Proof.
  intros Hslot HP. unfold Sched.scroll_to_date. apply wp_bind, wp_get.
  destruct (_ || _); [apply evolves_refl|].
  unfold scrollToItem. apply wp_bind, wp_get.
  destruct (_ !! _) as [[r|]|]; try apply evolves_refl.
  eapply setValue_spec; eauto.
Qed.

Lemma repeat_insert_frame n : forall m0 m,
  repaints m0 m ->
  wp_gen F (repeat_n n insertRow0) (fun _ m' => repaints m0 m')
    (fun _ _ => False) m.
Proof.
  induction n as [|n IH]; intros m0 m H; simpl; [exact H|].
  apply wp_bind. unfold insertRow0. apply wp_bind, wp_get. apply wp_modify.
  apply IH. eapply repaints_trans; [exact H|apply repaints_table].
Qed.

Lemma setRowCount_frame n m0 m :
  repaints m0 m ->
  wp_gen F (setRowCount n) (fun _ m' => repaints m0 m') (fun _ _ => False) m.
Proof.
  intros H. unfold wp_gen. rewrite setRowCount_run.
  destruct (n <? 0); auto. eapply repaints_trans; [exact H|apply repaints_table].
Qed.

Lemma append_days_spec n m :
  0 <= n ->
  wp_gen F (Sched._append_days n)
    (fun _ m' => evolves m m' /\ range_start (app m') = range_start (app m)
                 /\ range_end (app m') = range_end (app m) + n)
    (fun e m' => e = OverflowError /\ repaints m m') m.
Proof.
  intros Hn. unfold Sched._append_days.
  apply wp_bind. unfold rowCount. apply wp_bind, wp_get, wp_ret.
  apply wp_bind. eapply wp_mono; [apply (setRowCount_frame _ m m), repaints_refl| |intros ? ? []].
  intros [] m1 H1. apply wp_bind, wp_get. apply wp_bind.
  destruct (Date.add_days (range_end (app m1)) 1) as [dt|]; [|apply wp_raise; auto].
  apply wp_ret. apply wp_bind.
  eapply wp_mono; [apply (build_rows_frame F _ _ _ m m1 H1)| |auto].
  intros [] m2 H2. apply wp_bind.
  destruct (Date.add_days (range_end (app m1)) n) as [e|] eqn:He; [|apply wp_raise; auto].
  apply wp_ret, wp_modify. apply add_days_inv in He as [-> _].
  destruct H1, H2. cbn. split; [split; cbn; try congruence; lia|].
  split; [congruence|]. congruence.
Qed.

Lemma prepend_days_spec P slot n m :
  0 < n -> slot_ok F P slot ->
  (forall m1, evolves m m1 -> 0 < range_start (app m1) ->
              range_start (app m1) < range_start (app m) -> P m1) ->
  wp_gen F (Sched._prepend_days slot n) (fun _ m' => evolves m m')
    (fun e m' => e = OverflowError /\ evolves m m') m.
Proof.
  intros Hn Hslot HP. unfold Sched._prepend_days.
  apply wp_bind. eapply wp_mono; [apply top_visible_date_spec| |].
  2:{ intros e m' [-> ->]. split; auto using evolves_refl. }
  intros anchor_dt m0 ->. apply wp_bind.
  eapply wp_mono; [apply (repeat_insert_frame _ m m), repaints_refl| |intros ? ? []].
  intros [] m1 H1. apply wp_bind, wp_get. apply wp_bind.
  destruct (Date.add_days (range_start (app m1)) (- n)) as [dt|] eqn:Hdt;
    [|apply wp_raise; auto using repaints_evolves].
  apply wp_ret. apply wp_bind.
  eapply wp_mono; [apply (build_rows_frame F _ _ _ m m1 H1)| |].
  2:{ intros e m' [-> H]. auto using repaints_evolves. }
  intros [] m2 H2. apply wp_bind, wp_ret. apply wp_bind, wp_modify.
  apply add_days_inv in Hdt as [-> [Hpos _]].
  set (m3 := on_app (with_range_start (range_start (app m1) + - n)) m2).
  assert (H3 : evolves m m3).
  { destruct H1, H2. subst m3. split; cbn; try congruence; lia. }
  assert (Hs3 : range_start (app m3) = range_start (app m) + - n).
  { destruct H1. subst m3. cbn. congruence. }
  eapply wp_mono; [eapply (scroll_to_date_spec P slot); [exact Hslot|]| |].
  - intros m4 H4. apply HP.
    + eapply evolves_trans; [exact H3|apply repaints_evolves, H4].
    + destruct H4. destruct H1. lia.
    + destruct H4. lia.
  - intros [] m' H. eapply evolves_trans; eauto.
  - intros e m' [-> H]. split; auto. eapply evolves_trans; eauto.
Qed.

Lemma handler_spec P slot v m :
  slot_ok F P slot ->
  (forall m1, evolves m m1 -> 0 < range_start (app m1) ->
              range_start (app m1) < range_start (app m) -> P m1) ->
  wp_gen F (Sched._on_scroll_extend_if_needed slot v) (fun _ m' => evolves m m')
    (fun e m' => e = OverflowError /\ evolves m m') m.
Proof.
  intros Hslot HP. unfold Sched._on_scroll_extend_if_needed.
  apply wp_bind, wp_get. apply wp_bind.
  assert (Hcont : forall m1, evolves m m1 -> range_start (app m1) = range_start (app m) ->
     wp_gen F (when (value (bar (app m)) <? 120) (Sched._prepend_days slot 60))
       (fun _ m' => evolves m m') (fun e m' => e = OverflowError /\ evolves m m') m1).
  { intros m1 H1 Hs1. destruct (value (bar (app m)) <? 120); [|exact H1].
    eapply wp_mono; [apply (prepend_days_spec P slot 60 m1); [lia|exact Hslot|]| |].
    - intros m2 H2 Hpos Hlt. apply HP; [eapply evolves_trans; eauto| |]; lia.
    - intros [] m' H. eapply evolves_trans; eauto.
    - intros e m' [-> H]. split; auto. eapply evolves_trans; eauto. }
  destruct (maximum m - value (bar (app m)) <? 120).
  - eapply wp_mono; [apply (append_days_spec 60 m); lia| |].
    + intros [] m1 (H1 & Hs1 & _). apply Hcont; auto.
    + intros e m' [-> H]. auto using repaints_evolves.
  - apply wp_ret. apply Hcont; auto using evolves_refl.
Qed.

Lemma bounded_repaints fuel m m1 :
  bounded F fuel m -> repaints m m1 -> bounded F fuel m1.
Proof. intros [H|H] []; [left; auto|right; lia]. Qed.

Lemma valueChanged_ok fuel : slot_ok F (bounded F fuel) (Sched.valueChanged fuel).
Proof.
  unfold Sched.valueChanged.
  induction fuel as [|fuel IH]; intros v m Hb.
  - destruct Hb as [Hf|Hb]; [exact Hf|lia].
  - simpl. eapply handler_spec; [exact IH|].
    intros m1 H1 Hpos Hlt. destruct Hb as [Hf|Hb]; [left; auto|right; lia].
Qed.

Lemma rebuild_range_spec P slot start end_ keep m :
  (keep = true ->
   slot_ok F P slot /\ forall m1, repaints (set_range start end_ m) m1 -> P m1) ->
  wp_gen F (Sched.rebuild_range slot start end_ keep)
    (fun _ m' => evolves (set_range start end_ m) m')
    (fun e m' => e = OverflowError
                 /\ (m' = m \/ evolves (set_range start end_ m) m')) m.
Proof.
  intros Hkeep. unfold Sched.rebuild_range.
  apply wp_bind. unfold rowCount. apply wp_bind, wp_get, wp_ret. apply wp_bind.
  assert (Hrest : forall anchor_dt, (is_Some anchor_dt -> keep = true) ->
    wp_gen F
      (modify (on_app (fun a => with_range_end end_ (with_range_start start a)));;
       clear;; setRowCount (end_ - start + 1);;
       build_rows (Z.to_nat (end_ - start + 1)) 0 start;;
       match anchor_dt with
       | Some d => Sched.scroll_to_date slot d
       | None => pass
       end)
      (fun _ m' => evolves (set_range start end_ m) m')
      (fun e m' => e = OverflowError
                 /\ (m' = m \/ evolves (set_range start end_ m) m')) m).
  { intros anchor_dt Hanchor. apply wp_bind, wp_modify. fold (set_range start end_ m).
    apply wp_bind. unfold clear. apply wp_bind, wp_get, wp_modify. apply wp_bind.
    eapply wp_mono; [apply (setRowCount_frame _ (set_range start end_ m)), repaints_table
                    | |intros ? ? []].
    intros [] m1 H1. apply wp_bind.
    eapply wp_mono; [apply (build_rows_frame F _ _ _ _ m1 H1)| |].
    2:{ intros e m' [-> H]. auto using repaints_evolves. }
    intros [] m2 H2. destruct anchor_dt as [d|]; [|apply repaints_evolves, H2].
    destruct (Hkeep (Hanchor (ltac:(eauto)))) as [Hslot HP].
    eapply wp_mono; [eapply (scroll_to_date_spec P slot); [exact Hslot|]| |].
    - intros m3 H3. apply HP. eapply repaints_trans; eauto.
    - intros [] m' H. eapply evolves_trans; [apply repaints_evolves, H2|exact H].
    - intros e m' [-> H]. split; auto. right.
      eapply evolves_trans; [apply repaints_evolves, H2|exact H]. }
  destruct keep; simpl andb.
  - destruct (0 <? _).
    + apply wp_bind. eapply wp_mono; [apply top_visible_date_spec| |].
      * intros d m0 ->. apply wp_ret. apply (Hrest (Some d)). auto.
      * intros e m' [-> ->]. auto.
    + apply wp_ret. apply (Hrest None). intros [x Hx]; discriminate.
  - apply wp_ret. apply (Hrest None). intros [x Hx]; discriminate.
Qed.

End Frames.

Lemma wp_final {A} (c : M A) (Q : A -> machine -> Prop) (E : exn -> machine -> Prop)
    (R : machine -> Prop) m :
  wp c Q E m ->
  (forall a m', Q a m' -> R m') -> (forall e m', E e m' -> R m') ->
  exists m', final (c m) = Some m' /\ R m'.
Proof.
  unfold wp_gen. destruct (c m) as [a m'|e m'|]; [| |contradiction]; intros H HQ HE;
    exists m'; split; eauto.
Qed.

(** X22.  The window of [D-Scheduler] under its own operations.  Making a
    date the anchor gives a window whose start is not after its end, from
    any state; and from a state in which the start is not after the end,
    each of [set_view_anchor], [_append_days(n)] and [_prepend_days(n)]
    with [n > 0], and [rebuild_all], run with fuel for the nested scroll
    signals, ends (normally or by the calendar's [OverflowError]) in a
    state in which the start is still not after the end; unless the
    operation is a jump, the start has not moved later and the end has not
    moved earlier.  (The load of a file is not among them.) *)
Theorem window_start_never_after_end :
  (forall slot anchor m,
     0 < anchor -> anchor + 62 <= Date.MAXORDINAL ->
     exists m', Sched.set_view_anchor slot anchor m = Ret tt m'
                /\ range_start (app m') <= range_end (app m'))
  /\ (forall fuel op m,
        range_start (app m) <= range_end (app m) ->
        op_ok op ->
        (Z.to_nat (range_start (app m)) < fuel)%nat ->
        exists m', final (run_op fuel op m) = Some m'
                   /\ range_start (app m') <= range_end (app m')
                   /\ (is_jump op = false ->
                       range_start (app m') <= range_start (app m)
                       /\ range_end (app m) <= range_end (app m'))).
Proof.
  split.
  - intros slot anchor m Ha Hm.
    destruct (wp_run _ _ _ (sched_set_view_anchor_run slot anchor m Ha Hm))
      as ([] & m' & Hr & Hs & He & _). exists m'. split; [exact Hr|]. lia.
  - intros fuel op m Hinv Hok Hfuel.
    destruct op as [anchor|n|n|]; simpl in Hok |- *.
    + (* jump *)
      eapply wp_final.
      * unfold Sched.set_view_anchor. apply wp_bind, wp_modify. apply wp_bind.
        apply wp_lift_opt.
        instantiate (1 := fun e m' => range_start (app m') <= range_end (app m')).
        instantiate (1 := fun _ m' => range_start (app m') <= range_end (app m')).
        destruct (Date.add_days anchor 61) as [e|] eqn:He; [|exact Hinv].
        apply add_days_inv in He as [-> _].
        eapply wp_mono; [apply (rebuild_range_spec False (fun _ => True)); discriminate| |].
        -- intros [] m' []. cbn in *. lia.
        -- intros e m' [_ [->|[]]]; cbn in *; [exact Hinv|lia].
      * intros ? m' H. split; [exact H|discriminate].
      * intros ? m' H. split; [exact H|discriminate].
    + (* forward *)
      eapply wp_final; [apply (append_days_spec False n m); lia| |].
      * intros [] m' ([] & Hs & He). split; [lia|]. intros _. lia.
      * intros e m' [_ []]. split; [lia|]. intros _. lia.
    + (* backward *)
      eapply wp_final.
      * apply (prepend_days_spec False (bounded False fuel) _ n m Hok (valueChanged_ok False fuel)).
        intros m1 H1 Hpos Hlt. right. lia.
      * intros [] m' []. split; [lia|]. intros _. lia.
      * intros e m' [_ []]. split; [lia|]. intros _. lia.
    + (* rebuild *)
      eapply wp_final.
      * unfold Sched.rebuild_all. apply wp_bind, wp_get.
        apply (rebuild_range_spec False (bounded False fuel)).
        intros _. split; [apply valueChanged_ok|].
        intros m1 []. right. cbn in *. lia.
      * intros [] m' []. cbn in *. split; [lia|]. intros _. lia.
      * intros e m' [_ [->|[]]]; cbn in *; (split; [lia|]; intros _; lia).
Qed.

Lemma window_start_never_after_end_witness :
  (0 < jan1 /\ jan1 + 62 <= Date.MAXORDINAL
   /\ exists m', Sched.set_view_anchor (Sched.valueChanged 1) jan1 start = Ret tt m'
                 /\ range_start (app m') <= range_end (app m'))
  /\ (range_start (app start) <= range_end (app start)
      /\ op_ok (ExtendBackward 60)
      /\ exists m',
           final (run_op (S (Z.to_nat (range_start (app start)))) (ExtendBackward 60) start)
           = Some m'
           /\ range_start (app m') <= range_end (app m')
           /\ (is_jump (ExtendBackward 60) = false ->
               range_start (app m') <= range_start (app start)
               /\ range_end (app start) <= range_end (app m'))).
Proof.
  assert (H1 : 0 < jan1) by reflexivity.
  assert (H2 : jan1 + 62 <= Date.MAXORDINAL) by (vm_compute; discriminate).
  assert (H3 : range_start (app start) <= range_end (app start))
    by (vm_compute; discriminate).
  assert (H4 : op_ok (ExtendBackward 60)) by reflexivity.
  split.
  - split; [exact H1|]. split; [exact H2|].
    exact (proj1 window_start_never_after_end (Sched.valueChanged 1) jan1 start H1 H2).
  - split; [exact H3|]. split; [exact H4|].
    exact (proj2 window_start_never_after_end _ (ExtendBackward 60) start H3 H4
             (Nat.lt_succ_diag_r _)).
Defined.

(** C8, the code at the failing input: a file with good columns that names
    the last month of the calendar is loaded over the default state, whose
    window starts before it ends.  [date(9999, 12, 1)] exists and is
    assigned to [range_start]; the day 61 days later does not, the addition
    raises [OverflowError], and the load answers [False] with the old end
    of the window: the start is after the end. *)
Lemma failed_load_leaves_start_after_end :
  exists m',
    Code._load_json_path "in.json" true (with_file "in.json" (Doc doc_year9999) start)
    = Ret false m'
    /\ range_start (app start) <= range_end (app start)
    /\ range_start (app m') = Date.ymd2ord 9999 12 1
    /\ range_end (app m') = range_end (app start)
    /\ range_end (app m') < range_start (app m').
Proof.
  eexists. split; [vm_compute; reflexivity|].
  split; [vm_compute; discriminate|]. split; [vm_compute; reflexivity|].
  split; vm_compute; reflexivity.
Qed.

(** ** Removing a column *)








(* ===================================================================== *)
(** ** Programmatic scrolling *)
(* ===================================================================== *)

(** X23.  Where the gate of [D-Scheduler_Code] holds: scrolling to a date
    by program leaves the window as it is, wherever the scroll lands, when
    the gate is closed (no user action on the scroll bar within the last
    [max(80, expire)] ms and the slider not held down) or when the bar's
    signals are blocked; and making a date the anchor gives exactly the
    window from the anchor to 61 days later. *)
Theorem programmatic_scroll_outside_gate :
  (forall fuel dt m,
     (Code.user_gate m = false /\ (0 < fuel)%nat)
     \/ signalsBlocked (bar (app m)) = true ->
     exists m', Code.scroll_to_date (Code.valueChanged fuel) dt m = Ret tt m'
                /\ range_start (app m') = range_start (app m)
                /\ range_end (app m') = range_end (app m))
  /\ (forall slot anchor m,
        0 < anchor -> anchor + 62 <= Date.MAXORDINAL ->
        exists m', Code.set_view_anchor slot anchor m = Ret tt m'
                   /\ range_start (app m') = anchor
                   /\ range_end (app m') = anchor + 61).
Proof.
  split.
  - intros fuel dt m H. unfold Code.scroll_to_date, bind, get.
    destruct (_ || _); [eexists; split; [reflexivity|auto]|].
    unfold scrollToItem, bind, get.
    destruct (_ !! _) as [[rw|]|]; try (eexists; split; [reflexivity|auto]).
    unfold setValue, bind, get.
    destruct (_ =? _); [eexists; split; [reflexivity|auto]|].
    unfold set_bar, modify.
    destruct (signalsBlocked (bar (app m))) eqn:Hb; [eexists; split; [reflexivity|auto]|].
    destruct H as [[Hg Hf]|Hbl]; [|discriminate].
    destruct fuel as [|fuel]; [lia|].
    unfold Code.valueChanged. simpl connect.
    unfold Code._on_scroll_extend_if_needed, bind, get.
    match goal with |- context [Code.user_gate ?m1] =>
      replace (Code.user_gate m1) with (Code.user_gate m) by reflexivity end.
    rewrite Hg. simpl. eexists; split; [reflexivity|auto].
  - intros slot anchor m Ha Hm.
    destruct (wp_run _ _ _ (code_set_view_anchor_run slot anchor m Ha Hm))
      as ([] & m' & Hr & Hs & He & _). eauto.
Qed.

Lemma programmatic_scroll_witness :
  (Code.user_gate code_shown = false /\ (0 < 2)%nat)
  /\ exists m',
       Code.scroll_to_date (Code.valueChanged 2) (jan1 + 40) code_shown = Ret tt m'
       /\ range_start (app m') = range_start (app code_shown)
       /\ range_end (app m') = range_end (app code_shown).
Proof.
  assert (H : Code.user_gate code_shown = false /\ (0 < 2)%nat)
    by (split; [vm_compute; reflexivity|lia]).
  split; [exact H|].
  exact (proj1 programmatic_scroll_outside_gate 2%nat (jan1 + 40) code_shown (or_introl H)).
Defined.

(** C2, the code at the failing input: the user acts on the scroll bar,
    and a scroll by program to a row near the end of the window, made
    while the gate is still open, extends the window by [expand_each]
    days.  The gate tells by the time since the last action of the user,
    not by where the scroll comes from. *)
Lemma programmatic_scroll_inside_gate_extends :
  exists m',
    Code.scroll_to_date (Code.valueChanged 2) (jan1 + 40) code_scrolled = Ret tt m'
    /\ range_end (app code_scrolled) = jan1 + 61
    /\ range_end (app m') = jan1 + 121
    /\ range_end (app m') <> range_end (app code_scrolled).
Proof.
  eexists. split; [vm_compute; reflexivity|].
  split; [vm_compute; reflexivity|]. split; [vm_compute; reflexivity|].
  vm_compute. discriminate.
Qed.

(** The earlier revision has no gate: there any scroll by program that
    lands within 120 units of the end extends the window by 60 days. *)
Lemma sched_programmatic_scroll_extends :
  exists m',
    Sched.scroll_to_date (Sched.valueChanged 2) (jan1 + 40) (shown 1) = Ret tt m'
    /\ range_end (app (shown 1)) = jan1 + 61
    /\ range_end (app m') = jan1 + 121.
Proof.
  eexists. split; [vm_compute; reflexivity|].
  split; vm_compute; reflexivity.
Qed.

(* ===================================================================== *)
(** * Further properties of the code *)
(* ===================================================================== *)

Import Calendar Text Dialogs Session Props Cases.

Lemma all_from_spec P fuel : forall a n,
  all_from P fuel a = true -> a <= n < a + Z.of_nat fuel -> P n = true.
Proof.
  induction fuel as [|fuel IH]; intros a n H Hn; [lia|].
  simpl in H. apply andb_prop in H as [H1 H2].
  destruct (decide (n = a)) as [->|Hne]; [exact H1|].
  apply (IH (a + 1)); [exact H2|lia].
Qed.

Lemma cycle_checked : all_from cycle_ok (Z.to_nat 146097) 1 = true.
Proof. vm_compute. reflexivity. Qed.

Lemma years_checked : all_from year_ok (Z.to_nat 400) 1 = true.
Proof. vm_compute. reflexivity. Qed.

Lemma years_padded : all_from (padded_ok 4) (Z.to_nat 9999) 1 = true.
Proof. vm_compute. reflexivity. Qed.

Lemma days_padded : all_from (padded_ok 2) (Z.to_nat 31) 1 = true.
Proof. vm_compute. reflexivity. Qed.

(** ** The calendar *)

Lemma is_leap_period y q : Date.is_leap (y + 400 * q) = Date.is_leap y.
Proof.
  unfold Date.is_leap.
  replace ((y + 400 * q) mod 4) with (y mod 4)
    by (replace (y + 400 * q) with (y + (100 * q) * 4) by lia; symmetry; apply Z.mod_add; lia).
  replace ((y + 400 * q) mod 100) with (y mod 100)
    by (replace (y + 400 * q) with (y + (4 * q) * 100) by lia; symmetry; apply Z.mod_add; lia).
  replace ((y + 400 * q) mod 400) with (y mod 400)
    by (replace (y + 400 * q) with (y + q * 400) by lia; symmetry; apply Z.mod_add; lia).
  reflexivity.
Qed.

Lemma days_before_year_period y q :
  Date.days_before_year (y + 400 * q) = Date.days_before_year y + 146097 * q.
Proof.
  unfold Date.days_before_year. cbv zeta.
  replace ((y + 400 * q - 1) / 4) with ((y - 1) / 4 + 100 * q)
    by (replace (y + 400 * q - 1) with (y - 1 + (100 * q) * 4) by lia;
        rewrite Z.div_add by lia; reflexivity).
  replace ((y + 400 * q - 1) / 100) with ((y - 1) / 100 + 4 * q)
    by (replace (y + 400 * q - 1) with (y - 1 + (4 * q) * 100) by lia;
        rewrite Z.div_add by lia; reflexivity).
  replace ((y + 400 * q - 1) / 400) with ((y - 1) / 400 + q)
    by (replace (y + 400 * q - 1) with (y - 1 + q * 400) by lia;
        rewrite Z.div_add by lia; reflexivity).
  lia.
Qed.

Lemma ymd2ord_period y m d q :
  Date.ymd2ord (y + 400 * q) m d = Date.ymd2ord y m d + 146097 * q.
Proof.
  unfold Date.ymd2ord, Date.days_before_month.
  rewrite days_before_year_period, is_leap_period. lia.
Qed.

Lemma days_in_month_period y m q :
  Date.days_in_month (y + 400 * q) m = Date.days_in_month y m.
Proof. unfold Date.days_in_month. rewrite is_leap_period. reflexivity. Qed.

Lemma ord2ymd_period r q :
  1 <= r <= 146097 ->
  Date.ord2ymd (r + 146097 * q)
  = let '(y, m, d) := Date.ord2ymd r in (y + 400 * q, m, d).
Proof.
  intros Hr. unfold Date.ord2ymd. cbv zeta.
  replace (r + 146097 * q - 1) with (r - 1 + q * 146097) by lia.
  rewrite Z.div_add, Z.mod_add by lia.
  rewrite (Z.div_small (r - 1) 146097) by lia.
  rewrite (Z.mod_small (r - 1) 146097) by lia.
  replace (0 + q) with q by lia.
  replace (q * 400 + 1 + (r - 1) / 36524 * 100 + (r - 1) mod 36524 / 1461 * 4
           + (r - 1) mod 36524 mod 1461 / 365)
    with (0 * 400 + 1 + (r - 1) / 36524 * 100 + (r - 1) mod 36524 / 1461 * 4
           + (r - 1) mod 36524 mod 1461 / 365 + 400 * q) by lia.
  destruct (_ || _).
  - f_equal. f_equal. lia.
  - destruct (_ <? _); reflexivity.
Qed.

(** [date(d.year, d.month, d.day) == d], for every date. *)
Lemma mkdate_ord2ymd (n : date) :
  1 <= n <= Date.MAXORDINAL ->
  1 <= Date.year n <= 9999 /\ 1 <= Date.month n <= 12 /\ 1 <= Date.day n <= 31
  /\ Date.mkdate (Date.year n) (Date.month n) (Date.day n) = Some n.
Proof.
  intros Hn. unfold Date.MAXORDINAL in Hn.
  set (q := (n - 1) / 146097). set (r := (n - 1) mod 146097 + 1).
  assert (Hq : 0 <= q <= 24).
  { subst q. split; [apply Z.div_pos; lia|].
    apply Z.lt_succ_r. apply Z.div_lt_upper_bound; lia. }
  assert (Hr : 1 <= r <= 146097).
  { subst r. pose proof (Z.mod_pos_bound (n - 1) 146097 ltac:(lia)). lia. }
  assert (Hn' : n = r + 146097 * q).
  { subst q r. pose proof (Z.div_mod (n - 1) 146097 ltac:(lia)). lia. }
  pose proof (all_from_spec _ _ _ r cycle_checked ltac:(lia)) as Hc.
  unfold Date.year, Date.month, Date.day. rewrite Hn', ord2ymd_period by exact Hr.
  unfold cycle_ok in Hc. destruct (Date.ord2ymd r) as [[y m] d]. cbn [fst snd].
  repeat (apply andb_prop in Hc as [Hc ?]).
  repeat match goal with
         | H : (_ <=? _) = true |- _ => apply Z.leb_le in H
         | H : (_ =? _) = true |- _ => apply Z.eqb_eq in H
         end.
  assert (Hy : y + 400 * q <= 9999).
  { destruct (n <=? 0) eqn:E; [apply Z.leb_le in E; lia|].
    destruct (r <=? 145731) eqn:Er; simpl in *.
    - apply Z.leb_le in H4. lia.
    - apply Z.leb_gt in Er. lia. }
  assert (Hd : d <= 31).
  { revert H0. unfold Date.days_in_month, Date.DAYS_IN_MONTH.
    repeat match goal with |- context [if ?b then _ else _] => destruct b end; lia. }
  split; [lia|]. split; [lia|]. split; [lia|].
  unfold Date.mkdate, Date.MINYEAR, Date.MAXYEAR.
  rewrite days_in_month_period, ymd2ord_period.
  repeat match goal with
         | |- context [?a <=? ?b] =>
             rewrite (proj2 (Z.leb_le a b)) by lia
         end.
  simpl. f_equal. lia.
Qed.

(** ** Keys of days *)

Lemma digit_not_dash c : is_digit c = true -> Ascii.eqb c "-" = false.
Proof.
  intros H. destruct (Ascii.eqb_spec c "-") as [->|]; [|reflexivity].
  vm_compute in H. discriminate.
Qed.

Lemma split_on_digits s rest :
  all_digits s = true ->
  split_on "-" (s +:+ String "-" rest) = s :: split_on "-" rest.
Proof.
  unfold all_digits. induction s as [|c s IH]; simpl; intros H; auto.
  apply andb_prop in H as [Hc Hs]. rewrite (digit_not_dash c Hc), IH by exact Hs.
  reflexivity.
Qed.

Lemma split_on_digits_end s :
  all_digits s = true -> split_on "-" s = [s].
Proof.
  unfold all_digits. induction s as [|c s IH]; simpl; intros H; auto.
  apply andb_prop in H as [Hc Hs]. rewrite (digit_not_dash c Hc), IH by exact Hs.
  reflexivity.
Qed.

Lemma padded_spec w n :
  padded_ok w n = true ->
  String.length (Date.zfill w (string_of_Z n)) = w
  /\ all_digits (Date.zfill w (string_of_Z n)) = true
  /\ int_of_str (Date.zfill w (string_of_Z n)) = Some n.
Proof.
  unfold padded_ok. intros H. apply andb_prop in H as [H H3].
  apply andb_prop in H as [H1 H2]. apply Nat.eqb_eq in H1.
  apply bool_decide_eq_true in H3. auto.
Qed.

Lemma shape_of_parts a b c :
  String.length a = 4%nat -> all_digits a = true ->
  String.length b = 2%nat -> all_digits b = true ->
  String.length c = 2%nat -> all_digits c = true ->
  re_fullmatch_date (a +:+ "-" +:+ b +:+ "-" +:+ c) = true.
Proof.
  intros La Da Lb Db Lc Dc.
  destruct a as [|a1 [|a2 [|a3 [|a4 [|? ?]]]]]; try discriminate.
  destruct b as [|b1 [|b2 [|? ?]]]; try discriminate.
  destruct c as [|c1 [|c2 [|? ?]]]; try discriminate.
  unfold all_digits in *. simpl in *.
  repeat match goal with H : _ && _ = true |- _ => apply andb_prop in H as [? H] end.
  unfold re_fullmatch_date. simpl.
  repeat match goal with H : is_digit _ = true |- _ => rewrite H; clear H end.
  reflexivity.
Qed.


Lemma date_key_parts (d : date) :
  1 <= d <= Date.MAXORDINAL ->
  exists a b c,
    Date.date_key d = a +:+ "-" +:+ b +:+ "-" +:+ c
    /\ String.length a = 4%nat /\ all_digits a = true /\ int_of_str a = Some (Date.year d)
    /\ String.length b = 2%nat /\ all_digits b = true /\ int_of_str b = Some (Date.month d)
    /\ String.length c = 2%nat /\ all_digits c = true /\ int_of_str c = Some (Date.day d).
Proof.
  intros Hd. destruct (mkdate_ord2ymd d Hd) as (Hy & Hm & Hday & _).
  pose proof (padded_spec 4 _ (all_from_spec _ _ _ (Date.year d) years_padded ltac:(lia)))
    as (A1 & A2 & A3).
  pose proof (padded_spec 2 _ (all_from_spec _ _ _ (Date.month d) days_padded ltac:(lia)))
    as (B1 & B2 & B3).
  pose proof (padded_spec 2 _ (all_from_spec _ _ _ (Date.day d) days_padded ltac:(lia)))
    as (C1 & C2 & C3).
  eexists _, _, _. split; [reflexivity|]. repeat split; assumption.
Qed.

Lemma date_key_shape (d : date) :
  1 <= d <= Date.MAXORDINAL -> re_fullmatch_date (Date.date_key d) = true.
Proof.
  intros Hd. destruct (date_key_parts d Hd) as (a & b & c & -> & ? & ? & ? & ? & ? & ? & ? & ? & ?).
  apply shape_of_parts; assumption.
Qed.

Lemma key_to_date_key (d : date) :
  1 <= d <= Date.MAXORDINAL -> key_to_date (Date.date_key d) = Some d.
Proof.
  intros Hd. destruct (date_key_parts d Hd)
    as (a & b & c & -> & La & Da & Ia & Lb & Db & Ib & Lc & Dc & Ic).
  unfold key_to_date.
  change (a +:+ "-" +:+ b +:+ "-" +:+ c) with (a +:+ String "-" (b +:+ String "-" c)).
  rewrite split_on_digits by exact Da.
  rewrite split_on_digits by exact Db.
  rewrite split_on_digits_end by exact Dc.
  rewrite Ia, Ib, Ic. simpl. apply mkdate_ord2ymd. exact Hd.
Qed.

(** [date(y, m, d)] has the year [y], the month [m] and the day [d]. *)
Lemma ord2ymd_mkdate y m d n :
  Date.mkdate y m d = Some n -> 1 <= n <= Date.MAXORDINAL /\ Date.ord2ymd n = (y, m, d).
Proof.
  unfold Date.mkdate, Date.MINYEAR, Date.MAXYEAR.
  destruct (_ && _) eqn:H; [|discriminate]. intros [= <-].
  repeat (apply andb_prop in H as [H ?]).
  repeat match goal with H : (_ <=? _) = true |- _ => apply Z.leb_le in H end.
  set (q := (y - 1) / 400). set (y0 := (y - 1) mod 400 + 1).
  assert (Hq : 0 <= q <= 24).
  { subst q. split; [apply Z.div_pos; lia|].
    apply Z.lt_succ_r. apply Z.div_lt_upper_bound; lia. }
  assert (Hy0 : 1 <= y0 <= 400).
  { subst y0. pose proof (Z.mod_pos_bound (y - 1) 400 ltac:(lia)). lia. }
  assert (Hy : y = y0 + 400 * q).
  { subst q y0. pose proof (Z.div_mod (y - 1) 400 ltac:(lia)). lia. }
  pose proof (all_from_spec _ _ _ y0 years_checked ltac:(lia)) as Hc.
  pose proof (all_from_spec _ _ _ m Hc ltac:(lia)) as Hc'.
  rewrite Hy, days_in_month_period in H0.
  pose proof (all_from_spec _ _ _ d Hc' ltac:(lia)) as Hc''. cbv zeta in Hc''.
  apply andb_prop in Hc'' as [Hb He]. apply andb_prop in Hb as [Hb1 Hb2].
  apply Z.leb_le in Hb1, Hb2. apply bool_decide_eq_true in He.
  rewrite Hy, ymd2ord_period, ord2ymd_period by lia. rewrite He. split; [|reflexivity].
  unfold Date.MAXORDINAL. split; [lia|].
  (* the last day of the calendar *)
  destruct (decide (q = 24)) as [->|]; [|lia].
  assert (Hy0' : y0 <= 399) by lia.
  pose proof (all_from_spec _ _ _ (Date.ymd2ord y0 m d) cycle_checked ltac:(lia)) as Hk.
  unfold cycle_ok in Hk. rewrite He in Hk.
  repeat (apply andb_prop in Hk as [Hk ?]).
  destruct (Date.ymd2ord y0 m d <=? 145731) eqn:E; [apply Z.leb_le in E; lia|].
  (* beyond day 145731 the year of the cycle is 400 *)
  apply Z.leb_gt in E.
  assert (Hlast : all_from (fun n => 400 <=? (Date.ord2ymd n).1.1) (Z.to_nat 366) 145732 = true)
    by (vm_compute; reflexivity).
  pose proof (all_from_spec _ _ _ (Date.ymd2ord y0 m d) Hlast ltac:(lia)) as Hl.
  cbv beta in Hl. rewrite He in Hl. simpl in Hl. apply Z.leb_le in Hl. lia.
Qed.

Lemma int_skip_digits s : all_digits s = true -> int_rskip (int_lskip s) = s.
Proof.
  unfold all_digits. intros H.
  assert (Hns : forall c, is_digit c = true -> is_int_space c = false).
  { intros c Hc. destruct (is_int_space c) eqn:E; auto.
    unfold is_digit, is_int_space in *. cbv zeta in *.
    apply andb_prop in Hc as [H1 H2]. apply N.leb_le in H1, H2.
    repeat (apply orb_prop in E as [E|E]);
      repeat match goal with H : _ && _ = true |- _ => apply andb_prop in H as [? ?] end;
      repeat match goal with
             | H : (_ <=? _)%N = true |- _ => apply N.leb_le in H
             | H : (_ =? _)%N = true |- _ => apply N.eqb_eq in H
             end; lia. }
  assert (Hl : int_lskip s = s).
  { destruct s as [|c s]; auto. simpl in *. apply andb_prop in H as [Hc _].
    rewrite (Hns c Hc). reflexivity. }
  rewrite Hl. clear Hl.
  induction s as [|c s IH]; auto. simpl in *. apply andb_prop in H as [Hc Hs].
  rewrite IH by exact Hs. destruct s; [rewrite (Hns c Hc)|]; reflexivity.
Qed.

Lemma digit_val_range c : is_digit c = true -> 0 <= digit_val c <= 9.
Proof.
  unfold is_digit, digit_val. cbv zeta. intros H. apply andb_prop in H as [H1 H2].
  apply N.leb_le in H1, H2. lia.
Qed.

Lemma digit_val_inj c c' :
  is_digit c = true -> is_digit c' = true -> digit_val c = digit_val c' -> c = c'.
Proof.
  unfold digit_val. intros _ _ H.
  assert (N_of_ascii c = N_of_ascii c') by lia.
  rewrite <- (ascii_N_embedding c), <- (ascii_N_embedding c'). congruence.
Qed.

Lemma int_of_str_digits s :
  all_digits s = true -> s <> "" -> int_of_str s = digits_value 0 false s.
Proof.
  intros H Hne. unfold int_of_str. rewrite int_skip_digits by assumption.
  destruct s as [|c t]; [contradiction|].
  unfold all_digits in H. simpl in H. apply andb_prop in H as [Hc _].
  destruct c as [[] [] [] [] [] [] [] []]; try discriminate Hc; reflexivity.
Qed.

Lemma digits_value_two a1 a2 :
  is_digit a1 = true -> is_digit a2 = true ->
  digits_value 0 false (String a1 (String a2 "")) = Some (10 * digit_val a1 + digit_val a2).
Proof. intros H1 H2. simpl. rewrite H1, H2. first [reflexivity | f_equal; lia]. Qed.

Lemma digits_value_four a1 a2 a3 a4 :
  is_digit a1 = true -> is_digit a2 = true -> is_digit a3 = true -> is_digit a4 = true ->
  digits_value 0 false (String a1 (String a2 (String a3 (String a4 ""))))
  = Some (1000 * digit_val a1 + 100 * digit_val a2 + 10 * digit_val a3 + digit_val a4).
Proof.
  intros H1 H2 H3 H4. simpl. rewrite H1, H2, H3, H4.
  first [reflexivity | f_equal; lia].
Qed.

(** Among the strings of [w] digits, [int] is injective. *)
Lemma int_of_str_inj2 s t n :
  String.length s = 2%nat -> all_digits s = true ->
  String.length t = 2%nat -> all_digits t = true ->
  int_of_str s = Some n -> int_of_str t = Some n -> s = t.
Proof.
  intros Ls Ds Lt Dt.
  rewrite !int_of_str_digits by (auto; intros ->; discriminate).
  destruct s as [|s1 [|s2 [|? ?]]]; try discriminate.
  destruct t as [|t1 [|t2 [|? ?]]]; try discriminate.
  unfold all_digits in *. simpl in Ds, Dt.
  repeat match goal with H : _ && _ = true |- _ => apply andb_prop in H as [? H] end.
  rewrite !digits_value_two by assumption. intros [= <-] [= E].
  pose proof (digit_val_range s1 ltac:(assumption)).
  pose proof (digit_val_range s2 ltac:(assumption)).
  pose proof (digit_val_range t1 ltac:(assumption)).
  pose proof (digit_val_range t2 ltac:(assumption)).
  f_equal; [|f_equal]; apply digit_val_inj; auto; lia.
Qed.

Lemma int_of_str_inj4 s t n :
  String.length s = 4%nat -> all_digits s = true ->
  String.length t = 4%nat -> all_digits t = true ->
  int_of_str s = Some n -> int_of_str t = Some n -> s = t.
Proof.
  intros Ls Ds Lt Dt.
  rewrite !int_of_str_digits by (auto; intros ->; discriminate).
  destruct s as [|s1 [|s2 [|s3 [|s4 [|? ?]]]]]; try discriminate.
  destruct t as [|t1 [|t2 [|t3 [|t4 [|? ?]]]]]; try discriminate.
  unfold all_digits in *. simpl in Ds, Dt.
  repeat match goal with H : _ && _ = true |- _ => apply andb_prop in H as [? H] end.
  rewrite !digits_value_four by assumption. intros [= <-] [= E].
  pose proof (digit_val_range s1 ltac:(assumption)).
  pose proof (digit_val_range s2 ltac:(assumption)).
  pose proof (digit_val_range s3 ltac:(assumption)).
  pose proof (digit_val_range s4 ltac:(assumption)).
  pose proof (digit_val_range t1 ltac:(assumption)).
  pose proof (digit_val_range t2 ltac:(assumption)).
  pose proof (digit_val_range t3 ltac:(assumption)).
  pose proof (digit_val_range t4 ltac:(assumption)).
  f_equal; [|f_equal; [|f_equal; [|f_equal]]]; apply digit_val_inj; auto; lia.
Qed.

(** A key of the loader's shape, in its three parts. *)
Lemma shape_parts k :
  re_fullmatch_date k = true ->
  exists a b c,
    k = a +:+ "-" +:+ b +:+ "-" +:+ c
    /\ String.length a = 4%nat /\ all_digits a = true
    /\ String.length b = 2%nat /\ all_digits b = true
    /\ String.length c = 2%nat /\ all_digits c = true.
Proof.
  unfold re_fullmatch_date. intros H.
  destruct k as [|y1 [|y2 [|y3 [|y4 [|h1 [|m1 [|m2 [|h2 [|d1 [|d2 [|? ?]]]]]]]]]]];
    try discriminate.
  simpl in H. do 9 (apply andb_prop in H as [H ?]).
  repeat match goal with H : Ascii.eqb _ _ = true |- _ => apply Ascii.eqb_eq in H; subst end.
  exists (String y1 (String y2 (String y3 (String y4 "")))),
         (String m1 (String m2 "")), (String d1 (String d2 "")).
  unfold all_digits. simpl.
  repeat match goal with H : is_digit _ = true |- _ => rewrite H; clear H end.
  repeat split; reflexivity.
Qed.

(** A key of the loader's shape that the search dialog reads as a day is
    the key of that day. *)
Lemma date_key_key_to_date k (d : date) :
  re_fullmatch_date k = true -> key_to_date k = Some d -> Date.date_key d = k.
Proof.
  intros Hk Hd.
  destruct (shape_parts k Hk) as (a & b & c & -> & La & Da & Lb & Db & Lc & Dc).
  unfold key_to_date in Hd.
  change (a +:+ "-" +:+ b +:+ "-" +:+ c) with (a +:+ String "-" (b +:+ String "-" c)) in Hd.
  rewrite split_on_digits in Hd by exact Da.
  rewrite split_on_digits in Hd by exact Db.
  rewrite split_on_digits_end in Hd by exact Dc.
  destruct (int_of_str a) as [y|] eqn:Ia; [|discriminate].
  destruct (int_of_str b) as [mo|] eqn:Ib; [|discriminate].
  destruct (int_of_str c) as [dd|] eqn:Ic; [|discriminate].
  simpl in Hd. destruct (ord2ymd_mkdate _ _ _ _ Hd) as [Hr Hymd].
  destruct (date_key_parts d Hr)
    as (a' & b' & c' & -> & La' & Da' & Ia' & Lb' & Db' & Ib' & Lc' & Dc' & Ic').
  unfold Date.year, Date.month, Date.day in *. rewrite Hymd in *. cbn [fst snd] in *.
  rewrite (int_of_str_inj4 a' a y), (int_of_str_inj2 b' b mo), (int_of_str_inj2 c' c dd);
    auto.
Qed.

(** ** Trailing punctuation *)

Lemma append_cons c (s t : string) : String c s +:+ t = String c (s +:+ t).
Proof. reflexivity. Qed.

Lemma append_nil_r (s : string) : s +:+ "" = s.
Proof. induction s as [|c s IH]; [reflexivity|]. rewrite append_cons, IH. reflexivity. Qed.

Lemma append_assoc (s t u : string) : (s +:+ t) +:+ u = s +:+ (t +:+ u).
Proof. induction s as [|c s IH]; [reflexivity|]. rewrite !append_cons, IH. reflexivity. Qed.

Lemma str_init_last s c :
  str_last s = Some c -> s = str_init s +:+ String c "".
Proof.
  induction s as [|a s IH]; [discriminate|]. destruct s as [|b s].
  - intros [= ->]. reflexivity.
  - intros H. change (str_init (String a (String b s)))
      with (String a (str_init (String b s))).
    rewrite append_cons. f_equal. apply IH. exact H.
Qed.

Lemma str_last_None s : str_last s = None -> s = "".
Proof.
  induction s as [|a s IH]; auto. destruct s as [|b s]; [discriminate|].
  intros H. specialize (IH H). discriminate.
Qed.

Lemma str_last_app s c : str_last (s +:+ String c "") = Some c.
Proof.
  induction s as [|a s IH]; auto. rewrite append_cons.
  destruct (s +:+ String c "") eqn:E; [destruct s; discriminate|].
  exact IH.
Qed.

Lemma length_str_init s :
  s <> "" -> S (String.length (str_init s)) = String.length s.
Proof.
  induction s as [|a s IH]; [contradiction|]. intros _.
  destruct s as [|b s]; auto.
  change (str_init (String a (String b s))) with (String a (str_init (String b s))).
  simpl String.length. f_equal. apply IH. discriminate.
Qed.

Lemma all_punct_app l k : all_punct (l ++ k) = all_punct l && all_punct k.
Proof. apply forallb_app. Qed.

Lemma strip_loop_spec fuel : forall u,
  (length u <= fuel)%nat ->
  exists tail, u = strip_loop fuel u ++ tail
               /\ all_punct tail = true
               /\ ends_clean (strip_loop fuel u) = true.
Proof.
  induction fuel as [|fuel IH]; intros u Hlen.
  - destruct u; [|simpl in Hlen; lia]. exists []. auto.
  - simpl. destruct (last u) as [c|] eqn:Hl.
    + apply last_Some in Hl as [l' ->]. rewrite removelast_last.
      destruct (is_trailing_punct c) eqn:Hc.
      * rewrite length_app in Hlen. simpl in Hlen.
        destruct (IH l' ltac:(lia)) as (tail & Hu & Ht & He).
        exists (tail ++ [c]). split; [|split; [|exact He]].
        -- rewrite app_assoc, <- Hu. reflexivity.
        -- rewrite all_punct_app, Ht. unfold all_punct. simpl. rewrite Hc. reflexivity.
      * exists []. rewrite app_nil_r. split; [reflexivity|]. split; [reflexivity|].
        unfold ends_clean. rewrite last_snoc, Hc. reflexivity.
    + apply last_None in Hl as ->. exists []. auto.
Qed.

Lemma strip_url_spec u :
  exists tail, u = _strip_url_trailing_punct u ++ tail
               /\ all_punct tail = true
               /\ ends_clean (_strip_url_trailing_punct u) = true.
Proof.
  unfold _strip_url_trailing_punct. destruct u as [|c u].
  - exists []. auto.
  - apply strip_loop_spec. lia.
Qed.

Lemma strip_url_clean u :
  ends_clean u = true -> _strip_url_trailing_punct u = u.
Proof.
  unfold _strip_url_trailing_punct, ends_clean. intros H.
  destruct u as [|a u]; [reflexivity|].
  change (strip_loop (length (a :: u)) (a :: u))
    with (match last (a :: u) with
          | Some c => if is_trailing_punct c
                      then strip_loop (length u) (removelast (a :: u)) else a :: u
          | None => a :: u
          end).
  destruct (last (a :: u)) as [x|]; auto.
  apply negb_true_iff in H. rewrite H. reflexivity.
Qed.

(** X1. [_strip_url_trailing_punct] removes from the end of a [str], given
    as the list [u] of its code points, the longest run of the characters
    [)]}.,;:!?、。] and nothing else: [u] is the result followed by
    characters of that set only, and the result is empty or ends in a
    character outside the set.  Applying it twice is applying it once. *)
Theorem strip_url_trailing_punct_longest_run (u : list N) :
  (exists tail, u = _strip_url_trailing_punct u ++ tail /\ all_punct tail = true)
  /\ ends_clean (_strip_url_trailing_punct u) = true
  /\ _strip_url_trailing_punct (_strip_url_trailing_punct u)
     = _strip_url_trailing_punct u.
Proof.
  destruct (strip_url_spec u) as (tail & H1 & H2 & H3).
  split; [eauto|]. split; [exact H3|]. apply strip_url_clean, H3.
Qed.

(** *** On the strings of the model *)

Lemma codes_app s t : codes (s +:+ t) = codes s ++ codes t.
Proof.
  unfold codes. induction s as [|c s IH]; [reflexivity|].
  rewrite append_cons. simpl. rewrite IH. reflexivity.
Qed.

Lemma of_codes_app l k : of_codes (l ++ k) = of_codes l +:+ of_codes k.
Proof.
  unfold of_codes. induction l as [|c l IH]; [reflexivity|].
  simpl. rewrite IH. reflexivity.
Qed.

Lemma of_codes_codes s : of_codes (codes s) = s.
Proof.
  unfold of_codes, codes. induction s as [|c s IH]; [reflexivity|].
  simpl. rewrite ascii_N_embedding, IH. reflexivity.
Qed.

Lemma codes_of_codes l :
  Forall (fun c => (c < 256)%N) l -> codes (of_codes l) = l.
Proof.
  unfold of_codes, codes. induction 1 as [|c l Hc _ IH]; [reflexivity|].
  simpl. rewrite N_ascii_embedding by exact Hc. rewrite IH. reflexivity.
Qed.

Lemma codes_bounded s : Forall (fun c => (c < 256)%N) (codes s).
Proof.
  unfold codes. induction s as [|c s IH]; simpl; constructor; auto.
  apply N_ascii_bounded.
Qed.

Lemma last_codes s : last (codes s) = N_of_ascii <$> str_last s.
Proof.
  unfold codes. induction s as [|a s IH]; [reflexivity|].
  destruct s as [|b s]; [reflexivity|]. exact IH.
Qed.

(** [_strip_url_trailing_punct] on a string of the model. *)
Lemma strip_str_spec (m : string) :
  exists tail,
    m = of_codes (_strip_url_trailing_punct (codes m)) +:+ tail
    /\ all_punct (codes tail) = true
    /\ codes (of_codes (_strip_url_trailing_punct (codes m)))
       = _strip_url_trailing_punct (codes m)
    /\ ends_clean (_strip_url_trailing_punct (codes m)) = true.
Proof.
  destruct (strip_url_spec (codes m)) as (tl & Hu & Ht & He).
  pose proof (codes_bounded m) as Hb. rewrite Hu in Hb.
  apply Forall_app in Hb as [Hb1 Hb2].
  exists (of_codes tl). split; [|split; [|split]].
  - rewrite <- of_codes_app, <- Hu. symmetry. apply of_codes_codes.
  - rewrite codes_of_codes by exact Hb2. exact Ht.
  - apply codes_of_codes, Hb1.
  - exact He.
Qed.

(** ** URLs *)

Lemma ascii_of_code c n : N_of_ascii c = n -> c = ascii_of_N n.
Proof. intros <-. symmetry. apply ascii_N_embedding. Qed.

Lemma ci_letter p c :
  ci p c = true -> (97 <= N_of_ascii p <= 122)%N ->
  lower_ascii c = p /\ is_space c = false /\ is_trailing_punct (N_of_ascii c) = false.
Proof.
  unfold ci. intros H Hp.
  assert (Hc : (N_of_ascii c = N_of_ascii p \/ N_of_ascii c + 32 = N_of_ascii p)%N).
  { apply orb_prop in H as [H|H]; apply N.eqb_eq in H; auto. }
  assert (Hr : (65 <= N_of_ascii c <= 122)%N) by lia.
  clear H. split; [|split].
  - unfold lower_ascii. cbv zeta.
    destruct ((65 <=? N_of_ascii c)%N && (N_of_ascii c <=? 90)%N
              || (192 <=? N_of_ascii c)%N && (N_of_ascii c <=? 222)%N
                 && negb (N_of_ascii c =? 215)%N) eqn:E.
    + assert (Hu : (N_of_ascii c <= 90)%N).
      { apply orb_prop in E as [E|E].
        - apply andb_prop in E as [_ E]. apply N.leb_le in E. exact E.
        - apply andb_prop in E as [E _]. apply andb_prop in E as [E _].
          apply N.leb_le in E. lia. }
      destruct Hc as [Hc|Hc]; [lia|]. rewrite Hc. apply ascii_N_embedding.
    + destruct Hc as [Hc|Hc].
      * rewrite <- (ascii_N_embedding c), <- (ascii_N_embedding p). congruence.
      * exfalso. apply orb_false_elim in E as [E _].
        apply andb_false_iff in E as [E|E]; apply N.leb_gt in E; lia.
  - destruct (is_space c) eqn:E; auto. exfalso.
    unfold is_space in E. cbv zeta in E.
    repeat (apply orb_prop in E as [E|E]);
      repeat match goal with H : _ && _ = true |- _ => apply andb_prop in H as [? ?] end;
      repeat match goal with
             | H : (_ <=? _)%N = true |- _ => apply N.leb_le in H
             | H : (_ =? _)%N = true |- _ => apply N.eqb_eq in H
             end; lia.
  - unfold is_trailing_punct, TRAILING_PUNCT. cbn [existsb].
    rewrite !(proj2 (N.eqb_neq (N_of_ascii c) _)) by lia.
    reflexivity.
Qed.

Lemma no_space_app s t : no_space (s +:+ t) = no_space s && no_space t.
Proof.
  unfold no_space. induction s as [|c s IH]; [reflexivity|].
  rewrite append_cons. simpl. rewrite IH. apply andb_assoc.
Qed.

Lemma lower_app s t : lower (s +:+ t) = lower s +:+ lower t.
Proof.
  induction s as [|c s IH]; [reflexivity|].
  rewrite append_cons. simpl. rewrite IH. reflexivity.
Qed.

Lemma length_lower s : String.length (lower s) = String.length s.
Proof. induction s as [|c s IH]; simpl; auto. Qed.

(** The prefix that [strip_prefix] takes away. *)
Lemma strip_prefix_inv eq p :
  (forall a c, eq a c = true ->
     In a (list_ascii_of_string p) -> lower_ascii c = a /\ is_space c = false) ->
  forall s r, strip_prefix eq p s = Some r ->
  exists p', s = p' +:+ r /\ lower p' = p /\ no_space p' = true.
Proof.
  induction p as [|a p IH]; intros Heq s r H.
  - simpl in H. injection H as <-. exists "". auto.
  - destruct s as [|c s]; [discriminate|]. simpl in H.
    destruct (eq a c) eqn:E; [|discriminate].
    destruct (Heq a c E ltac:(left; reflexivity)) as [Hl Hs].
    destruct (IH ltac:(intros a' c' E' Hin; apply Heq; [exact E'|right; exact Hin]) s r H)
      as (p' & -> & Hp & Hn).
    exists (String c p'). split; [reflexivity|]. split.
    + simpl. rewrite Hl, Hp. reflexivity.
    + unfold no_space in *. simpl. rewrite Hs, Hn. reflexivity.
Qed.

Lemma strip_prefix_eqb p : forall s r,
  strip_prefix Ascii.eqb p s = Some r -> s = p +:+ r.
Proof.
  induction p as [|a p IH]; intros s r H.
  - injection H as <-. reflexivity.
  - destruct s as [|c s]; [discriminate|].
    change (strip_prefix Ascii.eqb (String a p) (String c s))
      with (if Ascii.eqb a c then strip_prefix Ascii.eqb p s else None) in H.
    destruct (Ascii.eqb_spec a c) as [->|]; [|discriminate].
    rewrite append_cons, (IH s r H). reflexivity.
Qed.

Lemma url_tail_inv r k :
  url_tail r = Some k ->
  exists rest, r = "://" +:+ rest /\ k = (3 + nonspace_run rest)%nat
               /\ nonspace_run rest <> O.
Proof.
  unfold url_tail. destruct (strip_prefix Ascii.eqb "://" r) as [r'|] eqn:E; [|discriminate].
  simpl. destruct (Nat.eqb_spec (nonspace_run r') 0) as [|Hne]; [discriminate|].
  intros [= <-]. exists r'. split; [|auto].
  apply strip_prefix_eqb, E.
Qed.

Lemma url_match_inv s n :
  url_match s = Some n ->
  exists p0 rest,
    s = p0 +:+ "://" +:+ rest
    /\ (lower p0 = "http" \/ lower p0 = "https")
    /\ no_space p0 = true
    /\ n = (String.length p0 + 3 + nonspace_run rest)%nat
    /\ nonspace_run rest <> O.
Proof.
  unfold url_match.
  destruct (strip_prefix ci "http" s) as [r1|] eqn:E; [|discriminate]. simpl.
  apply strip_prefix_inv in E as (p4 & -> & Hp4 & Hn4).
  2:{ intros a c Hc Hin. apply ci_letter in Hc as (? & ? & _); auto.
      simpl in Hin. destruct Hin as [<-|[<-|[<-|[<-|[]]]]]; vm_compute; split; discriminate. }
  assert (Hlen : String.length p4 = 4%nat).
  { rewrite <- length_lower, Hp4. reflexivity. }
  assert (Hplain : forall k, url_tail r1 = Some k ->
    exists p0 rest,
      p4 +:+ r1 = p0 +:+ "://" +:+ rest
      /\ (lower p0 = "http" \/ lower p0 = "https")
      /\ no_space p0 = true
      /\ (4 + k)%nat = (String.length p0 + 3 + nonspace_run rest)%nat
      /\ nonspace_run rest <> O).
  { intros k Hk. apply url_tail_inv in Hk as (rest & -> & -> & Hne).
    exists p4, rest. rewrite Hlen. repeat split; auto. }
  destruct r1 as [|c r].
  - intros H. destruct (url_tail "") as [k|] eqn:Hk; [|discriminate].
    injection H as <-. apply Hplain. reflexivity.
  - destruct (ci "s" c) eqn:Hs.
    + destruct (url_tail r) as [k|] eqn:Hk; simpl.
      * intros [= <-]. apply url_tail_inv in Hk as (rest & -> & -> & Hne).
        apply ci_letter in Hs as (Hl & Hsp & _); [|vm_compute; split; discriminate].
        exists (p4 +:+ String c ""), rest. split; [|split; [|split; [|split]]].
        -- rewrite append_assoc. reflexivity.
        -- right. rewrite lower_app, Hp4. simpl. rewrite Hl. reflexivity.
        -- rewrite no_space_app, Hn4. unfold no_space. simpl. rewrite Hsp. reflexivity.
        -- rewrite length_append, Hlen. simpl. lia.
        -- exact Hne.
      * intros H. destruct (url_tail (String c r)) as [k|] eqn:Hk'; [|discriminate].
        injection H as <-. apply Hplain. reflexivity.
    + intros H. destruct (url_tail (String c r)) as [k|] eqn:Hk'; [|discriminate].
      injection H as <-. apply Hplain. reflexivity.
Qed.

Lemma substring_app_l p k rest :
  substring 0 (String.length p + k) (p +:+ rest) = p +:+ substring 0 k rest.
Proof.
  induction p as [|c p IH]; [reflexivity|].
  rewrite append_cons. simpl. rewrite IH. reflexivity.
Qed.

Lemma substring_run_no_space rest :
  no_space (substring 0 (nonspace_run rest) rest) = true.
Proof.
  unfold no_space. induction rest as [|c rest IH]; [reflexivity|].
  simpl. destruct (is_space c) eqn:E; [reflexivity|].
  simpl. rewrite E. exact IH.
Qed.

Lemma findall_from_elem s : forall skip m,
  m ∈ findall_from skip s ->
  exists s' n, url_match s' = Some n /\ m = substring 0 n s'.
Proof.
  induction s as [|c s IH]; intros skip m H; [inversion H|].
  simpl in H. destruct skip as [|k]; [|eapply IH; exact H].
  destruct (url_match (String c s)) as [n|] eqn:E; [|eapply IH; exact H].
  apply elem_of_cons in H as [->|H]; [eauto|eapply IH; exact H].
Qed.

(** A prefix that ends in a character outside the set survives. *)
Lemma prefix_survives u : forall p x tail c,
  p +:+ x = u +:+ tail -> all_punct (codes tail) = true ->
  str_last p = Some c -> is_trailing_punct (N_of_ascii c) = false ->
  exists u', u = p +:+ u'.
Proof.
  induction u as [|a u IH]; intros p x tail c H Ht Hl Hc.
  - exfalso. change ("" +:+ tail) with tail in H. subst tail.
    rewrite codes_app, all_punct_app in Ht.
    apply andb_prop in Ht as [Ht _].
    rewrite (str_init_last p c Hl), codes_app, all_punct_app in Ht.
    apply andb_prop in Ht as [_ Ht]. unfold all_punct, codes in Ht. simpl in Ht.
    rewrite Hc in Ht. discriminate.
  - destruct p as [|a' p]; [discriminate|].
    rewrite !append_cons in H. injection H as -> H.
    destruct p as [|b p].
    + exists u. reflexivity.
    + destruct (IH (String b p) x tail c H Ht Hl Hc) as (u' & ->).
      exists u'. reflexivity.
Qed.

Lemma has_scheme_prefix p0 x :
  lower p0 = "http" \/ lower p0 = "https" ->
  has_scheme (p0 +:+ "://" +:+ x) = true.
Proof.
  intros H. unfold has_scheme.
  assert (Hsub : forall k, (String.length p0 + 3)%nat = k ->
            lower (substring 0 k (p0 +:+ "://" +:+ x)) = lower p0 +:+ "://").
  { intros k <-. rewrite <- append_assoc.
    replace (String.length p0 + 3)%nat with (String.length (p0 +:+ "://") + 0)%nat
      by (rewrite length_append; simpl; lia).
    rewrite substring_app_l. destruct x; simpl; rewrite append_nil_r, lower_app; reflexivity. }
  destruct H as [H|H].
  - rewrite (Hsub 7%nat), H; [reflexivity|].
    rewrite <- length_lower, H. reflexivity.
  - rewrite (Hsub 8%nat), H; [apply orb_true_r|].
    rewrite <- length_lower, H. reflexivity.
Qed.

(** X2. Every URL that [_extract_urls] finds in a text starts with
    [http://] or [https://] (in any case of the letters), holds no white
    space and does not end in one of the trailing punctuation marks; in
    particular none is empty. *)
Theorem extracted_urls_keep_their_scheme (txt u : string) :
  u ∈ _extract_urls txt ->
  has_scheme u = true /\ no_space u = true /\ ends_clean (codes u) = true
  /\ u <> "".
Proof.
  unfold _extract_urls, URL_RE_findall. intros H.
  apply list_elem_of_fmap in H as (m & -> & Hm).
  apply findall_from_elem in Hm as (s & n & Hn & ->).
  apply url_match_inv in Hn as (p0 & rest & -> & Hp0 & Hns & -> & Hrun).
  set (m := substring 0 _ _).
  assert (Hm : m = (p0 +:+ "://") +:+ substring 0 (nonspace_run rest) rest).
  { subst m. rewrite <- append_assoc.
    replace (String.length p0 + 3 + nonspace_run rest)%nat
      with (String.length (p0 +:+ "://") + nonspace_run rest)%nat
      by (rewrite length_append; reflexivity).
    apply substring_app_l. }
  destruct (strip_str_spec m) as (tail & Hu & Ht & Hc & He).
  set (r := of_codes (_strip_url_trailing_punct (codes m))) in *.
  assert (Hlast : str_last (p0 +:+ "://") = Some "/"%char).
  { change (p0 +:+ "://") with (p0 +:+ (":/" +:+ String "/" "")).
    rewrite <- append_assoc. apply str_last_app. }
  destruct (prefix_survives r (p0 +:+ "://")
              (substring 0 (nonspace_run rest) rest) tail "/"%char) as (u' & Hu').
  { rewrite <- Hm. exact Hu. }
  { exact Ht. }
  { exact Hlast. }
  { reflexivity. }
  assert (Hsp : no_space m = true).
  { rewrite Hm, !no_space_app, Hns, substring_run_no_space. reflexivity. }
  split; [|split; [|split]].
  - rewrite Hu', append_assoc. apply has_scheme_prefix, Hp0.
  - rewrite Hu, no_space_app in Hsp. apply andb_prop in Hsp as [Hsp _]. exact Hsp.
  - rewrite Hc. exact He.
  - rewrite Hu'. destruct p0; [destruct Hp0; discriminate|discriminate].
Qed.

(** ** Holidays *)

Lemma rstrip_last s c : str_last (rstrip s) = Some c -> is_space c = false.
Proof.
  induction s as [|a s IH]; [discriminate|]. simpl.
  destruct (rstrip s) as [|b t] eqn:E.
  - destruct (is_space a) eqn:Ha; [discriminate|]. intros [= <-]. exact Ha.
  - exact IH.
Qed.

Lemma rstrip_id s c : str_last s = Some c -> is_space c = false -> rstrip s = s.
Proof.
  induction s as [|a s IH]; [discriminate|]. intros Hl Hc.
  destruct s as [|b s].
  - injection Hl as ->. simpl. rewrite Hc. reflexivity.
  - change (rstrip (String a (String b s)))
      with (match rstrip (String b s) with
            | EmptyString => if is_space a then EmptyString else String a EmptyString
            | t' => String a t'
            end).
    rewrite (IH Hl Hc). reflexivity.
Qed.

Lemma is_space_sep c : is_space c = true -> is_sep c = true.
Proof. unfold is_sep. intros ->. apply orb_true_r. Qed.

Lemma plain_cons c s : plain (String c s) = negb (is_sep c) && plain s.
Proof. reflexivity. Qed.

Lemma plain_last s c : plain s = true -> str_last s = Some c -> is_sep c = false.
Proof.
  induction s as [|a s IH]; [discriminate|]. rewrite plain_cons.
  intros H Hl. apply andb_prop in H as [Ha Hs]. destruct s as [|b s].
  - injection Hl as <-. apply negb_true_iff, Ha.
  - apply IH; assumption.
Qed.

Lemma not_sep_not_space c : is_sep c = false -> is_space c = false.
Proof. unfold is_sep. intros H. apply orb_false_elim in H as [_ H]. exact H. Qed.

(** A string that starts and ends outside white space is its own strip. *)
Lemma strip_ends a s c :
  is_space a = false -> str_last (String a s) = Some c -> is_space c = false ->
  strip (String a s) = String a s.
Proof.
  intros Ha Hl Hc. unfold strip.
  assert (H : lstrip (String a s) = String a s) by (simpl; rewrite Ha; reflexivity).
  rewrite H. eapply rstrip_id; eauto.
Qed.

Lemma strip_plain s : plain s = true -> strip s = s.
Proof.
  intros H. destruct s as [|a s]; [reflexivity|].
  destruct (str_last (String a s)) as [c|] eqn:Hl.
  - eapply strip_ends; [| exact Hl |].
    + rewrite plain_cons in H. apply andb_prop in H as [H _].
      apply not_sep_not_space, negb_true_iff, H.
    + apply not_sep_not_space. eapply plain_last; eauto.
  - apply str_last_None in Hl. discriminate.
Qed.

Lemma digit_plain c : is_digit c = true -> is_sep c = false.
Proof.
  intros H. destruct (is_sep c) eqn:E; auto. exfalso.
  unfold is_sep in E. apply orb_prop in E as [E|E].
  - apply Ascii.eqb_eq in E. subst c. vm_compute in H. discriminate.
  - unfold is_digit, is_space in *. cbv zeta in *.
    apply andb_prop in H as [H1 H2]. apply N.leb_le in H1, H2.
    repeat (apply orb_prop in E as [E|E]);
      repeat match goal with H : _ && _ = true |- _ => apply andb_prop in H as [? ?] end;
      repeat match goal with
             | H : (_ <=? _)%N = true |- _ => apply N.leb_le in H
             | H : (_ =? _)%N = true |- _ => apply N.eqb_eq in H
             end; lia.
Qed.

Lemma plain_app s t : plain (s +:+ t) = plain s && plain t.
Proof.
  unfold plain. induction s as [|c s IH]; [reflexivity|].
  rewrite append_cons. simpl. rewrite IH. apply andb_assoc.
Qed.

Lemma digits_plain s : all_digits s = true -> plain s = true.
Proof.
  unfold all_digits, plain. induction s as [|c s IH]; [reflexivity|]. simpl.
  intros H. apply andb_prop in H as [Hc Hs]. rewrite (digit_plain c Hc), IH by exact Hs.
  reflexivity.
Qed.

Lemma shape_plain t : re_fullmatch_date t = true -> plain t = true /\ t <> "".
Proof.
  intros H. destruct (shape_parts t H) as (a & b & c & -> & La & Da & Lb & Db & Lc & Dc).
  split.
  - rewrite !plain_app, (digits_plain a), (digits_plain b), (digits_plain c) by assumption.
    reflexivity.
  - destruct a; discriminate.
Qed.

(** [rx.match] on a stripped line is the full match of the pattern. *)
Lemma rx_match_strip line :
  rx_match (strip line) = re_fullmatch_date (strip line).
Proof.
  unfold rx_match. destruct (re_fullmatch_date (strip line)); [reflexivity|]. simpl.
  destruct (str_last (strip line)) as [c|] eqn:Hl; [|reflexivity].
  unfold strip in Hl. apply rstrip_last in Hl.
  destruct (N.eqb_spec (N_of_ascii c) 10) as [Hc|]; [|reflexivity].
  apply ascii_of_code in Hc. subst c. vm_compute in Hl. discriminate.
Qed.

Lemma insert_sorted_elem x l y : y ∈ insert_sorted x l <-> y = x \/ y ∈ l.
Proof.
  induction l as [|z l IH]; simpl.
  - rewrite list_elem_of_singleton. split; [auto|]. intros [?|H]; [auto|inversion H].
  - destruct (String.compare x z) eqn:E.
    + apply String.compare_eq_iff in E. subst z. rewrite elem_of_cons. tauto.
    + rewrite !elem_of_cons. tauto.
    + rewrite !elem_of_cons, IH. tauto.
Qed.

Lemma sorted_set_elem l y : y ∈ sorted_set l <-> y ∈ l.
Proof.
  unfold sorted_set. induction l as [|x l IH]; simpl; [reflexivity|].
  rewrite insert_sorted_elem, IH, elem_of_cons. reflexivity.
Qed.

Lemma re_split_seps_cons b s : exists p ps, re_split_seps b s = p :: ps.
Proof.
  revert b. induction s as [|c s IH]; intros b; simpl; [eauto|].
  destruct (is_sep c).
  - destruct b; [apply IH|eauto].
  - destruct (IH false) as (p & ps & ->). eauto.
Qed.

Lemma split_plain_prefix t : forall b s,
  plain t = true -> t <> "" ->
  exists p ps, re_split_seps false s = p :: ps
               /\ re_split_seps b (t +:+ s) = (t +:+ p) :: ps.
Proof.
  induction t as [|c t IH]; intros b s Hp Hne; [contradiction|].
  rewrite plain_cons in Hp. apply andb_prop in Hp as [Hc Ht].
  apply negb_true_iff in Hc. rewrite append_cons. simpl. rewrite Hc.
  destruct t as [|c' t].
  - destruct (re_split_seps_cons false s) as (p & ps & E).
    exists p, ps. change ("" +:+ s) with s. rewrite E. auto.
  - destruct (IH false s Ht ltac:(discriminate)) as (p & ps & E1 & E2).
    exists p, ps. rewrite E2. auto.
Qed.

Lemma concat_cons2 sep x y l :
  String.concat sep (x :: y :: l) = x +:+ sep +:+ String.concat sep (y :: l).
Proof. reflexivity. Qed.

Lemma split_joined l : forall b,
  l <> [] -> Forall (fun t => re_fullmatch_date t = true) l ->
  re_split_seps b (String.concat line_feed l) = l.
Proof.
  induction l as [|t l IH]; intros b Hne Hl; [contradiction|].
  apply Forall_cons in Hl as [Ht Hl]. destruct (shape_plain t Ht) as [Hp Hn].
  destruct l as [|t2 l].
  - simpl String.concat.
    destruct (split_plain_prefix t b "" Hp Hn) as (p & ps & E1 & E2).
    rewrite append_nil_r in E2. rewrite E2. simpl in E1. injection E1 as <- <-.
    rewrite append_nil_r. reflexivity.
  - rewrite concat_cons2.
    destruct (split_plain_prefix t b (line_feed +:+ String.concat line_feed (t2 :: l)) Hp Hn)
      as (p & ps & E1 & E2).
    rewrite E2. unfold line_feed in E1 at 1. rewrite append_cons in E1.
    change ("" +:+ String.concat line_feed (t2 :: l))
      with (String.concat line_feed (t2 :: l)) in E1.
    change (re_split_seps false (String (ascii_of_N 10) (String.concat line_feed (t2 :: l))))
      with ("" :: re_split_seps true (String.concat line_feed (t2 :: l))) in E1.
    rewrite (IH true ltac:(discriminate) Hl) in E1. injection E1 as <- <-.
    rewrite append_nil_r. reflexivity.
Qed.

Lemma joined_strip l :
  l <> [] -> Forall (fun t => re_fullmatch_date t = true) l ->
  String.concat line_feed l <> "" /\ strip (String.concat line_feed l) = String.concat line_feed l.
Proof.
  intros Hne Hl.
  assert (Hfirst : exists a s, String.concat line_feed l = String a s /\ is_space a = false).
  { destruct l as [|t l]; [contradiction|]. apply Forall_cons in Hl as [Ht _].
    destruct (shape_plain t Ht) as [Hp Hn]. destruct t as [|a t]; [contradiction|].
    rewrite plain_cons in Hp. apply andb_prop in Hp as [Ha _].
    apply negb_true_iff, not_sep_not_space in Ha.
    destruct l; [exists a, t; auto|]. rewrite concat_cons2, append_cons. eauto. }
  assert (Hlast : exists c, str_last (String.concat line_feed l) = Some c /\ is_space c = false).
  { clear Hfirst. induction l as [|t l IH]; [contradiction|].
    apply Forall_cons in Hl as [Ht Hl]. destruct (shape_plain t Ht) as [Hp Hn].
    destruct l as [|t2 l].
    - simpl. destruct (str_last t) as [c|] eqn:E.
      + exists c. split; auto. apply not_sep_not_space. eapply plain_last; eauto.
      + apply str_last_None in E. contradiction.
    - destruct (IH ltac:(discriminate) Hl) as (c & Hc & Hs). exists c. split; auto.
      rewrite concat_cons2, <- append_assoc.
      rewrite (str_init_last _ _ Hc), <- append_assoc. apply str_last_app. }
  destruct Hfirst as (a & s & E & Ha). destruct Hlast as (c & Hc & Hs).
  rewrite E in *. split; [discriminate|]. eapply strip_ends; eauto.
Qed.

Lemma parse_fold l : forall acc : gset string,
  Forall (fun t => re_fullmatch_date t = true) l ->
  fold_left (fun vals token =>
               let t := strip token in
               if re_fullmatch_date t then {[t]} ∪ vals else vals) l acc
  = list_to_set l ∪ acc.
Proof.
  induction l as [|t l IH]; intros acc Hl; simpl.
  - symmetry. apply (left_id_L ∅ (∪)).
  - apply Forall_cons in Hl as [Ht Hl]. destruct (shape_plain t Ht) as [Hp _].
    rewrite (strip_plain t Hp), Ht, IH by exact Hl.
    rewrite (assoc_L (∪) (list_to_set l) {[t]} acc), (comm_L (∪) (list_to_set l) {[t]}).
    reflexivity.
Qed.

Lemma parse_joined l :
  Forall (fun t => re_fullmatch_date t = true) l ->
  parse_holidays_str (String.concat line_feed l) = list_to_set l.
Proof.
  intros Hl. unfold parse_holidays_str. destruct l as [|t l]; [reflexivity|].
  destruct (joined_strip (t :: l) ltac:(discriminate) Hl) as [Hne Hs].
  destruct (String.eqb_spec (String.concat line_feed (t :: l)) "") as [|_]; [contradiction|].
  rewrite Hs, split_joined by (auto; discriminate).
  rewrite parse_fold by exact Hl. apply (right_id_L ∅ (∪)).
Qed.

Lemma mh_list_elem mh_text t :
  t ∈ mh_list mh_text
  <-> re_fullmatch_date t = true
      /\ exists line, line ∈ splitlines mh_text /\ strip line = t.
Proof.
  unfold mh_list. rewrite sorted_set_elem, list_elem_of_In, List.filter_In, <- list_elem_of_In.
  rewrite list_elem_of_fmap. split.
  - intros [(line & -> & Hin) H]. apply andb_prop in H as [_ H].
    rewrite rx_match_strip in H. eauto.
  - intros [H (line & Hin & <-)]. split; [eauto|].
    rewrite rx_match_strip, H. destruct (shape_plain _ H) as [_ Hne].
    destruct (String.eqb_spec (strip line) ""); [contradiction|reflexivity].
Qed.

Lemma year1000_pos : 1 <= year1000.
Proof. vm_compute. discriminate. Qed.

(** X3. The manual holidays survive the settings dialog: the string that
    [_on_apply] stores under ["holidays"] is parsed by [parse_holidays_str]
    into exactly the lines of the holiday editor that, stripped, have the
    shape of a date.  So, without [jpholiday], a day from the year 1000 on
    is shown as a holiday exactly when its date is one of these lines; with
    [jpholiday], the days of these lines are holidays as well. *)
Theorem applied_holidays_are_parsed_back (mh_text : string) :
  (forall t,
     t ∈ parse_holidays_str (holidays_setting mh_text)
     <-> re_fullmatch_date t = true
         /\ exists line, line ∈ splitlines mh_text /\ strip line = t)
  /\ (forall jpholiday (d : date),
        year1000 <= d <= Date.MAXORDINAL ->
        ((exists line, line ∈ splitlines mh_text /\ strip line = Date.date_key d) ->
         _is_holiday_jp jpholiday (parse_holidays_str (holidays_setting mh_text)) d = true)
        /\ (_is_holiday_jp None (parse_holidays_str (holidays_setting mh_text)) d = true ->
            exists line, line ∈ splitlines mh_text /\ strip line = Date.date_key d)).
Proof.
  assert (Hset : forall t,
     t ∈ parse_holidays_str (holidays_setting mh_text)
     <-> re_fullmatch_date t = true
         /\ exists line, line ∈ splitlines mh_text /\ strip line = t).
  { intros t. unfold holidays_setting. rewrite parse_joined.
    - rewrite elem_of_list_to_set. apply mh_list_elem.
    - apply Forall_forall. intros x Hx. apply mh_list_elem in Hx as [Hx _]. exact Hx. }
  split; [exact Hset|]. intros jp d Hd.
  assert (Hshape : re_fullmatch_date (Date.date_key d) = true).
  { apply date_key_shape. pose proof year1000_pos. lia. }
  split.
  - intros Hline.
    assert (Hin : Date.date_key d ∈ parse_holidays_str (holidays_setting mh_text))
      by (apply Hset; auto).
    unfold _is_holiday_jp. destruct jp as [f|].
    + destruct (f d) as [[]|]; auto; apply bool_decide_eq_true; exact Hin.
    + apply bool_decide_eq_true; exact Hin.
  - unfold _is_holiday_jp. intros H. apply bool_decide_eq_true in H.
    apply Hset in H as [_ H]. exact H.
Qed.

(** ** The search dialog *)

Lemma search_row_elem q cols (row : gmap string string) dt : forall tree it,
  it ∈ search_row q cols row dt tree
  <-> it ∈ tree
      \/ exists col, col ∈ cols
           /\ contains q (lower (default "" (row !! col_id col))) = true
           /\ it = {| item_col := col_title col;
                      item_text := newlines_to_spaces (default "" (row !! col_id col));
                      item_data := (Date.year dt, Date.month dt, Date.day dt) |}.
Proof.
  unfold search_row. induction cols as [|c cols IH]; intros tree it; simpl.
  - split; [auto|]. intros [H|(col & H & _)]; [exact H|inversion H].
  - rewrite IH. clear IH. cbv zeta.
    destruct (contains q (lower (default "" (row !! col_id c)))) eqn:E.
    + unfold add_result. rewrite elem_of_app, list_elem_of_singleton. split.
      * intros [[H|H]|(col & Hin & Hc & Hit)]; auto.
        -- right. exists c. split; [left|]. auto.
        -- right. exists col. split; [right; exact Hin|]. auto.
      * intros [H|(col & Hin & Hc & Hit)]; auto.
        apply elem_of_cons in Hin as [->|Hin]; [auto|].
        right. exists col. auto.
    + split.
      * intros [H|(col & Hin & Hc & Hit)]; auto.
        right. exists col. split; [right; exact Hin|]. auto.
      * intros [H|(col & Hin & Hc & Hit)]; auto.
        apply elem_of_cons in Hin as [->|Hin]; [congruence|].
        right. exists col. auto.
Qed.

Lemma cell_text_row (cs : Cells) key cid :
  default "" (default ∅ (cs !! key) !! cid) = cell_text cs key cid.
Proof.
  unfold cell_text. destruct (cs !! key); [reflexivity|]. simpl.
  rewrite lookup_empty. reflexivity.
Qed.

Lemma contains_empty q : q <> "" -> contains q (lower "") = false.
Proof. destruct q; [contradiction|reflexivity]. Qed.

(** The loop of the scope "range". *)
Lemma search_range_spec q a fuel : forall cur tree,
  0 < cur -> cur <= range_end a + 1 -> range_end a <= Date.MAXORDINAL ->
  (Z.to_nat (range_end a - cur + 1) < fuel)%nat ->
  exists tree',
    (search_range fuel q a cur tree = Found tree'
     \/ (search_range fuel q a cur tree = Broken OverflowError tree'
         /\ range_end a = Date.MAXORDINAL /\ cur <= range_end a))
    /\ (range_end a < Date.MAXORDINAL -> search_range fuel q a cur tree = Found tree')
    /\ forall it, it ∈ tree'
         <-> it ∈ tree
             \/ exists dt col, cur <= dt <= range_end a
                  /\ holds_query q a (Date.date_key dt) col
                  /\ it = hit a dt (Date.date_key dt) col.
Proof.
  induction fuel as [|fuel IH]; intros cur tree Hpos Hcur Hmax Hfuel; [lia|].
  simpl. destruct (cur <=? range_end a) eqn:E.
  - apply Z.leb_le in E.
    set (tree1 := search_row q (columns a) (default ∅ (cells a !! Date.date_key cur)) cur tree).
    assert (H1 : forall it, it ∈ tree1
              <-> it ∈ tree
                  \/ exists col, holds_query q a (Date.date_key cur) col
                       /\ it = hit a cur (Date.date_key cur) col).
    { intros it. subst tree1. rewrite search_row_elem. unfold holds_query, hit.
      split; (intros [H|(col & H)]; [auto|right; exists col]);
        rewrite ?cell_text_row in *; tauto. }
    clearbody tree1.
    destruct (Date.add_days cur 1) as [cur'|] eqn:Ha.
    + apply add_days_inv in Ha as [-> Hb].
      destruct (IH (cur + 1) tree1 ltac:(lia) ltac:(lia) Hmax ltac:(lia))
        as (tree' & Hres & Hok & Hmem).
      exists tree'. split; [|split; [exact Hok|]].
      * destruct Hres as [Hres|(Hres & ? & ?)]; [left; exact Hres|right].
        split; [exact Hres|]. split; [assumption|lia].
      * intros it. rewrite Hmem, H1. split.
        -- intros [[H|(col & Hq & Hit)]|(dt & col & Hdt & Hq & Hit)]; auto.
           ++ right. exists cur, col. split; [lia|]. auto.
           ++ right. exists dt, col. split; [lia|]. auto.
        -- intros [H|(dt & col & Hdt & Hq & Hit)]; auto.
           destruct (decide (dt = cur)) as [->|Hne].
           ++ left. right. exists col. auto.
           ++ right. exists dt, col. split; [lia|]. auto.
    + assert (Hc : cur = Date.MAXORDINAL).
      { unfold Date.add_days in Ha. unfold Date.MAXORDINAL in *.
        destruct (Z.abs 1 <=? 999999999) eqn:E1; [|discriminate].
        destruct (0 <? cur + 1) eqn:E2; [|apply Z.ltb_ge in E2; lia].
        destruct (cur + 1 <=? 3652059) eqn:E3; [discriminate|].
        apply Z.leb_gt in E3. lia. }
      exists tree1. split; [|split].
      * right. split; [reflexivity|]. split; lia.
      * intros ?. lia.
      * intros it. rewrite H1. split.
        -- intros [H|(col & Hq & Hit)]; auto. right. exists cur, col. split; [lia|]. auto.
        -- intros [H|(dt & col & Hdt & Hq & Hit)]; auto.
           assert (dt = cur) by lia. subst dt. right. exists col. auto.
  - apply Z.leb_gt in E. exists tree. split; [auto|]. split; [auto|].
    intros it. split; [auto|]. intros [H|(dt & col & Hdt & _)]; [exact H|lia].
Qed.

Lemma range_search_spec
    (fuel : nat) (query : string) (a : CalendarApp) :
  0 < range_start a ->
  range_end a < Date.MAXORDINAL ->
  (Z.to_nat (range_end a - range_start a + 1) < fuel)%nat ->
  exists tree,
    _do_search fuel query false a = Found tree
    /\ (lower (strip query) = "" -> tree = [])
    /\ (lower (strip query) <> "" ->
        forall it, it ∈ tree
          <-> exists dt col,
                range_start a <= dt <= range_end a
                /\ holds_query (lower (strip query)) a (Date.date_key dt) col
                /\ it = hit a dt (Date.date_key dt) col).
Proof.
  intros Hpos Hmax Hfuel. unfold _do_search. cbv zeta.
  destruct (String.eqb_spec (lower (strip query)) "") as [Hq|Hq].
  - exists []. split; [reflexivity|]. split; [reflexivity|contradiction].
  - destruct (decide (range_start a <= range_end a + 1)) as [Hle|Hgt].
    + destruct (search_range_spec (lower (strip query)) a fuel (range_start a) []
                  Hpos Hle ltac:(lia) Hfuel) as (tree & _ & Hok & Hmem).
      exists tree. split; [apply Hok, Hmax|]. split; [contradiction|].
      intros _ it. rewrite Hmem. split.
      * intros [H|H]; [inversion H|exact H].
      * auto.
    + exists []. split; [|split; [reflexivity|]].
      * destruct fuel as [|fuel]; [lia|]. simpl.
        destruct (range_start a <=? range_end a) eqn:E; [apply Z.leb_le in E; lia|].
        reflexivity.
      * intros _ it. split; [intros H; inversion H|].
        intros (dt & col & Hdt & _). lia.
Qed.

Lemma search_row_exact q cols (row : gmap string string) dt : forall tree,
  search_row q cols row dt tree
  = tree ++ map (fun col =>
                   {| item_col := col_title col;
                      item_text := newlines_to_spaces (default "" (row !! col_id col));
                      item_data := (Date.year dt, Date.month dt, Date.day dt) |})
                (List.filter
                   (fun col => contains q (lower (default "" (row !! col_id col))))
                   cols).
Proof.
  unfold search_row. induction cols as [|c cols IH]; intros tree; simpl.
  - rewrite app_nil_r. reflexivity.
  - rewrite IH. cbv zeta.
    destruct (contains q (lower (default "" (row !! col_id c)))).
    + unfold add_result. rewrite <- app_assoc. reflexivity.
    + reflexivity.
Qed.

Lemma search_row_day q a dt tree :
  search_row q (columns a) (default ∅ (cells a !! Date.date_key dt)) dt tree
  = tree ++ hits_of_day q a dt.
Proof.
  rewrite search_row_exact. unfold hits_of_day, hit. f_equal.
  induction (columns a) as [|c cols IH]; [reflexivity|].
  simpl. rewrite !cell_text_row. destruct (contains q _); simpl; rewrite IH;
    [rewrite cell_text_row|]; reflexivity.
Qed.

Lemma hits_of_days_S q a start n :
  hits_of_days q a start (S n)
  = hits_of_day q a start ++ hits_of_days q a (start + 1) n.
Proof.
  unfold hits_of_days. simpl. rewrite Z.add_0_r. f_equal. f_equal.
  rewrite <- seq_shift, map_map. apply map_ext. intros i. f_equal. lia.
Qed.

(** The loop of the scope "range", line by line. *)
Lemma search_range_exact q a fuel : forall cur tree,
  0 < cur -> range_end a < Date.MAXORDINAL ->
  (Z.to_nat (range_end a - cur + 1) < fuel)%nat ->
  search_range fuel q a cur tree
  = Found (tree ++ hits_of_days q a cur (Z.to_nat (range_end a - cur + 1))).
Proof.
  induction fuel as [|fuel IH]; intros cur tree Hpos Hmax Hfuel; [lia|].
  simpl. destruct (cur <=? range_end a) eqn:E.
  - apply Z.leb_le in E. rewrite search_row_day.
    rewrite add_days_Some by (unfold Date.MAXORDINAL in *; lia).
    rewrite IH by lia.
    replace (Z.to_nat (range_end a - cur + 1))
      with (S (Z.to_nat (range_end a - (cur + 1) + 1))) by lia.
    rewrite hits_of_days_S, <- app_assoc. reflexivity.
  - apply Z.leb_gt in E.
    replace (Z.to_nat (range_end a - cur + 1)) with O by lia.
    unfold hits_of_days. simpl. rewrite app_nil_r. reflexivity.
Qed.

(** X4. The search over the visible range ends, with enough rounds for its
    loop, when the window ends before the last day of the calendar.  A
    blank query finds nothing; any other query gives exactly this list:
    for each day of the window, from its start to its end, and for each
    column, in the order of the columns, whose text under the key of the
    day holds the query (letters compared without case), one line with the
    column's title, the text and the day; and no other line. *)
Theorem range_search_finds_the_texts_of_the_window
    (fuel : nat) (query : string) (a : CalendarApp) :
  0 < range_start a ->
  range_end a < Date.MAXORDINAL ->
  (Z.to_nat (range_end a - range_start a + 1) < fuel)%nat ->
  _do_search fuel query false a
  = Found (if String.eqb (lower (strip query)) "" then []
           else hits_of_days (lower (strip query)) a (range_start a)
                  (Z.to_nat (range_end a - range_start a + 1))).
Proof.
  intros Hpos Hmax Hfuel. unfold _do_search. cbv zeta.
  destruct (String.eqb (lower (strip query)) ""); [reflexivity|].
  apply (search_range_exact _ a fuel (range_start a) []); assumption.
Qed.

Lemma search_all_fold q cols (l : list (string * gmap string string)) : forall tree it,
  it ∈ fold_left (fun tree kv =>
                    match key_to_date kv.1 with
                    | Some dt => search_row q cols kv.2 dt tree
                    | None => tree
                    end) l tree
  <-> it ∈ tree
      \/ exists k row dt col,
           (k, row) ∈ l /\ key_to_date k = Some dt /\ col ∈ cols
           /\ contains q (lower (default "" (row !! col_id col))) = true
           /\ it = {| item_col := col_title col;
                      item_text := newlines_to_spaces (default "" (row !! col_id col));
                      item_data := (Date.year dt, Date.month dt, Date.day dt) |}.
Proof.
  induction l as [|[k row] l IH]; intros tree it; simpl.
  - split; [auto|]. intros [H|(k & row & dt & col & H & _)]; [exact H|inversion H].
  - rewrite IH. clear IH. destruct (key_to_date k) as [dt|] eqn:E.
    + rewrite search_row_elem. split.
      * intros [[H|(col & Hin & Hc & Hit)]|(k' & row' & dt' & col & Hin & H)]; auto.
        -- right. exists k, row, dt, col. split; [left|]. auto.
        -- right. exists k', row', dt', col. split; [right; exact Hin|]. auto.
      * intros [H|(k' & row' & dt' & col & Hin & Hk & H)]; auto.
        apply elem_of_cons in Hin as [[= -> ->]|Hin].
        -- left. right. exists col. rewrite E in Hk. injection Hk as <-. auto.
        -- right. exists k', row', dt', col. auto.
    + split.
      * intros [H|(k' & row' & dt' & col & Hin & H)]; auto.
        right. exists k', row', dt', col. split; [right; exact Hin|]. auto.
      * intros [H|(k' & row' & dt' & col & Hin & Hk & H)]; auto.
        apply elem_of_cons in Hin as [[= -> ->]|Hin]; [congruence|].
        right. exists k', row', dt', col. auto.
Qed.

Lemma search_all_elem q a it :
  it ∈ search_all q a []
  <-> exists k dt col,
        is_Some (cells a !! k) /\ key_to_date k = Some dt
        /\ holds_query q a k col /\ it = hit a dt k col.
Proof.
  unfold search_all. rewrite search_all_fold. unfold holds_query, hit, cell_text. split.
  - intros [H|(k & row & dt & col & Hin & Hk & Hc & Hq & ->)]; [inversion H|].
    apply elem_of_map_to_list in Hin. exists k, dt, col. rewrite Hin. eauto 10.
  - intros (k & dt & col & [row Hrow] & Hk & [Hc Hq] & ->). right.
    exists k, row, dt, col. rewrite Hrow in *.
    split; [apply elem_of_map_to_list, Hrow|]. auto.
Qed.

Lemma ymd_inj (d d' : date) :
  1 <= d <= Date.MAXORDINAL -> 1 <= d' <= Date.MAXORDINAL ->
  (Date.year d, Date.month d, Date.day d) = (Date.year d', Date.month d', Date.day d') ->
  d = d'.
Proof.
  intros Hd Hd' [= Hy Hm Hday].
  destruct (mkdate_ord2ymd d Hd) as (_ & _ & _ & H).
  destruct (mkdate_ord2ymd d' Hd') as (_ & _ & _ & H').
  rewrite Hy, Hm, Hday in H. congruence.
Qed.

Lemma holds_query_entry q a k col :
  q <> "" -> holds_query q a k col -> is_Some (cells a !! k).
Proof.
  intros Hq [_ H]. unfold cell_text in H.
  destruct (cells a !! k); [eauto|]. rewrite contains_empty in H by exact Hq. discriminate.
Qed.

(** X5. When every key of the cells has the shape of a date (as after a
    load, and as the editors make them), the two scopes of the search agree
    on the window: the lines found over the visible range are the lines
    found over all cells whose day lies in the window. *)
Theorem search_scopes_agree_on_the_window
    (fuel : nat) (query : string) (a : CalendarApp) :
  keys_shaped a ->
  0 < range_start a ->
  range_end a < Date.MAXORDINAL ->
  (Z.to_nat (range_end a - range_start a + 1) < fuel)%nat ->
  exists in_range in_all,
    _do_search fuel query false a = Found in_range
    /\ _do_search fuel query true a = Found in_all
    /\ forall it, it ∈ in_range
         <-> it ∈ in_all
             /\ exists dt, range_start a <= dt <= range_end a
                  /\ item_data it = (Date.year dt, Date.month dt, Date.day dt).
Proof.
  intros Hkeys Hpos Hmax Hfuel.
  destruct (range_search_spec fuel query a Hpos Hmax Hfuel)
    as (tr & Hr & Hblank & Hmem).
  exists tr. unfold _do_search in *. cbv zeta in *.
  destruct (String.eqb_spec (lower (strip query)) "") as [Hq|Hq].
  - exists []. split; [exact Hr|]. split; [reflexivity|].
    rewrite (Hblank Hq). intros it. split; [intros H; inversion H|].
    intros [H _]. inversion H.
  - eexists. split; [exact Hr|]. split; [reflexivity|].
    intros it. rewrite (Hmem Hq), search_all_elem. split.
    + intros (dt & col & Hdt & Hh & ->). split; [|exists dt; auto].
      exists (Date.date_key dt), dt, col.
      split; [eapply holds_query_entry; eauto|].
      split; [apply key_to_date_key; unfold Date.MAXORDINAL in *; lia|]. auto.
    + intros [(k & dt0 & col & Hsome & Hk & Hh & ->) (dt & Hdt & Hdata)].
      pose proof (date_key_key_to_date k dt0 (Hkeys k Hsome) Hk) as <-.
      assert (Hv0 : 1 <= dt0 <= Date.MAXORDINAL).
      { unfold key_to_date in Hk. destruct (split_on "-" (Date.date_key dt0))
          as [|x [|y [|z [|? ?]]]]; try discriminate.
        destruct (int_of_str x); [|discriminate]. destruct (int_of_str y); [|discriminate].
        destruct (int_of_str z); [|discriminate]. simpl in Hk.
        apply ord2ymd_mkdate in Hk as [Hk _]. exact Hk. }
      assert (dt0 = dt).
      { apply ymd_inj; auto. unfold Date.MAXORDINAL in *. lia. }
      subst dt0. exists dt, col. auto.
Qed.

(** ** Keys of days, and jumping to a hit *)

(** X6. For every day from the year 1000 on, the key that the application
    makes for it ([date_key], the [strftime] of [_build_row]) passes the
    pattern of the loader, is read back by the search dialog as that day,
    and is the key of no other day. *)
Theorem day_keys_are_accepted_and_read_back (d : date) :
  year1000 <= d <= Date.MAXORDINAL ->
  re_fullmatch_date (Date.date_key d) = true
  /\ key_to_date (Date.date_key d) = Some d
  /\ forall d' : date,
       year1000 <= d' <= Date.MAXORDINAL ->
       Date.date_key d' = Date.date_key d -> d' = d.
Proof.
  intros Hd. pose proof year1000_pos as Hy.
  split; [apply date_key_shape; lia|].
  split; [apply key_to_date_key; lia|].
  intros d' Hd' Hk.
  pose proof (key_to_date_key d ltac:(lia)) as H1.
  pose proof (key_to_date_key d' ltac:(lia)) as H2.
  rewrite Hk in H2. congruence.
Qed.

Lemma day_keys_witness :
  year1000 <= jan1 <= Date.MAXORDINAL
  /\ re_fullmatch_date (Date.date_key jan1) = true
  /\ key_to_date (Date.date_key jan1) = Some jan1
  /\ forall d' : date,
       year1000 <= d' <= Date.MAXORDINAL ->
       Date.date_key d' = Date.date_key jan1 -> d' = jan1.
Proof.
  assert (H : year1000 <= jan1 <= Date.MAXORDINAL) by (vm_compute; split; discriminate).
  split; [exact H|]. exact (day_keys_are_accepted_and_read_back jan1 H).
Defined.

Lemma rows_for_first (a : CalendarApp) start n :
  (0 < n)%nat -> rows_for a start n !! 0%nat = Some (row_for a start).
Proof.
  intros Hn. unfold rows_for. rewrite list_lookup_fmap, lookup_seq_lt by exact Hn.
  simpl. replace (start + Z.of_nat 0) with start by lia. reflexivity.
Qed.

(** X7. Activating a line of the search result makes the day of the line
    the anchor: for a line found by either scope (for the scope "all",
    with every key of the cells of the loader's shape) there is the day
    [dt] whose year, month and day the line carries and a column whose text
    under the key of [dt] is the text of the line; and when [dt] is at
    least 62 days before the end of the calendar, [_jump_and_close] ends
    with the window [dt .. dt + 61], [dt] the anchor, and the first row of
    the table the row of [dt]. *)
Theorem jump_to_hit_shows_its_day
    (slot : Z -> M unit) (fuel : nat) (query : string) (rb_all : bool)
    (m : machine) (tree : list item) (it : item) :
  0 < range_start (app m) ->
  range_end (app m) < Date.MAXORDINAL ->
  (rb_all = true -> keys_shaped (app m)) ->
  _do_search fuel query rb_all (app m) = Found tree ->
  it ∈ tree ->
  exists (dt : date) (col : column),
    1 <= dt <= Date.MAXORDINAL
    /\ holds_query (lower (strip query)) (app m) (Date.date_key dt) col
    /\ it = hit (app m) dt (Date.date_key dt) col
    /\ (dt + 62 <= Date.MAXORDINAL ->
        exists m',
          _jump_and_close slot it m = Ret tt m'
          /\ range_start (app m') = dt
          /\ range_end (app m') = dt + 61
          /\ current_anchor_date (app m') = dt
          /\ table (app m') !! 0%nat = Some (row_for (app m) dt)).
Proof.
  intros Hpos Hmax Hkeys Hsearch Hit.
  assert (Hhit : exists (dt : date) (col : column),
            1 <= dt <= Date.MAXORDINAL
            /\ holds_query (lower (strip query)) (app m) (Date.date_key dt) col
            /\ it = hit (app m) dt (Date.date_key dt) col).
  { unfold _do_search in Hsearch. cbv zeta in Hsearch.
    destruct (String.eqb_spec (lower (strip query)) "") as [Hq|Hq].
    { injection Hsearch as <-. inversion Hit. }
    destruct rb_all.
    - injection Hsearch as <-. apply search_all_elem in Hit
        as (k & dt & col & Hsome & Hk & Hh & ->).
      pose proof (date_key_key_to_date k dt (Hkeys eq_refl k Hsome) Hk) as <-.
      exists dt, col. split; [|auto].
      unfold key_to_date in Hk. destruct (split_on "-" (Date.date_key dt))
        as [|x [|y [|z [|? ?]]]]; try discriminate.
      destruct (int_of_str x); [|discriminate]. destruct (int_of_str y); [|discriminate].
      destruct (int_of_str z); [|discriminate]. simpl in Hk.
      apply ord2ymd_mkdate in Hk as [Hk _]. exact Hk.
    - destruct (decide (range_start (app m) <= range_end (app m) + 1)) as [Hle|Hgt].
      + destruct fuel as [|fuel]; [discriminate|].
        destruct (decide (Z.to_nat (range_end (app m) - range_start (app m) + 1) < S fuel)%nat)
          as [Hf|Hf].
        * destruct (search_range_spec (lower (strip query)) (app m) (S fuel)
                      (range_start (app m)) [] Hpos Hle ltac:(lia) Hf)
            as (tree' & _ & Hok & Hmem).
          rewrite (Hok Hmax) in Hsearch. injection Hsearch as <-.
          apply Hmem in Hit as [Hit|(dt & col & Hdt & Hh & ->)]; [inversion Hit|].
          exists dt, col. split; [lia|auto].
        * (* not enough rounds: the search cannot have ended *)
          exfalso. clear Hit. revert Hsearch Hf Hle Hpos.
          generalize (@nil item) as t0. generalize (range_start (app m)) as cur.
          generalize (S fuel) as f. clear -Hmax.
          induction f as [|f IH]; intros cur t0 Hs Hf Hle Hpos; [discriminate|].
          simpl in Hs. destruct (cur <=? range_end (app m)) eqn:E.
          -- apply Z.leb_le in E.
             rewrite add_days_Some in Hs by (unfold Date.MAXORDINAL in *; lia).
             apply IH in Hs; auto; lia.
          -- apply Z.leb_gt in E. lia.
      + destruct fuel as [|fuel]; [discriminate|]. simpl in Hsearch.
        destruct (range_start (app m) <=? range_end (app m)) eqn:E;
          [apply Z.leb_le in E; lia|].
        injection Hsearch as <-. inversion Hit. }
  destruct Hhit as (dt & col & Hdt & Hh & ->). exists dt, col.
  split; [exact Hdt|]. split; [exact Hh|]. split; [reflexivity|].
  intros Hroom. unfold _jump_and_close, hit. cbn [item_data].
  destruct (mkdate_ord2ymd dt Hdt) as (_ & _ & _ & Hmk).
  unfold bind. rewrite Hmk. simpl lift_opt. unfold ret at 1.
  destruct (wp_run _ _ _ (code_set_view_anchor_run slot dt m ltac:(lia) Hroom))
    as ([] & m' & Hr & Hs & He & Ha & _ & _ & Ht).
  exists m'. rewrite Hr, Ht. repeat split; auto.
  apply rows_for_first. lia.
Qed.

(** ** The loader, in full *)

Lemma same_disk_refl m : same_disk m m.
Proof. repeat split. Qed.

Lemma same_disk_trans m1 m2 m3 : same_disk m1 m2 -> same_disk m2 m3 -> same_disk m1 m3.
Proof.
  intros (A1 & B1 & C1 & D1 & E1 & F1) (A2 & B2 & C2 & D2 & E2 & F2).
  repeat split; congruence.
Qed.

Lemma uuid_str_nonempty h : uuid_str h <> "".
Proof.
  unfold uuid_str. intros H. apply (f_equal String.length) in H.
  rewrite !length_append in H. simpl in H. lia.
Qed.

Lemma append_nonempty_r (s t : string) : t <> "" -> s +:+ t <> "".
Proof.
  intros Ht H. apply (f_equal String.length) in H. rewrite length_append in H.
  destruct t; [contradiction|]. simpl in H. lia.
Qed.

Lemma append_nonempty_l (s t : string) : s <> "" -> s +:+ t <> "".
Proof. destruct s; [contradiction|discriminate]. Qed.

Lemma load_columns_post raw : forall seen cols m,
  Forall good_column cols ->
  wp (Code.load_columns raw seen cols)
     (fun res m' => app m' = app m /\ same_disk m m' /\ Forall good_column res
                    /\ (cols <> [] \/ existsb is_dict raw = true -> res <> []))
     (fun _ _ => False) m.
Proof.
  induction raw as [|x raw IH]; intros seen cols m Hgood.
  - simpl. split; [reflexivity|]. split; [apply same_disk_refl|]. split; [exact Hgood|].
    intros [H|H]; [exact H|discriminate].
  - assert (Hskip : is_dict x = false ->
       wp (Code.load_columns raw seen cols)
       (fun res m' => app m' = app m /\ same_disk m m' /\ Forall good_column res
                    /\ (cols <> [] \/ existsb is_dict (x :: raw) = true -> res <> []))
     (fun _ _ => False) m).
    { intros Hx. eapply wp_mono; [apply IH; exact Hgood| |auto].
      intros res m' (Ha & Hd & Hg & Hr). repeat split; auto; try apply Hd.
      simpl. rewrite Hx. exact Hr. }
    destruct x; try (apply Hskip; reflexivity).
    clear Hskip. simpl Code.load_columns.
    set (given := strip (py_str (py_or (default PNone (dict_get "id" d)) (PStr "")))).
    assert (Hid : forall (b : bool) (f : string -> string) (x : string)
                    (Q : string -> machine -> Prop) m0,
              (forall r m', app m' = app m0 -> same_disk m0 m' ->
                            (if b then exists h, r = f h else r = x) -> Q r m') ->
              wp (if b then h <- uuid_hex ;; ret (f h) else ret x) Q (fun _ _ => False) m0).
    { intros b f x Q m0 H. destruct b.
      - apply H; [reflexivity|repeat split|eauto].
      - apply H; [reflexivity|apply same_disk_refl|reflexivity]. }
    apply wp_bind. apply Hid. intros cid0 m1 Ha1 Hd1 Hc0.
    assert (Hne0 : cid0 <> "").
    { destruct (String.eqb_spec given "") as [|Hg]; [|subst cid0; exact Hg].
      destruct Hc0 as [h ->]. apply uuid_str_nonempty. }
    apply wp_bind. apply Hid. intros cid m2 Ha2 Hd2 Hc.
    eapply wp_mono; [apply IH| |auto].
    + apply Forall_app. split; [exact Hgood|]. constructor; [|constructor].
      split; cbn [col_id col_width]; [|lia].
      destruct (bool_decide (cid0 ∈ seen)); [|subst cid; exact Hne0].
      destruct Hc as [h ->]. apply append_nonempty_l, Hne0.
    + intros res m' (Ha & Hd & Hg & Hr). split; [congruence|]. split.
      { eapply same_disk_trans; [exact Hd1|]. eapply same_disk_trans; [exact Hd2|exact Hd]. }
      split; [exact Hg|]. intros _. apply Hr. left. destruct cols; discriminate.
Qed.


Lemma load_result p s m :
  wp (Code._load_json_path p s)
     (fun b m' => b = true -> loaded p m m')
     (fun _ _ => False) m.
Proof.
  unfold Code._load_json_path. apply wp_try_except.
  match goal with |- wp_gen _ _ ?Q ?E _ => set (E0 := E); set (Q0 := Q) end.
  assert (HE : forall e m', E0 e m').
  { intros e m'. apply handler_false. intros m'' H; discriminate. }
  clearbody E0.
  apply wp_bind. unfold json_load. apply wp_bind.
  unfold wp_gen at 1. rewrite io_step_run.
  destruct (io_ok _ _); [|apply HE].
  apply wp_bind, wp_get. change (files (os (bump m))) with (files (os m)).
  destruct (files (os m) !! p) as [[raw| |]|] eqn:Hf; try (load_fail HE).
  apply wp_ret. apply wp_bind, wp_get. apply wp_bind.
  destruct (norm raw) as [| | | | | |d] eqn:Hn; try (load_fail HE).
  apply wp_ret. apply wp_bind.
  change (columns (app (bump m))) with (columns (app m)).
  destruct (default _ _) as [| | | | |l|] eqn:Hc;
    try (apply wp_ret, wp_bind, wp_raise, HE).
  pose proof (load_columns_post l ∅ [] (bump m) (Forall_nil_2 _)) as Hcols.
  unfold wp_gen at 1. unfold wp_gen in Hcols.
  destruct (Code.load_columns l ∅ [] (bump m)) as [res mc|e mc|] eqn:Hrun;
    try contradiction.
  destruct Hcols as (Ha & Hd & Hg & _).
  destruct res as [|c res]; [apply wp_bind, wp_raise, HE|].
  destruct Hd as (D1 & D2 & D3 & D4 & D5 & D6). cbn in D1, D2, D3, D4, D5, D6, Ha.
  set (a1 := with_cells (loaded_cells d (app m)) (with_columns (c :: res) (app mc))).
  assert (Hcommon : forall a3,
            a3 = with_dirty false a1
            \/ (exists ms, a3 = with_dirty false
                                  (with_range_end (ms + 61) (with_range_start ms a1))) ->
            columns a3 = c :: res
            /\ cells a3 = loaded_cells d (app m)
            /\ _dirty a3 = false
            /\ current_anchor_date a3 = current_anchor_date (app m)
            /\ autosave_path a3 = autosave_path (app m)
            /\ table a3 = table (app m)
            /\ bar a3 = bar (app m)
            /\ _last_user_scroll a3 = _last_user_scroll (app m)
            /\ expand_each a3 = expand_each (app m)).
  { intros a3 [->|[ms ->]]; subst a1; cbn; rewrite Ha; repeat split; reflexivity. }
  assert (Hfin : forall m3,
            os m3 = os mc ->
            (asked_window d = None /\ app m3 = with_dirty false a1)
            \/ (exists y mo ms, asked_window d = Some (y, mo)
                   /\ Date.mkdate y mo 1 = Some ms
                   /\ app m3 = with_dirty false
                                 (with_range_end (ms + 61) (with_range_start ms a1))) ->
            Q0 true m3).
  { intros m3 Hos Hcase _.
    assert (Hc3 : app m3 = with_dirty false a1
                  \/ (exists ms, app m3 = with_dirty false
                                  (with_range_end (ms + 61) (with_range_start ms a1)))).
    { destruct Hcase as [[_ ->]|(y & mo & ms & _ & _ & ->)]; eauto. }
    destruct (Hcommon _ Hc3) as (C1 & C2 & C3 & C4 & C5 & C6 & C7 & C8 & C9).
    split; try assumption; try (rewrite Hos; assumption).
    - exists raw, d. split; [exact Hf|]. split; [exact Hn|]. split; [exact C2|]. split.
      + exists l, mc. rewrite C1. auto.
      + destruct Hcase as [[Hw Hm3]|(y & mo & ms & Hw & Hms & Hm3)]; rewrite Hw.
        * rewrite Hm3. subst a1. cbn. rewrite Ha. auto.
        * exists ms. rewrite Hm3. cbn. auto.
    - rewrite C1. split; [discriminate|exact Hg].
    - rewrite Hos. split; [exact D3|exact D4]. }
  clear Hcommon.
  apply wp_bind, wp_ret. apply wp_bind, wp_ret.
  apply wp_bind, wp_modify. apply wp_bind, wp_modify.
  apply wp_bind, wp_ret. apply wp_bind, wp_ret. apply wp_bind.
  assert (Hw : asked_window d
               = match as_int (default PNone (dict_get "year" d)),
                       as_int (default PNone (dict_get "month" d)) with
                 | Some y, Some mo =>
                     if (1 <=? mo) && (mo <=? 12) then Some (y, mo) else None
                 | _, _ => None
                 end) by reflexivity.
  destruct (as_int (default PNone (dict_get "year" d))) as [y|];
    [destruct (as_int (default PNone (dict_get "month" d))) as [mo|]|];
    try (apply wp_ret, wp_bind, wp_modify, wp_ret, Hfin; [reflexivity|left; split; [exact Hw|reflexivity]]).
  destruct ((1 <=? mo) && (mo <=? 12));
    try (apply wp_ret, wp_bind, wp_modify, wp_ret, Hfin; [reflexivity|left; split; [exact Hw|reflexivity]]).
  apply wp_bind. destruct (Date.mkdate y mo 1) as [ms|] eqn:Hms; [|load_fail HE].
  apply wp_ret, wp_bind, wp_modify, wp_bind.
  destruct (Date.add_days ms 61) as [e|] eqn:He; [|load_fail HE].
  apply add_days_inv in He as [-> _].
  apply wp_ret, wp_modify, wp_bind, wp_modify, wp_ret, Hfin; [reflexivity|].
  right. exists y, mo, ms. repeat split; auto.
Qed.

(** X8. What a successful load leaves: a list of columns that is not empty,
    each with an id that is not empty and a width from 80 to 1200; the
    cells read from the document; the dirty flag cleared; the window of 62
    days from the first of the month when the document gives a year and a
    month from 1 to 12 as integers, and the window as it was otherwise;
    the anchor, the autosave path, the table and the scroll bar as they
    were; no file written and no message box shown. *)
Theorem successful_load_postconditions (p : string) (s : bool) (m m' : machine) :
  Code._load_json_path p s m = Ret true m' ->
  columns (app m') <> []
  /\ Forall good_column (columns (app m'))
  /\ _dirty (app m') = false
  /\ (exists raw d,
        files (os m) !! p = Some (Doc raw) /\ norm raw = PDict d
        /\ cells (app m') = loaded_cells d (app m)
        /\ match asked_window d with
           | Some (y, mo) =>
               exists ms, Date.mkdate y mo 1 = Some ms
                          /\ range_start (app m') = ms
                          /\ range_end (app m') = ms + 61
           | None =>
               range_start (app m') = range_start (app m)
               /\ range_end (app m') = range_end (app m)
           end)
  /\ current_anchor_date (app m') = current_anchor_date (app m)
  /\ autosave_path (app m') = autosave_path (app m)
  /\ table (app m') = table (app m)
  /\ bar (app m') = bar (app m)
  /\ files (os m') = files (os m)
  /\ history (os m') = history (os m)
  /\ dialogs (os m') = dialogs (os m).
Proof.
  intros Hrun. pose proof (load_result p s m) as H. unfold wp_gen in H.
  rewrite Hrun in H. destruct (H eq_refl).
  destruct ld_doc0 as (raw & d & Hf & Hn & Hc & _ & Hw).
  destruct ld_columns0. repeat split; auto. exists raw, d. auto.
Qed.

Lemma successful_load_witness :
  Code._load_json_path "in.json" true (with_file "in.json" (Doc doc_ghost) start)
  = Ret true loaded_ghost
  /\ columns (app loaded_ghost) <> []
  /\ Forall good_column (columns (app loaded_ghost))
  /\ _dirty (app loaded_ghost) = false.
Proof.
  assert (H : Code._load_json_path "in.json" true (with_file "in.json" (Doc doc_ghost) start)
              = Ret true loaded_ghost) by (vm_compute; reflexivity).
  split; [exact H|].
  destruct (successful_load_postconditions _ _ _ _ H) as (H1 & H2 & H3 & _).
  auto.
Defined.

(** ** Saving and loading again *)

Lemma load_cells_written (cs : Cells) k :
  Code.load_cells (map (fun kv => (kv.1, Code.entry_to_py kv.2)) (map_to_list cs)) !! k
  = if re_fullmatch_date k then cs !! k else None.
Proof.
  rewrite load_cells_lookup by apply map_to_list_keys_nodup.
  rewrite dict_get_map_to_list.
  destruct (cs !! k) as [e|] eqn:Hk; simpl.
  - unfold day_of. simpl. destruct (re_fullmatch_date k); [|reflexivity].
    rewrite load_entry_roundtrip. reflexivity.
  - destruct (re_fullmatch_date k); reflexivity.
Qed.

Lemma load_columns_canonical cols : forall seen acc m,
  Forall canonical_column cols -> NoDup (map col_id cols) ->
  (forall c, c ∈ cols -> col_id c ∉ seen) ->
  Code.load_columns (map Code.column_to_py cols) seen acc m = Ret (acc ++ cols) m.
Proof.
  induction cols as [|c cols IH]; intros seen acc m Hcan Hnd Hseen.
  - simpl. rewrite app_nil_r. reflexivity.
  - apply Forall_cons in Hcan as [(Hs & Hid & Ht & Hw) Hcan].
    simpl in Hnd. apply NoDup_cons in Hnd as [Hc Hnd].
    destruct c as [cid title width]. cbn [col_id col_title col_width] in *.
    cbn [map Code.column_to_py col_id col_title col_width].
    unfold Code.load_columns; fold Code.load_columns.
    unfold Code.column_to_py at 1. cbn [col_id col_title col_width].
    cbn [dict_get String.eqb Ascii.eqb Bool.eqb default from_option id].
    assert (Hb : py_or (PStr cid) (PStr "") = PStr cid).
    { unfold py_or, py_bool. destruct (String.eqb_spec cid ""); [contradiction|reflexivity]. }
    assert (Hbt : forall x, py_or (PStr title) x = PStr title).
    { intros x. unfold py_or, py_bool.
      destruct (String.eqb_spec title ""); [contradiction|reflexivity]. }
    rewrite Hb. cbn [py_str]. rewrite Hs.
    destruct (String.eqb_spec cid "") as [|_]; [contradiction|].
    unfold bind at 1. unfold ret at 1.
    rewrite bool_decide_eq_false_2
      by (apply (Hseen {| col_id := cid; col_title := title; col_width := width |}); left).
    unfold bind at 1. unfold ret at 1.
    rewrite Hbt. cbn [py_str py_int default from_option id].
    replace (Z.max 80 (Z.min width 1200)) with width by lia.
    rewrite IH; auto.
    + rewrite <- app_assoc. reflexivity.
    + intros c' Hc' Hin. apply elem_of_union in Hin as [Hin|Hin].
      * apply elem_of_singleton in Hin. apply Hc. rewrite <- Hin.
        apply list_elem_of_fmap. exists c'. auto.
      * revert Hin. apply Hseen. right. exact Hc'.
Qed.

Lemma save_then_load_spec (p : string) (s : bool) (m : machine) :
  io_fine m ->
  Code.no_name p = false ->
  columns (app m) <> [] ->
  exists m2 m3,
    Code._write_json p m = Ret tt m2
    /\ Code._load_json_path p s m2 = Ret true m3
    /\ (forall k, cells (app m3) !! k
                  = if re_fullmatch_date k then cells (app m) !! k else None)
    /\ (keys_shaped (app m) -> cells (app m3) = cells (app m))
    /\ (canonical_columns (columns (app m)) -> columns (app m3) = columns (app m))
    /\ range_start (app m3) = range_start (app m)
    /\ range_end (app m3) = range_end (app m)
    /\ _dirty (app m3) = false.
Proof.
  intros Hio Hname Hcols.
  destruct (wp_run _ _ _ (write_json_fine p m Hio Hname))
    as ([] & m2 & Hw & Hio2 & Hfs & Hfile & _).
  assert (Ha : app m2 = app m) by apply Hfs.
  assert (Hl : wp (Code._load_json_path p s)
             (fun b m' => b = true /\ cells (app m') =
                loaded_cells [("columns", Code.columns_to_py (columns (app m)));
                              ("cells", Code.cells_to_py (cells (app m)))] (app m2))
             (fun _ _ => False) m2).
  { eapply load_ok.
    - apply Hio2. apply le_n.
    - exact Hfile.
    - apply norm_document.
    - reflexivity.
    - apply existsb_columns. exact Hcols.
    - reflexivity. }
  destruct (wp_run _ _ _ Hl) as (b & m3 & Hr & -> & Hc3).
  pose proof (load_result p s m2) as Hres. unfold wp_gen in Hres.
  rewrite Hr in Hres. destruct (Hres eq_refl).
  destruct ld_doc0 as (raw & d & Hf & Hn & _ & (l & mc & Hl1 & Hl2) & Hwin).
  rewrite Hfile in Hf. injection Hf as <-. rewrite norm_document in Hn.
  injection Hn as <-.
  assert (Hlook : forall k, cells (app m3) !! k
                    = if re_fullmatch_date k then cells (app m) !! k else None).
  { intros k. rewrite Hc3. unfold loaded_cells. simpl. unfold Code.cells_to_py.
    apply load_cells_written. }
  exists m2, m3. split; [exact Hw|]. split; [exact Hr|]. split; [exact Hlook|].
  split; [|split; [|split; [|split]]].
  - intros Hk. apply map_eq. intros k. rewrite Hlook.
    destruct (re_fullmatch_date k) eqn:E; [reflexivity|].
    destruct (cells (app m) !! k) eqn:E'; [|reflexivity].
    rewrite (Hk k) in E by (rewrite E'; eauto). discriminate.
  - intros [Hcan Hnd]. simpl in Hl1. injection Hl1 as <-.
    rewrite load_columns_canonical in Hl2; auto.
    + injection Hl2 as Hl2 _. symmetry. exact Hl2.
    + intros c _. apply not_elem_of_empty.
  - simpl in Hwin. destruct Hwin as [-> _]. rewrite Ha. reflexivity.
  - simpl in Hwin. destruct Hwin as [_ ->]. rewrite Ha. reflexivity.
  - exact ld_dirty0.
Qed.

(** X9. Saving and loading the file again, no I/O call failing and at least
    one column defined: both end, the load succeeds and clears the dirty
    flag, the window stays, and the cells come back under every key of the
    loader's shape, while the entries under other keys are gone; so the
    cells come back unchanged when every key has that shape.  The columns
    come back unchanged when each has a stripped id that is not empty, a
    title that is not empty and a width from 80 to 1200, and no two share
    an id. *)
Theorem save_then_load_restores_the_document (p : string) (s : bool) (m : machine) :
  io_fine m ->
  Code.no_name p = false ->
  columns (app m) <> [] ->
  exists m2 m3,
    Code._write_json p m = Ret tt m2
    /\ Code._load_json_path p s m2 = Ret true m3
    /\ (forall k, cells (app m3) !! k
                  = if re_fullmatch_date k then cells (app m) !! k else None)
    /\ (keys_shaped (app m) -> cells (app m3) = cells (app m))
    /\ (canonical_columns (columns (app m)) -> columns (app m3) = columns (app m))
    /\ range_start (app m3) = range_start (app m)
    /\ range_end (app m3) = range_end (app m)
    /\ _dirty (app m3) = false.
Proof. exact (save_then_load_spec p s m). Qed.

(** X10. A document saved while no column is defined cannot be loaded
    again: the write succeeds and the file holds the document with all the
    cells, and the load of that file answers [False] (with the message box
    unless it is silent) and leaves the application as it was. *)
Theorem save_without_columns_cannot_be_loaded (p : string) (s : bool) (m : machine) :
  io_fine m ->
  Code.no_name p = false ->
  columns (app m) = [] ->
  exists m2 m3,
    Code._write_json p m = Ret tt m2
    /\ files (os m2) !! p = Some (Doc (Code.document (app m)))
    /\ Code._load_json_path p s m2 = Ret false m3
    /\ app m3 = app m
    /\ dialogs (os m3)
       = if s then dialogs (os m) else "読み込み失敗" :: dialogs (os m).
Proof.
  intros Hio Hname Hcols.
  destruct (wp_run _ _ _ (write_json_fine p m Hio Hname))
    as ([] & m2 & Hw & Hio2 & Hfs & Hfile & _).
  assert (Ha : app m2 = app m) by apply Hfs.
  assert (Hd : dialogs (os m2) = dialogs (os m)) by apply Hfs.
  assert (Hl : exists m3,
            Code._load_json_path p s m2 = Ret false m3
            /\ app m3 = app m2
            /\ dialogs (os m3)
               = if s then dialogs (os m2) else "読み込み失敗" :: dialogs (os m2)).
  { unfold Code._load_json_path, try_except, bind at 1.
    unfold json_load, bind at 1. rewrite io_step_run, (Hio2 _ (le_n _)).
    unfold bind at 1. unfold get at 1. change (files (os (bump m2))) with (files (os m2)).
    rewrite Hfile, norm_document. unfold ret at 1.
    unfold bind at 1. unfold get at 1. unfold bind at 1.
    unfold Code.py_get at 1. unfold Code.document at 1.
    cbn [dict_get String.eqb Ascii.eqb Bool.eqb default from_option id].
    unfold ret at 1. unfold bind at 1.
    rewrite Hcols. cbn [Code.columns_to_py map Code.load_columns]. unfold ret at 1.
    unfold bind at 1. unfold raise at 1.
    destruct s; cbn; eexists; repeat split. }
  destruct Hl as (m3 & Hl & Ha3 & Hd3).
  exists m2, m3. split; [exact Hw|]. split; [exact Hfile|]. split; [exact Hl|].
  split; [congruence|]. rewrite Hd3, Hd. reflexivity.
Qed.

Lemma slot_run k cid text m :
  _slot k cid text m
  = Ret tt (on_app (with_dirty true)
             (on_app (fun a => with_cells
                (<[k := <[cid := text]> (default ∅ (cells a !! k))]> (cells a)) a) m)).
Proof. reflexivity. Qed.

Lemma cell_text_insert (cs : Cells) k cid text k' c' :
  cell_text (<[k := <[cid := text]> (default ∅ (cs !! k))]> cs) k' c'
  = if decide ((k', c') = (k, cid)) then text else cell_text cs k' c'.
Proof.
  unfold cell_text. destruct (decide ((k', c') = (k, cid))) as [[= -> ->]|Hne].
  - rewrite lookup_insert_eq. simpl. rewrite lookup_insert_eq. reflexivity.
  - destruct (decide (k' = k)) as [->|Hk].
    + rewrite lookup_insert_eq. simpl.
      rewrite lookup_insert_ne by congruence.
      destruct (cs !! k); simpl; [reflexivity|]. rewrite lookup_empty. reflexivity.
    + rewrite lookup_insert_ne by congruence. reflexivity.
Qed.

Lemma cell_text_filtered (cs cs' : Cells) k c :
  (forall k, cs' !! k = if re_fullmatch_date k then cs !! k else None) ->
  re_fullmatch_date k = true -> cell_text cs' k c = cell_text cs k c.
Proof. intros H Hk. unfold cell_text. rewrite H, Hk. reflexivity. Qed.

(** X11. What is typed is kept: the slot of an editor stores the text under
    the key of the day and the id of the column and sets the dirty flag;
    after a save and a load of the file (no I/O call failing, at least one
    column, a day from the year 1000 on) the text is in the cells under the
    same key and id, and the text of every other cell under a key of the
    loader's shape is what it was before the edit. *)
Theorem typed_text_survives_save_and_load
    (dt : date) (cid text p : string) (s : bool) (m : machine) :
  year1000 <= dt <= Date.MAXORDINAL ->
  io_fine m ->
  Code.no_name p = false ->
  columns (app m) <> [] ->
  exists m1 m2 m3,
    _slot (Date.date_key dt) cid text m = Ret tt m1
    /\ _dirty (app m1) = true
    /\ Code._write_json p m1 = Ret tt m2
    /\ Code._load_json_path p s m2 = Ret true m3
    /\ cell_text (cells (app m3)) (Date.date_key dt) cid = text
    /\ forall k c,
         re_fullmatch_date k = true -> (k, c) <> (Date.date_key dt, cid) ->
         cell_text (cells (app m3)) k c = cell_text (cells (app m)) k c.
Proof.
  intros Hdt Hio Hname Hcols. pose proof year1000_pos as Hy.
  eexists. rewrite slot_run.
  set (m1 := on_app (with_dirty true) _).
  destruct (save_then_load_spec p s m1) as (m2 & m3 & Hw & Hl & Hlook & _).
  { exact Hio. }
  { exact Hname. }
  { exact Hcols. }
  exists m2, m3. split; [reflexivity|]. split; [reflexivity|].
  split; [exact Hw|]. split; [exact Hl|]. split.
  - rewrite (cell_text_filtered _ _ _ _ Hlook) by (apply date_key_shape; lia).
    subst m1. cbn [app on_app cells with_dirty with_cells].
    rewrite cell_text_insert. destruct (decide _); [reflexivity|contradiction].
  - intros k c Hk Hne. rewrite (cell_text_filtered _ _ _ _ Hlook Hk).
    subst m1. cbn [app on_app cells with_dirty with_cells].
    rewrite cell_text_insert. destruct (decide _); [contradiction|reflexivity].
Qed.

(** X12. What is typed is shown: after the slot of an editor has stored a
    text for a day, rebuilding the table around an anchor whose window
    holds the day gives a row for that day in which the editor of every
    column with the id shows the text. *)
Theorem typed_text_is_shown_after_rebuild
    (slot : Z -> M unit) (dt anchor : date) (cid text : string) (m : machine)
    (i : nat) (col : column) :
  0 < anchor ->
  anchor + 62 <= Date.MAXORDINAL ->
  anchor <= dt <= anchor + 61 ->
  columns (app m) !! i = Some col ->
  col_id col = cid ->
  exists m1 m2 r,
    _slot (Date.date_key dt) cid text m = Ret tt m1
    /\ Code.set_view_anchor slot anchor m1 = Ret tt m2
    /\ table (app m2) !! Z.to_nat (dt - anchor) = Some (Some r)
    /\ row_date r = dt
    /\ editors r !! i = Some text.
Proof.
  intros Ha Hmax Hdt Hcol Hid. eexists. rewrite slot_run.
  set (m1 := on_app (with_dirty true) _).
  destruct (wp_run _ _ _ (code_set_view_anchor_run slot anchor m1 Ha Hmax))
    as ([] & m2 & Hr & _ & _ & _ & _ & _ & Ht).
  exists m2. eexists. split; [reflexivity|]. split; [exact Hr|].
  rewrite Ht. unfold rows_for. rewrite list_lookup_fmap, lookup_seq_lt by lia.
  simpl. unfold row_for. split; [reflexivity|]. cbn [row_date editors].
  split; [lia|]. rewrite list_lookup_fmap.
  subst m1. cbn [app on_app cells columns with_dirty with_cells].
  rewrite Hcol. simpl. rewrite cell_text_insert.
  replace (anchor + Z.of_nat (Z.to_nat (dt - anchor))) with dt by lia.
  rewrite Hid. destruct (decide _); [reflexivity|contradiction].
Qed.

(** ** Settings, saving as, opening, closing *)

Lemma dict_get_set_eq {A} (k : string) (v : A) d : dict_get k (dict_set k v d) = Some v.
Proof.
  induction d as [|[k' v'] d IH]; simpl.
  - rewrite String.eqb_refl. reflexivity.
  - destruct (String.eqb_spec k k') as [->|Hne]; simpl.
    + rewrite String.eqb_refl. reflexivity.
    + destruct (String.eqb_spec k k'); [contradiction|]. exact IH.
Qed.

Lemma dict_get_set_ne {A} (k k' : string) (v : A) d :
  k <> k' -> dict_get k (dict_set k' v d) = dict_get k d.
Proof.
  intros Hne. induction d as [|[k0 v0] d IH]; simpl.
  - destruct (String.eqb_spec k k'); [contradiction|reflexivity].
  - destruct (String.eqb_spec k' k0) as [->|Hne0]; simpl.
    + destruct (String.eqb_spec k k0); [contradiction|reflexivity].
    + destruct (String.eqb_spec k k0); [reflexivity|exact IH].
Qed.

Lemma dict_get_app {A} (k : string) (d d' : list (string * A)) :
  dict_get k (d ++ d') = match dict_get k d with Some x => Some x | None => dict_get k d' end.
Proof.
  induction d as [|[k0 v0] d IH]; simpl; [reflexivity|].
  destruct (String.eqb k k0); [reflexivity|exact IH].
Qed.

Lemma dict_get_setdefault_Some k k' v d x :
  dict_get k d = Some x -> dict_get k (setdefault k' v d) = Some x.
Proof.
  intros H. unfold setdefault. destruct (dict_get k' d); [exact H|].
  rewrite dict_get_app, H. reflexivity.
Qed.

Lemma updated_settings_path font a s v :
  dict_get "autosave_path" (updated_settings font a (dict_set "autosave_path" v s)) = Some v.
Proof.
  unfold updated_settings. cbv zeta.
  repeat apply dict_get_setdefault_Some.
  rewrite !dict_get_set_ne by discriminate. apply dict_get_set_eq.
Qed.

Lemma updated_settings_columns font a s :
  dict_get "columns" (updated_settings font a s) = Some (Code.columns_to_py (columns a))
  /\ dict_get "font_pt" (updated_settings font a s) = Some (PInt font).
Proof.
  unfold updated_settings. cbv zeta. split.
  - repeat apply dict_get_setdefault_Some. apply dict_get_set_eq.
  - repeat apply dict_get_setdefault_Some.
    rewrite dict_get_set_ne by discriminate. apply dict_get_set_eq.
Qed.

(** [_save_settings] always ends; it leaves the application and every file
    but the settings file alone. *)
Lemma save_settings_any font s m :
  exists m',
    _save_settings font s m = Ret (updated_settings font (app m) s) m'
    /\ app m' = app m
    /\ dialogs (os m') = dialogs (os m)
    /\ forall q, q <> Sched.SETTINGS_PATH -> files (os m') !! q = files (os m) !! q.
Proof.
  unfold _save_settings, bind at 1. unfold get at 1. cbv zeta.
  set (s' := updated_settings font (app m) s).
  set (body := open_w Sched.SETTINGS_PATH;;
               json_dump (PDict s') Sched.SETTINGS_PATH;; close Sched.SETTINGS_PATH).
  assert (H : forall q, q <> Sched.SETTINGS_PATH ->
            wp body (fun _ m' => untouched q m m') (fun _ m' => untouched q m m') m).
  { intros q Hq. subst body. apply wp_bind.
    assert (Hne : Sched.SETTINGS_PATH <> q) by congruence.
    eapply wp_mono; [apply (fs_put_untouched False q _ _ m m Hne (untouched_refl _ m))| |].
    2:{ intros e m' Hu. exact Hu. }
    intros [] m1 [H1 _]. apply wp_bind.
    eapply wp_mono; [apply (json_dump_untouched False q _ _ m m1 Hne H1)| |].
    2:{ intros e m' Hu. exact Hu. }
    intros [] m2 [H2 _].
    eapply wp_mono; [apply (io_step_untouched False q m m2 H2)| |].
    - intros [] m3 [Hu _]. exact Hu.
    - intros e m3 Hu. exact Hu. }
  pose proof (H (Sched.SETTINGS_PATH +:+ ".tmp") (append_tmp_neq _)) as H0.
  unfold bind, try_except. unfold wp_gen in H0.
  destruct (body m) as [[] m'|e m'|] eqn:E; [| |contradiction].
  - exists m'. split; [reflexivity|]. destruct H0 as [Ha Hd _ _].
    split; [exact Ha|]. split; [exact Hd|].
    intros q Hq. specialize (H q Hq). unfold wp_gen in H. rewrite E in H. apply H.
  - exists m'. split; [reflexivity|]. destruct H0 as [Ha Hd _ _].
    split; [exact Ha|]. split; [exact Hd|].
    intros q Hq. specialize (H q Hq). unfold wp_gen in H. rewrite E in H. apply H.
Qed.

Lemma save_settings_fine font s m :
  io_fine m ->
  exists m',
    _save_settings font s m = Ret (updated_settings font (app m) s) m'
    /\ io_fine m' /\ fs_only m m'
    /\ files (os m')
       = <[Sched.SETTINGS_PATH := Doc (PDict (updated_settings font (app m) s))]>
           (files (os m)).
Proof.
  intros Hio. unfold _save_settings, bind at 1. unfold get at 1. cbv zeta.
  set (s' := updated_settings font (app m) s).
  assert (H : wp (open_w Sched.SETTINGS_PATH;;
                  json_dump (PDict s') Sched.SETTINGS_PATH;; close Sched.SETTINGS_PATH)
                (fun _ m' => io_fine m' /\ fs_only m m'
                   /\ files (os m') = <[Sched.SETTINGS_PATH := Doc (PDict s')]> (files (os m)))
                (fun _ _ => False) m).
  { apply wp_bind. eapply wp_mono; [apply fs_put_fine; exact Hio| |intros ? ? []].
    intros [] m1 (H1 & O1 & F1). apply wp_bind. unfold json_dump. apply wp_bind, wp_get.
    eapply wp_mono; [apply dump_pieces_fine; exact H1| |intros ? ? []].
    intros [] m2 (H2 & O2 & F2). unfold close. apply io_step_fine; [exact H2|].
    split; [|split].
    - apply (io_fine_step m2); auto using fs_only_bump.
    - eapply fs_only_trans; [exact O1|]. eapply fs_only_trans; [exact O2|apply fs_only_bump].
    - cbn. rewrite F2, F1. apply insert_insert_eq. }
  unfold bind, try_except. unfold wp_gen in H.
  destruct (bind _ _ m) as [[] m'|e m'|] eqn:E; [|contradiction|contradiction].
  unfold bind in E. rewrite E. exists m'. split; [reflexivity|exact H].
Qed.

Lemma write_json_app p m :
  exists m', Code._write_json p m = Ret tt m' /\ app m' = app m.
Proof.
  pose proof (write_json_body False p m) as H.
  unfold Code._write_json, try_except. unfold wp_gen in H.
  destruct (bind _ _ m) as [[] m1|e m1|]; [| |contradiction].
  - exists m1. split; [reflexivity|apply H].
  - eexists. split; [reflexivity|]. cbn. apply H.
Qed.

(** X13. [save_json]: with the dialog cancelled nothing happens.  With a path
    chosen the method always ends, whatever the file system does: the dirty
    flag is cleared, the chosen path is the autosave path of the
    application and of the settings, the columns and the cells are as they
    were.  When no I/O call fails (and the path is not the settings file)
    the chosen file holds the document; when the first call fails it holds
    what it held, the message box of the failed save is shown, and the
    flag is cleared all the same. *)
Theorem save_json_clears_dirty_whatever_happens
    (chosen : string) (font_pt : Z) (settings : pydict) (m : machine) :
  (chosen = "" -> save_json chosen font_pt settings m = Ret settings m)
  /\ (chosen <> "" ->
      exists s' m',
        save_json chosen font_pt settings m = Ret s' m'
        /\ _dirty (app m') = false
        /\ autosave_path (app m') = chosen
        /\ dict_get "autosave_path" s' = Some (PStr chosen)
        /\ columns (app m') = columns (app m)
        /\ cells (app m') = cells (app m)
        /\ (chosen <> Sched.SETTINGS_PATH ->
            (io_fine m -> Code.no_name chosen = false ->
             files (os m') !! chosen = Some (Doc (Code.document (app m))))
            /\ (io_ok (os m) (io_count (os m)) = false ->
                files (os m') !! chosen = files (os m) !! chosen
                /\ dialogs (os m') = "保存失敗" :: dialogs (os m)))).
Proof.
  split.
  - intros ->. reflexivity.
  - intros Hne. unfold save_json.
    destruct (String.eqb_spec chosen "") as [|_]; [contradiction|].
    destruct (write_json_app chosen m) as (m1 & Hw & Ha1).
    unfold bind at 1. rewrite Hw. unfold bind at 1. unfold modify at 1. cbv zeta.
    set (m2 := on_app (with_autosave_path chosen) m1).
    set (s1 := dict_set "autosave_path" (PStr chosen) settings).
    destruct (save_settings_any font_pt s1 m2) as (m3 & Hs & Ha3 & Hd3 & Hf3).
    unfold bind at 1. rewrite Hs. cbn.
    eexists _, _. split; [reflexivity|]. cbn. rewrite Ha3. subst m2. cbn.
    rewrite Ha1. split; [reflexivity|]. split; [reflexivity|].
    split; [apply updated_settings_path|]. split; [reflexivity|]. split; [reflexivity|].
    intros Hsp. rewrite (Hf3 _ Hsp). cbn. split.
    + intros Hio Hname.
      destruct (wp_run _ _ _ (write_json_fine chosen m Hio Hname))
        as ([] & m1' & Hw' & _ & _ & Hfile & _).
      rewrite Hw in Hw'. injection Hw' as <-. exact Hfile.
    + intros Hfail. revert Hw.
      unfold Code._write_json, try_except, bind, mkdir_parents.
      rewrite io_step_run, Hfail. cbn. intros [= <-]. cbn.
      rewrite Hd3. cbn. auto.
Qed.

(** X14. [closeEvent] always ends and leaves the application as it is; with
    unsaved edits and no I/O call failing, the file at the autosave path
    then holds the document of the application; without unsaved edits no
    file but the settings file is touched. *)
Theorem close_event_writes_unsaved_edits
    (font_pt : Z) (settings : pydict) (m : machine) :
  exists s' m',
    closeEvent font_pt settings m = Ret s' m'
    /\ app m' = app m
    /\ (_dirty (app m) = true -> io_fine m ->
        Code.no_name (autosave_path (app m)) = false ->
        files (os m') !! autosave_path (app m) = Some (Doc (Code.document (app m))))
    /\ (_dirty (app m) = false ->
        forall q, q <> Sched.SETTINGS_PATH -> files (os m') !! q = files (os m) !! q).
Proof.
  unfold closeEvent, try_except.
  destruct (save_settings_any font_pt settings m) as (m1 & Hs & Ha1 & Hd1 & Hf1).
  unfold bind at 1. rewrite Hs. unfold bind at 1. unfold get at 1. rewrite Ha1.
  destruct (_dirty (app m)) eqn:Hdirty.
  - destruct (write_json_app (autosave_path (app m)) m1) as (m2 & Hw & Ha2).
    unfold bind at 1. rewrite Hw. cbn.
    eexists _, m2. split; [reflexivity|]. split; [congruence|]. split; [|discriminate].
    intros _ Hio Hname.
    destruct (save_settings_fine font_pt settings m Hio) as (m1' & Hs' & Hio1 & _ & _).
    rewrite Hs in Hs'. injection Hs' as <-.
    destruct (wp_run _ _ _ (write_json_fine _ m1 Hio1 Hname))
      as ([] & m2' & Hw' & _ & _ & Hfile & _).
    rewrite Hw in Hw'. injection Hw' as <-. rewrite Hfile, Ha1. reflexivity.
  - cbn. eexists _, m1. split; [reflexivity|]. split; [exact Ha1|].
    split; [discriminate|]. intros _. exact Hf1.
Qed.

Lemma code_rebuild_range_run slot start (n : nat) m :
  0 < start -> start + Z.of_nat n <= Date.MAXORDINAL ->
  wp (Code.rebuild_range slot start (start + Z.of_nat n - 1) false)
     (fun _ m' => range_start (app m') = start
                  /\ range_end (app m') = start + Z.of_nat n - 1
                  /\ current_anchor_date (app m') = current_anchor_date (app m)
                  /\ columns (app m') = columns (app m)
                  /\ cells (app m') = cells (app m)
                  /\ _dirty (app m') = _dirty (app m)
                  /\ os m' = os m
                  /\ table (app m') = rows_for (app m) start n)
     (fun _ _ => False) m.
Proof.
  intros Ha Hmax.
  unfold Code.rebuild_range. apply wp_bind. unfold rowCount. apply wp_bind, wp_get, wp_ret.
  apply wp_bind. simpl andb. apply wp_ret.
  apply wp_bind. unfold Code._begin_table_update.
  apply wp_bind, wp_modify. apply wp_bind. unfold blockSignals.
  apply wp_bind, wp_get. apply wp_bind. unfold set_bar. apply wp_modify, wp_ret, wp_modify.
  apply wp_bind. apply wp_try_finally. apply wp_bind, wp_modify.
  replace (start + Z.of_nat n - 1 - start + 1) with (Z.of_nat n) by lia.
  rewrite Nat2Z.id.
  eapply wp_mono; [apply rebuild_rows_core; [exact Ha|lia]| |intros ? ? []].
  intros [] m' (Hrp & _ & Ht). cbn beta.
  unfold Code._end_table_update. apply wp_bind, wp_get. apply wp_bind.
  unfold blockSignals. apply wp_bind, wp_get. apply wp_bind. unfold set_bar.
  apply wp_modify, wp_ret, wp_modify, wp_ret.
  destruct Hrp. cbn in *. repeat split; auto.
Qed.

(** X15. [load_json] with a file that the loader accepts: the table is
    rebuilt over the 62 days from the start of the window that the load
    left, and each of its rows shows the loaded cells of its day; that
    start is the anchor; the dirty flag is clear; the file is the autosave
    path of the application and of the settings.  With the dialog
    cancelled nothing happens. *)
Theorem load_json_shows_the_loaded_file
    (slot : Z -> M unit) (chosen : string) (font_pt : Z) (settings : pydict)
    (m m1 : machine) :
  chosen <> "" ->
  Code._load_json_path chosen false m = Ret true m1 ->
  0 < range_start (app m1) ->
  range_start (app m1) + 62 <= Date.MAXORDINAL ->
  load_json slot "" font_pt settings m = Ret settings m
  /\ exists s' m',
       load_json slot chosen font_pt settings m = Ret s' m'
       /\ columns (app m') = columns (app m1)
       /\ cells (app m') = cells (app m1)
       /\ range_start (app m') = range_start (app m1)
       /\ range_end (app m') = range_start (app m1) + 61
       /\ current_anchor_date (app m') = range_start (app m1)
       /\ table (app m') = rows_for (app m1) (range_start (app m1)) 62
       /\ _dirty (app m') = false
       /\ autosave_path (app m') = chosen
       /\ dict_get "autosave_path" s' = Some (PStr chosen).
Proof.
  intros Hne Hload Hpos Hmax. split; [reflexivity|].
  unfold load_json. destruct (String.eqb_spec chosen "") as [|_]; [contradiction|].
  unfold bind at 1. rewrite Hload. unfold bind at 1. unfold get at 1.
  rewrite add_days_Some by (unfold Date.MAXORDINAL in *; lia).
  unfold bind at 1. simpl lift_opt. unfold ret at 1.
  pose proof (code_rebuild_range_run slot (range_start (app m1)) 62 m1 Hpos
                ltac:(lia)) as Hrb.
  replace (range_start (app m1) + Z.of_nat 62 - 1) with (range_start (app m1) + 61)
    in Hrb by lia.
  destruct (wp_run _ _ _ Hrb) as ([] & m2 & Hr & Hs2 & He2 & _ & Hc2 & Hcl2 & _ & _ & Ht2).
  unfold bind at 1. rewrite Hr. unfold bind at 1. unfold modify at 1. cbv zeta.
  set (m3 := on_app (with_autosave_path chosen) m2).
  set (s1 := dict_set "autosave_path" (PStr chosen) settings).
  destruct (save_settings_any font_pt s1 m3) as (m4 & Hs & Ha4 & _ & _).
  unfold bind at 1. rewrite Hs. cbn.
  eexists _, _. split; [reflexivity|]. cbn. rewrite Ha4. subst m3. cbn.
  repeat split; auto. apply updated_settings_path.
Qed.

(** ** The gated handler of [D-Scheduler_Code] *)

Lemma agree_refl {A} (x : outcome A) : x <> OutOfFuel -> agree x x.
Proof. split; auto. Qed.

Lemma agree_bind {A B} (c : M A) (k k' : A -> M B) m :
  wp c (fun a m' => agree (k a m') (k' a m')) (fun _ _ => True) m ->
  agree (bind c k m) (bind c k' m).
Proof.
  unfold wp_gen, bind, agree. destruct (c m); [auto| |contradiction].
  intros _. split; [reflexivity|discriminate].
Qed.

Lemma agree_try_finally {A} (b b' : M A) (fin : M unit) m :
  agree (b m) (b' m) -> (forall m', fin m' <> OutOfFuel) ->
  agree (try_finally b fin m) (try_finally b' fin m).
Proof.
  intros [He Hn] Hfin. unfold try_finally. rewrite <- He. apply agree_refl.
  destruct (b m) as [a m'|e m'|]; [| |contradiction]; unfold bind;
    specialize (Hfin m'); destruct (fin m'); try discriminate; contradiction.
Qed.

Lemma keeps_bar_refl m : keeps_bar m m.
Proof. repeat split. Qed.

Lemma keeps_bar_trans m1 m2 m3 : keeps_bar m1 m2 -> keeps_bar m2 m3 -> keeps_bar m1 m3.
Proof. intros (A1 & B1 & C1) (A2 & B2 & C2). repeat split; congruence. Qed.

Lemma keeps_bar_table t m : keeps_bar m (on_app (with_table t) m).
Proof. repeat split. Qed.

Lemma build_rows_keeps_bar n : forall r dt m0 m,
  keeps_bar m0 m ->
  wp (build_rows n r dt) (fun _ m' => keeps_bar m0 m')
     (fun e m' => e = OverflowError /\ keeps_bar m0 m') m.
Proof.
  induction n as [|n IH]; intros r dt m0 m H; simpl; [exact H|].
  apply wp_bind. unfold wp_gen at 1. rewrite build_row_run.
  assert (H1 : keeps_bar m0 (if r <? 0 then m
     else on_app (with_table (<[Z.to_nat r:=row_for (app m) dt]> (table (app m)))) m)).
  { destruct (r <? 0); exact H. }
  apply wp_bind. destruct (Date.add_days dt 1) as [dt'|].
  - apply wp_ret. apply IH. exact H1.
  - apply wp_raise. split; auto.
Qed.

(** The rebuild proper, between [_begin_table_update] and
    [_end_table_update]. *)
Lemma rebuild_body_keeps_bar start end_ m :
  wp (modify (on_app (fun a => with_range_end end_ (with_range_start start a))) ;;
      clear ;; setRowCount (end_ - start + 1) ;;
      build_rows (Z.to_nat (end_ - start + 1)) 0 start)
     (fun _ m' => keeps_bar m m')
     (fun e m' => e = OverflowError /\ keeps_bar m m') m.
Proof.
  apply wp_bind, wp_modify. apply wp_bind. unfold clear. apply wp_bind, wp_get, wp_modify.
  apply wp_bind. unfold wp_gen at 1. rewrite setRowCount_run.
  apply build_rows_keeps_bar. destruct (_ <? 0); repeat split.
Qed.

Lemma top_visible_date_total m :
  wp top_visible_date (fun _ m' => m' = m) (fun e m' => e = OverflowError /\ m' = m) m.
Proof. apply top_visible_date_spec. Qed.

Lemma scroll_blocked slot slot' dt m :
  signalsBlocked (bar (app m)) = true ->
  agree (Code.scroll_to_date slot dt m) (Code.scroll_to_date slot' dt m)
  /\ exists m', Code.scroll_to_date slot dt m = Ret tt m'
                /\ signalsBlocked (bar (app m')) = true
                /\ _is_building (app m') = _is_building (app m)
                /\ range_start (app m') = range_start (app m)
                /\ range_end (app m') = range_end (app m)
                /\ table (app m') = table (app m)
                /\ columns (app m') = columns (app m)
                /\ cells (app m') = cells (app m)
                /\ os m' = os m.
Proof.
  intros Hb. unfold Code.scroll_to_date, bind, get.
  destruct (_ || _).
  { split; [apply agree_refl; discriminate|]. eexists. split; [reflexivity|]. auto 10. }
  unfold scrollToItem, bind, get.
  destruct (_ !! _) as [[rw|]|];
    try (split; [apply agree_refl; discriminate|]; eexists; split; [reflexivity|]; auto 10; fail).
  unfold setValue, bind, get. destruct (_ =? _).
  { split; [apply agree_refl; discriminate|]. eexists. split; [reflexivity|]. auto 10. }
  unfold set_bar, modify. rewrite Hb.
  split; [apply agree_refl; discriminate|]. eexists. split; [reflexivity|].
  cbn. auto 10.
Qed.


Lemma bind_ext {A B} (c : M A) (f g : A -> M B) m :
  (forall a m', f a m' = g a m') -> bind c f m = bind c g m.
Proof. intros H. unfold bind. destruct (c m); auto. Qed.

Lemma rebuild_range_split slot start end_ keep m :
  Code.rebuild_range slot start end_ keep m
  = bind (rebuild_prefix start end_ keep) (scroll_back slot) m.
Proof.
  unfold Code.rebuild_range, rebuild_prefix.
  rewrite <- bind_assoc. apply bind_ext. intros rc m1.
  rewrite <- bind_assoc. apply bind_ext. intros anchor m2.
  rewrite <- bind_assoc. apply bind_ext. intros [] m3.
  rewrite <- bind_assoc. apply bind_ext. intros [] m4.
  reflexivity.
Qed.

Lemma begin_table_update_run m :
  Code._begin_table_update m
  = Ret tt (on_app (with_sb_prev_block (signalsBlocked (bar (app m))))
             (on_app (with_bar {| value := value (bar (app m));
                                  sliderDown := sliderDown (bar (app m));
                                  signalsBlocked := true |})
                (on_app (with_is_building true) m))).
Proof. reflexivity. Qed.

Lemma end_table_update_run m :
  Code._end_table_update m
  = Ret tt (on_app (with_is_building false)
             (on_app (with_bar {| value := value (bar (app m));
                                  sliderDown := sliderDown (bar (app m));
                                  signalsBlocked := _sb_prev_block (app m) |}) m)).
Proof. reflexivity. Qed.

(** Whatever happens in a rebuild, the signals of the scroll bar are then
    blocked or not as they were before, and [_is_building] is off unless
    the rebuild failed before it began. *)
Lemma rebuild_prefix_restores start end_ keep m :
  wp (rebuild_prefix start end_ keep)
     (fun _ m' => signalsBlocked (bar (app m')) = signalsBlocked (bar (app m))
                  /\ _is_building (app m') = false)
     (fun e m' => e = OverflowError
                  /\ signalsBlocked (bar (app m')) = signalsBlocked (bar (app m))
                  /\ (m' = m \/ _is_building (app m') = false)) m.
Proof.
  unfold rebuild_prefix. apply wp_bind. unfold rowCount. apply wp_bind, wp_get, wp_ret.
  apply wp_bind.
  assert (Hrest : forall anchor_dt : option date,
    wp (Code._begin_table_update ;;
        try_finally
          (modify (on_app (fun a => with_range_end end_ (with_range_start start a))) ;;
           clear ;; setRowCount (end_ - start + 1) ;;
           build_rows (Z.to_nat (end_ - start + 1)) 0 start)
          Code._end_table_update ;;
        ret anchor_dt)
     (fun _ m' => signalsBlocked (bar (app m')) = signalsBlocked (bar (app m))
                  /\ _is_building (app m') = false)
     (fun e m' => e = OverflowError
                  /\ signalsBlocked (bar (app m')) = signalsBlocked (bar (app m))
                  /\ (m' = m \/ _is_building (app m') = false)) m).
  { intros anchor_dt. apply wp_bind. unfold wp_gen at 1. rewrite begin_table_update_run.
    set (m3 := on_app (with_sb_prev_block _) _).
    apply wp_bind. apply wp_try_finally.
    eapply wp_mono; [apply (rebuild_body_keeps_bar start end_ m3)| |].
    - intros [] m4 (Hb & Hp & _). unfold wp_gen. rewrite end_table_update_run.
      apply wp_ret. cbn. rewrite Hp. subst m3. cbn. auto.
    - intros e m4 [-> (Hb & Hp & _)]. unfold wp_gen. rewrite end_table_update_run.
      cbn. rewrite Hp. subst m3. cbn. auto. }
  destruct (keep && _).
  - apply wp_bind. eapply wp_mono; [apply top_visible_date_total| |].
    + intros d m0 ->. apply wp_ret. apply Hrest.
    + intros e m' [-> ->]. auto.
  - apply wp_ret. apply Hrest.
Qed.

Lemma code_rebuild_blocked slot slot' start end_ keep m :
  signalsBlocked (bar (app m)) = true ->
  agree (Code.rebuild_range slot start end_ keep m)
        (Code.rebuild_range slot' start end_ keep m).
Proof.
  intros Hb. rewrite !rebuild_range_split. apply agree_bind.
  eapply wp_mono; [apply rebuild_prefix_restores| |auto].
  intros [d|] m' [Hs _]; cbn.
  - apply scroll_blocked. congruence.
  - apply agree_refl. discriminate.
Qed.

Lemma blockSignals_run b m :
  blockSignals b m
  = Ret (signalsBlocked (bar (app m)))
        (on_app (with_bar {| value := value (bar (app m));
                             sliderDown := sliderDown (bar (app m));
                             signalsBlocked := b |}) m).
Proof. reflexivity. Qed.

Lemma auto_extension_agrees slot slot' n m :
  agree (Code._append_days_auto slot n m) (Code._append_days_auto slot' n m)
  /\ agree (Code._prepend_days_auto slot n m) (Code._prepend_days_auto slot' n m).
Proof.
  assert (Hfin : forall prev m', (blockSignals prev ;; pass) m' <> OutOfFuel).
  { intros prev m'. unfold bind. rewrite blockSignals_run. discriminate. }
  split.
  - unfold Code._append_days_auto. apply agree_bind. unfold wp_gen.
    rewrite blockSignals_run. apply agree_try_finally; [|apply Hfin].
    apply agree_bind, wp_get. apply agree_bind.
    destruct (Date.add_days _ _); [apply wp_ret|apply wp_raise; exact I].
    apply code_rebuild_blocked. reflexivity.
  - unfold Code._prepend_days_auto. apply agree_bind. unfold wp_gen.
    rewrite blockSignals_run. apply agree_try_finally; [|apply Hfin].
    apply agree_bind, wp_get. apply agree_bind.
    destruct (Date.add_days _ _); [apply wp_ret|apply wp_raise; exact I].
    apply code_rebuild_blocked. reflexivity.
Qed.

(** X16. The gated scroll handler of [D-Scheduler_Code] never runs inside
    itself: what it does is the same whatever is connected to the scroll
    bar's [valueChanged], because every scroll it causes happens while the
    bar's signals are blocked.  So the signal as wired in [__init__] needs
    one level of nesting only: with any fuel above zero the handler ends,
    and with the same outcome. *)
Theorem code_scroll_handler_never_nests (v : Z) (m : machine) :
  (forall slot slot',
     Code._on_scroll_extend_if_needed slot v m
     = Code._on_scroll_extend_if_needed slot' v m)
  /\ (forall fuel,
        Code.valueChanged (S fuel) v m = Code.valueChanged 1 v m
        /\ Code.valueChanged (S fuel) v m <> OutOfFuel).
Proof.
  assert (H : forall slot slot',
            agree (Code._on_scroll_extend_if_needed slot v m)
                  (Code._on_scroll_extend_if_needed slot' v m)).
  { intros slot slot'. unfold Code._on_scroll_extend_if_needed.
    apply agree_bind, wp_get.
    destruct (negb _); [apply agree_refl; discriminate|].
    destruct (_ <=? 0); [apply agree_refl; discriminate|].
    destruct (_ <=? _); [apply auto_extension_agrees|].
    destruct (_ <=? _); [apply auto_extension_agrees|].
    apply agree_refl; discriminate. }
  split.
  - intros slot slot'. apply H.
  - intros fuel. unfold Code.valueChanged. simpl connect.
    split; [apply H|].
    apply (H (connect Code._on_scroll_extend_if_needed fuel) (fun _ => pass)).
Qed.


Lemma wp_conj {A} (c : M A) Q Q' E E' m :
  wp c Q E m -> wp c Q' E' m ->
  wp c (fun a m' => Q a m' /\ Q' a m') (fun e m' => E e m' /\ E' e m') m.
Proof. unfold wp_gen. destruct (c m); auto. Qed.

Lemma same_document_repaints m m' : repaints m m' -> same_document m m'.
Proof. intros []. split; assumption. Qed.

Lemma rebuild_body_run start (n : nat) m :
  0 < start -> start + Z.of_nat n <= Date.MAXORDINAL ->
  wp (modify (on_app (fun a => with_range_end (start + Z.of_nat n - 1)
                                 (with_range_start start a))) ;;
      clear ;; setRowCount (start + Z.of_nat n - 1 - start + 1) ;;
      build_rows (Z.to_nat (start + Z.of_nat n - 1 - start + 1)) 0 start)
     (fun _ m' => keeps_bar m m' /\ same_document m m'
                  /\ range_start (app m') = start
                  /\ range_end (app m') = start + Z.of_nat n - 1
                  /\ table (app m') = rows_for (app m) start n)
     (fun _ _ => False) m.
Proof.
  intros Hs Hmax.
  eapply wp_mono; [apply wp_conj; [apply rebuild_body_keeps_bar|]| |].
  - apply wp_bind, wp_modify.
    replace (start + Z.of_nat n - 1 - start + 1) with (Z.of_nat n) by lia.
    rewrite Nat2Z.id. apply rebuild_rows_core; [exact Hs|exact Hmax].
  - cbn beta. intros [] m' (Hk & Hrp & _ & Ht). split; [exact Hk|].
    destruct Hrp. cbn in *. split; [split; assumption|]. auto.
  - cbn beta. intros e m' [_ []].
Qed.

Lemma max0 x : (if x <? 0 then 0 else x) = Z.max 0 x.
Proof. destruct (Z.ltb_spec x 0); lia. Qed.

Lemma rebuild_prefix_keep start (n : nat) m :
  0 < start -> start + Z.of_nat n <= Date.MAXORDINAL ->
  0 < range_start (app m) -> range_start (app m) + top_row m <= Date.MAXORDINAL ->
  (0 < length (table (app m)))%nat ->
  wp (rebuild_prefix start (start + Z.of_nat n - 1) true)
     (fun a m' => a = Some (range_start (app m) + top_row m)
                  /\ bar (app m') = bar (app m)
                  /\ _is_building (app m') = false
                  /\ same_document m m'
                  /\ range_start (app m') = start
                  /\ range_end (app m') = start + Z.of_nat n - 1
                  /\ table (app m') = rows_for (app m) start n)
     (fun _ _ => False) m.
Proof.
  intros Hs Hmax Hrs Htop Hlen.
  unfold rebuild_prefix. apply wp_bind. unfold rowCount. apply wp_bind, wp_get, wp_ret.
  replace (0 <? Z.of_nat (length (table (app m)))) with true
    by (symmetry; apply Z.ltb_lt; lia).
  simpl andb. apply wp_bind, wp_bind.
  unfold top_visible_date, rowAt0. apply wp_bind, wp_bind, wp_get, wp_ret.
  apply wp_bind, wp_get. rewrite max0. fold (top_row m).
  assert (H0 : 0 <= top_row m) by (unfold top_row; lia).
  rewrite add_days_Some by (unfold Date.MAXORDINAL in *; lia).
  simpl lift_opt. apply wp_ret, wp_ret.
  apply wp_bind. unfold wp_gen at 1. rewrite begin_table_update_run.
  set (m3 := on_app (with_sb_prev_block _) _).
  apply wp_bind. apply wp_try_finally.
  eapply wp_mono; [apply (rebuild_body_run start n m3 Hs Hmax)| |intros ? ? []].
  intros [] m4 ((Hb & Hp & _) & Hd & Hs4 & He4 & Ht4). unfold wp_gen.
  rewrite end_table_update_run. apply wp_ret. cbn.
  rewrite Hb, Hp. subst m3. cbn in *.
  split; [reflexivity|]. split; [destruct (bar (app m)); reflexivity|].
  split; [reflexivity|]. split; [|split; [exact Hs4|split; [exact He4|exact Ht4]]].
  destruct Hd. cbn in *. split; cbn; first [assumption|reflexivity].
Qed.

Lemma rows_for_lookup a start (n i : nat) :
  (i < n)%nat -> rows_for a start n !! i = Some (row_for a (start + Z.of_nat i)).
Proof.
  intros H. unfold rows_for. rewrite list_lookup_fmap, lookup_seq_lt by exact H.
  reflexivity.
Qed.

(** A rebuild that keeps the scroll position, run while the bar's signals
    are blocked. *)
Lemma code_rebuild_keep_run slot start (n : nat) m :
  signalsBlocked (bar (app m)) = true ->
  0 < start -> start + Z.of_nat n <= Date.MAXORDINAL ->
  0 < range_start (app m) -> (0 < length (table (app m)))%nat ->
  start <= range_start (app m) + top_row m < start + Z.of_nat n ->
  exists m',
    Code.rebuild_range slot start (start + Z.of_nat n - 1) true m = Ret tt m'
    /\ range_start (app m') = start
    /\ range_end (app m') = start + Z.of_nat n - 1
    /\ table (app m') = rows_for (app m) start n
    /\ value (bar (app m'))
       = scrolled_value m (rows_for (app m) start n)
           (Z.to_nat (range_start (app m) + top_row m - start))
    /\ signalsBlocked (bar (app m')) = true
    /\ _is_building (app m') = false
    /\ same_document m m'.
Proof.
  intros Hb Hs Hmax Hrs Hlen Hin.
  rewrite rebuild_range_split.
  destruct (wp_run _ _ _ (rebuild_prefix_keep start n m Hs Hmax Hrs ltac:(lia) Hlen))
    as (a & m4 & Hr & -> & Hbar & Hbu & Hd & Hs4 & He4 & Ht4).
  unfold bind at 1. rewrite Hr. unfold scroll_back, Code.scroll_to_date, bind, get.
  rewrite Hs4, He4.
  replace (_ || _) with false
    by (symmetry; apply orb_false_iff; split; apply Z.ltb_ge; lia).
  unfold scrollToItem, bind, get. rewrite Ht4.
  rewrite rows_for_lookup by lia. unfold row_for at 1.
  unfold setValue, bind, get, maximum. rewrite Ht4.
  destruct Hd as [Hc Hce Hdi Hos Hg He Hdn].
  rewrite Hos. fold (scrolled_value m (rows_for (app m) start n)
                       (Z.to_nat (range_start (app m) + top_row m - start))).
  destruct (_ =? _) eqn:Hv.
  - apply Z.eqb_eq in Hv. eexists. split; [reflexivity|].
    split; [exact Hs4|]. split; [exact He4|]. split; [exact Ht4|].
    split; [symmetry; exact Hv|]. split; [rewrite Hbar; exact Hb|].
    split; [exact Hbu|]. split; assumption.
  - unfold set_bar, modify. rewrite Hbar, Hb. eexists. split; [reflexivity|].
    cbn. split; [exact Hs4|]. split; [exact He4|]. split; [exact Ht4|].
    split; [reflexivity|]. split; [reflexivity|].
    split; [exact Hbu|]. split; cbn; first [assumption|reflexivity].
Qed.


Lemma blocked_view m :
  let m1 := on_app (with_bar {| value := value (bar (app m));
                                sliderDown := sliderDown (bar (app m));
                                signalsBlocked := true |}) m in
  top_row m1 = top_row m /\ range_start (app m1) = range_start (app m)
  /\ range_end (app m1) = range_end (app m) /\ table (app m1) = table (app m)
  /\ signalsBlocked (bar (app m1)) = true.
Proof. repeat split. Qed.

Lemma auto_extension_run slot (start : date) (n : nat) (b : M unit) m :
  b (on_app (with_bar {| value := value (bar (app m));
                         sliderDown := sliderDown (bar (app m));
                         signalsBlocked := true |}) m)
  = Code.rebuild_range slot start (start + Z.of_nat n - 1) true
      (on_app (with_bar {| value := value (bar (app m));
                           sliderDown := sliderDown (bar (app m));
                           signalsBlocked := true |}) m) ->
  0 < start -> start + Z.of_nat n <= Date.MAXORDINAL ->
  0 < range_start (app m) -> (0 < length (table (app m)))%nat ->
  start <= range_start (app m) + top_row m < start + Z.of_nat n ->
  exists m',
    (prev <- blockSignals true ;;
     try_finally b (blockSignals prev ;; pass)) m = Ret tt m'
    /\ range_start (app m') = start
    /\ range_end (app m') = start + Z.of_nat n - 1
    /\ table (app m') = rows_for (app m) start n
    /\ value (bar (app m'))
       = scrolled_value m (table (app m'))
           (Z.to_nat (range_start (app m) + top_row m - start))
    /\ signalsBlocked (bar (app m')) = signalsBlocked (bar (app m))
    /\ _is_building (app m') = false
    /\ same_document m m'.
Proof.
  intros Hc Hs Hmax Hrs Hlen Hin.
  unfold bind at 1. rewrite blockSignals_run.
  set (m1 := on_app _ m).
  destruct (code_rebuild_keep_run slot start n m1 eq_refl Hs Hmax Hrs Hlen Hin)
    as (m2 & Hr & Hs2 & He2 & Ht2 & Hv2 & Hb2 & Hbu2 & Hd2).
  unfold try_finally. fold m1 in Hc. rewrite Hc, Hr.
  unfold bind. rewrite blockSignals_run. eexists. split; [reflexivity|].
  cbn. rewrite Ht2. destruct Hd2. subst m1. cbn in *.
  split; [exact Hs2|]. split; [exact He2|]. split; [reflexivity|].
  split; [exact Hv2|]. split; [reflexivity|]. split; [exact Hbu2|].
  split; cbn; first [assumption|reflexivity].
Qed.

(** X17. The user scrolls to within [max(8, range // 20)] of the end of the
    bar's range in [D-Scheduler_Code]: the handler extends the window by
    [expand_each] days at its end and keeps its start; the table is rebuilt
    over the new window from the cells; the row that was at the top of the
    view is put at the top again; cells, columns and the dirty flag are as
    before, the bar's signals are blocked or not as before and
    [_is_building] is off. *)
Theorem user_scroll_near_the_end_appends (fuel : nat) (v : Z) (m : machine) :
  Code.user_gate m = true ->
  0 < maximum m ->
  maximum m - near m <= value (bar (app m)) ->
  0 < range_start (app m) ->
  range_start (app m) + top_row m <= range_end (app m) ->
  (0 < length (table (app m)))%nat ->
  0 <= expand_each (app m) ->
  range_end (app m) + expand_each (app m) < Date.MAXORDINAL ->
  exists m',
    Code.valueChanged (S fuel) v m = Ret tt m'
    /\ range_start (app m') = range_start (app m)
    /\ range_end (app m') = range_end (app m) + expand_each (app m)
    /\ table (app m')
       = rows_for (app m) (range_start (app m))
           (Z.to_nat (range_end (app m) + expand_each (app m)
                      - range_start (app m) + 1))
    /\ value (bar (app m'))
       = scrolled_value m (table (app m')) (Z.to_nat (top_row m))
    /\ signalsBlocked (bar (app m')) = signalsBlocked (bar (app m))
    /\ _is_building (app m') = false
    /\ same_document m m'.
Proof.
  intros Hg Hmx Hnear Hrs Htop Hlen Hn Hmax.
  assert (H0 : 0 <= top_row m) by (unfold top_row; lia).
  unfold Code.valueChanged. simpl connect.
  unfold Code._on_scroll_extend_if_needed. unfold bind at 1, get at 1.
  rewrite Hg. simpl negb. cbv iota zeta.
  replace (maximum m - 0 <=? 0) with false by (symmetry; apply Z.leb_gt; lia).
  replace (maximum m - 0) with (maximum m) by lia. fold (near m).
  replace (maximum m - near m <=? value (bar (app m))) with true
    by (symmetry; apply Z.leb_le; exact Hnear).
  set (n := Z.to_nat (range_end (app m) + expand_each (app m) - range_start (app m) + 1)).
  assert (Hend : range_end (app m) + expand_each (app m)
                 = range_start (app m) + Z.of_nat n - 1) by (unfold n; lia).
  unfold Code._append_days_auto.
  destruct (auto_extension_run (connect Code._on_scroll_extend_if_needed fuel)
              (range_start (app m)) n
              (m0 <- get ;;
               end_ <- lift_opt OverflowError
                         (Date.add_days (range_end (app m0)) (expand_each (app m))) ;;
               Code.rebuild_range (connect Code._on_scroll_extend_if_needed fuel)
                 (range_start (app m0)) end_ true) m)
    as (m' & Hr & Hs' & He' & Ht' & Hv' & Hd');
    [unfold bind at 1 2, get; cbn [app on_app range_end range_start with_bar];
     rewrite add_days_Some by (unfold Date.MAXORDINAL in *; lia);
     simpl lift_opt; unfold ret at 1; rewrite Hend; reflexivity
    |exact Hrs|lia|exact Hrs|exact Hlen|lia|].
  exists m'. split; [exact Hr|]. rewrite Hs', He', Hv', Ht', Hend.
  split; [reflexivity|]. split; [reflexivity|]. split; [reflexivity|].
  split; [f_equal; lia|]. exact Hd'.
Qed.

(** X18. The user scrolls to within [max(8, range // 20)] of the start of
    the bar's range (and not of its end) in [D-Scheduler_Code]: the handler
    extends the window by [expand_each] days at its start and keeps its
    end; the table is rebuilt over the new window from the cells; the row
    that was at the top of the view, now [expand_each] rows further down,
    is put at the top again. *)
Theorem user_scroll_near_the_start_prepends (fuel : nat) (v : Z) (m : machine) :
  Code.user_gate m = true ->
  0 < maximum m ->
  value (bar (app m)) < maximum m - near m ->
  value (bar (app m)) <= near m ->
  0 <= expand_each (app m) < range_start (app m) ->
  range_start (app m) + top_row m <= range_end (app m) ->
  (0 < length (table (app m)))%nat ->
  range_end (app m) < Date.MAXORDINAL ->
  exists m',
    Code.valueChanged (S fuel) v m = Ret tt m'
    /\ range_start (app m') = range_start (app m) - expand_each (app m)
    /\ range_end (app m') = range_end (app m)
    /\ table (app m')
       = rows_for (app m) (range_start (app m) - expand_each (app m))
           (Z.to_nat (range_end (app m) - range_start (app m)
                      + expand_each (app m) + 1))
    /\ value (bar (app m'))
       = scrolled_value m (table (app m'))
           (Z.to_nat (top_row m + expand_each (app m)))
    /\ signalsBlocked (bar (app m')) = signalsBlocked (bar (app m))
    /\ _is_building (app m') = false
    /\ same_document m m'.
Proof.
  intros Hg Hmx Hfar Hnear Hn Htop Hlen Hmax.
  assert (H0 : 0 <= top_row m) by (unfold top_row; lia).
  unfold Code.valueChanged. simpl connect.
  unfold Code._on_scroll_extend_if_needed. unfold bind at 1, get at 1.
  rewrite Hg. simpl negb. cbv iota zeta.
  replace (maximum m - 0 <=? 0) with false by (symmetry; apply Z.leb_gt; lia).
  replace (maximum m - 0) with (maximum m) by lia. fold (near m).
  replace (maximum m - near m <=? value (bar (app m))) with false
    by (symmetry; apply Z.leb_gt; exact Hfar).
  replace (value (bar (app m)) <=? 0 + near m) with true
    by (symmetry; apply Z.leb_le; lia).
  set (n := Z.to_nat (range_end (app m) - range_start (app m)
                      + expand_each (app m) + 1)).
  set (s := range_start (app m) - expand_each (app m)).
  assert (Hend : range_end (app m) = s + Z.of_nat n - 1) by (unfold n, s; lia).
  unfold Code._prepend_days_auto.
  destruct (auto_extension_run (connect Code._on_scroll_extend_if_needed fuel)
              s n
              (m0 <- get ;;
               start <- lift_opt OverflowError
                          (Date.add_days (range_start (app m0))
                             (- expand_each (app m))) ;;
               Code.rebuild_range (connect Code._on_scroll_extend_if_needed fuel)
                 start (range_end (app m0)) true) m)
    as (m' & Hr & Hs' & He' & Ht' & Hv' & Hd');
    [unfold bind at 1 2, get; cbn [app on_app range_end range_start with_bar];
     rewrite add_days_Some by (unfold Date.MAXORDINAL in *; lia);
     simpl lift_opt; unfold ret at 1; rewrite Hend at 1;
     replace (range_start (app m) + - expand_each (app m)) with s by (unfold s; lia);
     reflexivity
    |unfold s; lia|lia|lia|exact Hlen|unfold s; lia|].
  exists m'. split; [exact Hr|]. rewrite Hs', He', Hv', Ht', <- Hend.
  split; [reflexivity|]. split; [reflexivity|]. split; [reflexivity|].
  split; [f_equal; unfold s; lia|]. exact Hd'.
Qed.


Lemma user_scroll_near_the_end_witness :
  exists m', Code.valueChanged 1 1260 code_scrolled_down = Ret tt m'
             /\ range_start (app m') = jan1
             /\ range_end (app m') = jan1 + 121.
Proof.
  destruct (user_scroll_near_the_end_appends 0 1260 code_scrolled_down)
    as (m' & Hr & Hs & He & _);
    [vm_compute; reflexivity|vm_compute; reflexivity|vm_compute; discriminate
    |vm_compute; reflexivity|vm_compute; discriminate|vm_compute; lia
    |vm_compute; discriminate|vm_compute; reflexivity|].
  exists m'. split; [exact Hr|]. split; [exact Hs|]. exact He.
Defined.

Lemma user_scroll_near_the_start_witness :
  exists m', Code.valueChanged 1 0 code_scrolled = Ret tt m'
             /\ range_start (app m') = jan1 - 60
             /\ range_end (app m') = jan1 + 61.
Proof.
  destruct (user_scroll_near_the_start_prepends 0 0 code_scrolled)
    as (m' & Hr & Hs & He & _);
    [vm_compute; reflexivity|vm_compute; reflexivity|vm_compute; reflexivity
    |vm_compute; discriminate
    |split; [vm_compute; discriminate|vm_compute; reflexivity]
    |vm_compute; discriminate|vm_compute; lia|vm_compute; reflexivity|].
  exists m'. split; [exact Hr|]. split; [exact Hs|]. exact He.
Defined.

(** ** The end of the calendar *)

Lemma add_days_None d n : Date.MAXORDINAL < d + n -> Date.add_days d n = None.
Proof.
  intros H. unfold Date.add_days.
  replace (d + n <=? Date.MAXORDINAL) with false by (symmetry; apply Z.leb_gt; exact H).
  rewrite andb_false_r. reflexivity.
Qed.

(** The loop [_build_row(r, dt); dt += 1 day] over more days than the
    calendar has left fails, and only rows have been written. *)
Lemma build_rows_raises n : forall r dt m,
  dt <= Date.MAXORDINAL < dt + Z.of_nat n ->
  wp (build_rows n r dt) (fun _ _ => False)
     (fun e m' => e = OverflowError /\ repaints m m'
                  /\ length (table (app m')) = length (table (app m))) m.
Proof.
  induction n as [|n IH]; intros r dt m Hmax.
  - lia.
  - simpl. apply wp_bind. unfold wp_gen at 1. rewrite build_row_run.
    set (m1 := if r <? 0 then m else _).
    assert (H1 : repaints m m1 /\ length (table (app m1)) = length (table (app m))).
    { subst m1. destruct (r <? 0); [split; [apply repaints_refl|reflexivity]|].
      split; [apply repaints_table|]. cbn. apply length_insert. }
    destruct H1 as [Hrp Hlen].
    apply wp_bind. destruct (Date.add_days dt 1) as [dt'|] eqn:Ha.
    + apply add_days_inv in Ha as [-> Hb]. apply wp_ret.
      eapply wp_mono; [apply (IH (r + 1) (dt + 1) m1); lia|intros ? ? []|].
      cbn beta. intros e m' (-> & Hrp' & Hlen'). split; [reflexivity|].
      split; [eapply repaints_trans; eauto|congruence].
    + apply wp_raise. auto.
Qed.

(** X19. [set_view_anchor] of [D-Scheduler_Code] needs one day more than the
    window it shows: for an anchor among the last 62 days of the calendar
    it raises [OverflowError] and has recorded the anchor.  For the anchor
    61 days before the last day, whose window would fit, the window has
    been moved and 62 rows built before the loop's last [dt += 1 day]
    fails, and [_end_table_update] has run; for a later anchor window and
    table are as before. *)
Theorem set_view_anchor_at_calendar_end (slot : Z -> M unit) (anchor : date)
    (m : machine) :
  Date.MAXORDINAL - 61 <= anchor <= Date.MAXORDINAL ->
  exists m',
    Code.set_view_anchor slot anchor m = Raise OverflowError m'
    /\ current_anchor_date (app m') = anchor
    /\ cells (app m') = cells (app m)
    /\ columns (app m') = columns (app m)
    /\ signalsBlocked (bar (app m')) = signalsBlocked (bar (app m))
    /\ if anchor =? Date.MAXORDINAL - 61
       then range_start (app m') = anchor
            /\ range_end (app m') = Date.MAXORDINAL
            /\ length (table (app m')) = 62%nat
            /\ _is_building (app m') = false
       else range_start (app m') = range_start (app m)
            /\ range_end (app m') = range_end (app m)
            /\ table (app m') = table (app m).
Proof.
  intros Ha. unfold Code.set_view_anchor. unfold bind at 1, modify at 1.
  set (m0 := on_app (with_current_anchor_date anchor) m).
  destruct (Z.eqb_spec anchor (Date.MAXORDINAL - 61)) as [He|Hne].
  - rewrite add_days_Some by (unfold Date.MAXORDINAL in *; lia).
    unfold bind at 1. simpl lift_opt. unfold ret at 1.
    rewrite rebuild_range_split. unfold bind at 1.
    assert (Hp : wp (rebuild_prefix anchor (anchor + 61) false) (fun _ _ => False)
              (fun e m' => e = OverflowError
                 /\ current_anchor_date (app m') = anchor
                 /\ cells (app m') = cells (app m)
                 /\ columns (app m') = columns (app m)
                 /\ signalsBlocked (bar (app m')) = signalsBlocked (bar (app m))
                 /\ range_start (app m') = anchor
                 /\ range_end (app m') = Date.MAXORDINAL
                 /\ length (table (app m')) = 62%nat
                 /\ _is_building (app m') = false) m0).
    { unfold rebuild_prefix. apply wp_bind. unfold rowCount.
      apply wp_bind, wp_get, wp_ret. simpl andb. apply wp_bind, wp_ret.
      apply wp_bind. unfold wp_gen at 1. rewrite begin_table_update_run.
      set (m3 := on_app (with_sb_prev_block _) _).
      apply wp_bind. apply wp_try_finally.
      eapply wp_mono; [apply wp_conj; [apply rebuild_body_keeps_bar|]| |].
      - apply wp_bind, wp_modify. apply wp_bind. unfold clear.
        apply wp_bind, wp_get, wp_modify.
        apply wp_bind. unfold wp_gen at 1. rewrite setRowCount_run.
        replace (anchor + 61 - anchor + 1) with 62 by lia.
        change (62 <? 0) with false. cbv iota.
        apply build_rows_raises. change (Z.of_nat (Z.to_nat 62)) with 62. lia.
      - cbn beta. intros ? ? [_ []].
      - cbn beta. intros e m4 ((_ & Hb & Hpv & _) & -> & Hrp & Hlen).
        unfold wp_gen. rewrite end_table_update_run.
        destruct Hrp as [? ? ? ? ? Hre4 ? ? ? ?]. cbn in *.
        rewrite Hpv. subst m3 m0. cbn in *.
        split; [reflexivity|]. split; [assumption|]. split; [assumption|].
        split; [assumption|]. split; [reflexivity|]. split; [assumption|].
        split; [rewrite Hre4; lia|]. split; [|reflexivity].
        rewrite Hlen, length_app, length_take, length_replicate, length_map.
        change (Z.to_nat 62) with 62%nat. lia. }
    unfold wp_gen in Hp.
    destruct (rebuild_prefix anchor (anchor + 61) false m0) as [? ?|e m'|]; try contradiction.
    destruct Hp as (-> & H). exists m'. split; [reflexivity|].
    destruct H as (H1 & H2 & H3 & H4 & H5). auto.
  - rewrite add_days_None by lia. exists m0. split; [reflexivity|].
    subst m0. cbn. auto 10.
Qed.

Lemma set_view_anchor_at_calendar_end_witness :
  exists m', Code.set_view_anchor (Code.valueChanged 1) (Date.MAXORDINAL - 61) start
             = Raise OverflowError m'
             /\ range_end (app m') = Date.MAXORDINAL.
Proof.
  destruct (set_view_anchor_at_calendar_end (Code.valueChanged 1)
              (Date.MAXORDINAL - 61) start)
    as (m' & Hr & _ & _ & _ & _ & _ & He & _);
    [split; [vm_compute; discriminate|vm_compute; discriminate]|].
  exists m'. split; [exact Hr|exact He].
Defined.

(** X20. [_append_days(n)] of [D-Scheduler], called when fewer than [n]
    days are left after the window: it raises [OverflowError] with [n]
    rows added to the table and the window as it was, so that the table
    has more rows than the window has days. *)
Theorem append_days_past_calendar_end (n : Z) (m : machine) :
  0 < n -> 0 < range_end (app m) <= Date.MAXORDINAL ->
  Date.MAXORDINAL <= range_end (app m) + n ->
  exists m',
    Sched._append_days n m = Raise OverflowError m'
    /\ range_start (app m') = range_start (app m)
    /\ range_end (app m') = range_end (app m)
    /\ length (table (app m')) = (length (table (app m)) + Z.to_nat n)%nat
    /\ cells (app m') = cells (app m)
    /\ columns (app m') = columns (app m).
Proof.
  intros Hn Hre Hmax.
  assert (Hp : wp (Sched._append_days n) (fun _ _ => False)
            (fun e m' => e = OverflowError
               /\ range_start (app m') = range_start (app m)
               /\ range_end (app m') = range_end (app m)
               /\ length (table (app m')) = (length (table (app m)) + Z.to_nat n)%nat
               /\ cells (app m') = cells (app m)
               /\ columns (app m') = columns (app m)) m).
  { unfold Sched._append_days. apply wp_bind. unfold rowCount.
    apply wp_bind, wp_get, wp_ret.
    apply wp_bind. unfold wp_gen at 1. rewrite setRowCount_run.
    replace (Z.of_nat (length (table (app m))) + n <? 0) with false
      by (symmetry; apply Z.ltb_ge; lia).
    set (m1 := on_app _ m).
    assert (Hlen : length (table (app m1)) = (length (table (app m)) + Z.to_nat n)%nat).
    { subst m1. cbn. rewrite length_app, length_take, length_replicate. lia. }
    apply wp_bind, wp_get. apply wp_bind.
    destruct (Date.add_days (range_end (app m1)) 1) as [dt|] eqn:Ha.
    - apply add_days_inv in Ha as [-> Hb]. apply wp_ret. apply wp_bind.
      eapply wp_mono; [apply build_rows_raises| |].
      + subst m1. cbn in *. lia.
      + intros ? ? [].
      + cbn beta. intros e m' (-> & Hrp & Hl). destruct Hrp.
        split; [reflexivity|]. subst m1. cbn in *. rewrite Hl, Hlen. auto.
    - apply wp_raise. subst m1. cbn in *. rewrite Hlen. auto 10. }
  unfold wp_gen in Hp. destruct (Sched._append_days n m) as [? ?|e m'|]; try contradiction.
  destruct Hp as (-> & H). exists m'. auto.
Qed.

(** ** The properties at work *)

Lemma loaded_ghost_run s :
  Code._load_json_path "in.json" s ghost_on_disk = Ret true loaded_ghost.
Proof. destruct s; vm_compute; reflexivity. Qed.

Lemma loaded_ghost_keys_shaped : keys_shaped (app loaded_ghost).
Proof.
  destruct (load_success _ _ _ _ (loaded_ghost_run true)) as (raw & d & _ & _ & Hc & _).
  intros k. rewrite Hc. apply loaded_cells_keys.
Qed.

Lemma extracted_urls_witness :
  has_scheme "https://a.b/c" = true /\ no_space "https://a.b/c" = true
  /\ ends_clean (codes "https://a.b/c") = true /\ "https://a.b/c" <> "".
Proof.
  apply (extracted_urls_keep_their_scheme "see (https://a.b/c), ok").
  vm_compute. constructor.
Defined.

Lemma range_search_witness :
  _do_search 100 " Meet " false (app loaded_ghost)
  = Found [hit (app loaded_ghost) (jan1 + 4) "2025-01-05"
             {| col_id := "col-1"; col_title := "plan"; col_width := 260 |}].
Proof.
  rewrite (range_search_finds_the_texts_of_the_window 100 " Meet " (app loaded_ghost));
    [|vm_compute; reflexivity|vm_compute; reflexivity|vm_compute; lia].
  vm_compute. reflexivity.
Defined.

Lemma search_scopes_witness :
  exists in_range in_all,
    _do_search 100 "meet" false (app loaded_ghost) = Found in_range
    /\ _do_search 100 "meet" true (app loaded_ghost) = Found in_all
    /\ forall it, it ∈ in_range -> it ∈ in_all.
Proof.
  destruct (search_scopes_agree_on_the_window 100 "meet" (app loaded_ghost))
    as (in_range & in_all & H1 & H2 & H);
    [exact loaded_ghost_keys_shaped
    |vm_compute; reflexivity|vm_compute; reflexivity|vm_compute; lia|].
  exists in_range, in_all. split; [exact H1|]. split; [exact H2|].
  intros it Hit. apply H in Hit as [Hit _]. exact Hit.
Defined.

Lemma jump_to_hit_witness :
  exists (dt : date) m',
    _jump_and_close (Code.valueChanged 1)
      (hit (app loaded_ghost) (jan1 + 4) "2025-01-05"
         {| col_id := "col-1"; col_title := "plan"; col_width := 260 |})
      loaded_ghost = Ret tt m'
    /\ range_start (app m') = dt
    /\ range_end (app m') = dt + 61.
Proof.
  destruct (jump_to_hit_shows_its_day (Code.valueChanged 1) 100 "meet" true
              loaded_ghost
              [hit (app loaded_ghost) (jan1 + 4) "2025-01-05"
                 {| col_id := "col-1"; col_title := "plan"; col_width := 260 |}]
              (hit (app loaded_ghost) (jan1 + 4) "2025-01-05"
                 {| col_id := "col-1"; col_title := "plan"; col_width := 260 |}))
    as (dt & col & Hdt & _ & Hit & Hjump);
    [vm_compute; reflexivity|vm_compute; reflexivity
    |intros _; exact loaded_ghost_keys_shaped
    |vm_compute; reflexivity|constructor|].
  assert (Hd : dt = jan1 + 4).
  { apply (f_equal item_data) in Hit. cbn [hit item_data] in Hit.
    apply ymd_inj; [exact Hdt|vm_compute; split; discriminate|symmetry; exact Hit]. }
  destruct Hjump as (m' & Hr & Hs & He & _);
    [rewrite Hd; vm_compute; discriminate|].
  exists dt, m'. auto.
Defined.

Lemma save_then_load_witness :
  exists m2 m3,
    Code._write_json "out.json" loaded_ghost = Ret tt m2
    /\ Code._load_json_path "out.json" true m2 = Ret true m3
    /\ cells (app m3) = cells (app loaded_ghost)
    /\ columns (app m3) = columns (app loaded_ghost).
Proof.
  destruct (save_then_load_restores_the_document "out.json" true loaded_ghost)
    as (m2 & m3 & Hw & Hl & _ & Hc & Hcol & _);
    [intros i _; reflexivity|reflexivity
    |intros H; vm_compute in H; discriminate H|].
  exists m2, m3. split; [exact Hw|]. split; [exact Hl|].
  split; [exact (Hc loaded_ghost_keys_shaped)|]. apply Hcol.
  replace (columns (app loaded_ghost))
    with [ {| col_id := "col-1"; col_title := "plan"; col_width := 260 |} ]
    by (vm_compute; reflexivity).
  split.
  - constructor; [|constructor]. unfold canonical_column. cbn [col_id col_title col_width].
    split; [vm_compute; reflexivity|]. split; [discriminate|]. split; [discriminate|lia].
  - cbn. constructor; [|constructor]. intros H. inversion H.
Defined.

Lemma save_without_columns_witness :
  exists m2 m3,
    Code._write_json "out.json" no_columns = Ret tt m2
    /\ Code._load_json_path "out.json" true m2 = Ret false m3
    /\ app m3 = app no_columns.
Proof.
  destruct (save_without_columns_cannot_be_loaded "out.json" true no_columns)
    as (m2 & m3 & Hw & _ & Hl & Ha & _);
    [intros i _; reflexivity|reflexivity|reflexivity|].
  exists m2, m3. auto.
Defined.

Lemma typed_text_survives_witness :
  exists m1 m2 m3,
    _slot "2025-01-01" "col-1" "dentist" start = Ret tt m1
    /\ Code._write_json "out.json" m1 = Ret tt m2
    /\ Code._load_json_path "out.json" true m2 = Ret true m3
    /\ cell_text (cells (app m3)) "2025-01-01" "col-1" = "dentist".
Proof.
  destruct (typed_text_survives_save_and_load jan1 "col-1" "dentist" "out.json"
              true start)
    as (m1 & m2 & m3 & Hs & _ & Hw & Hl & Ht & _);
    [vm_compute; split; discriminate|intros i _; reflexivity|reflexivity
    |discriminate|].
  change (Date.date_key jan1) with "2025-01-01" in Hs, Ht.
  exists m1, m2, m3. auto.
Defined.

Lemma typed_text_is_shown_witness :
  exists m1 m2 r,
    _slot (Date.date_key (jan1 + 3)) "col-1" "dentist" start = Ret tt m1
    /\ Code.set_view_anchor (Code.valueChanged 1) jan1 m1 = Ret tt m2
    /\ table (app m2) !! 3%nat = Some (Some r)
    /\ editors r !! 0%nat = Some "dentist".
Proof.
  destruct (typed_text_is_shown_after_rebuild (Code.valueChanged 1) (jan1 + 3) jan1
              "col-1" "dentist" start 0
              {| col_id := "col-1"; col_title := "plan"; col_width := 260 |})
    as (m1 & m2 & r & Hs & Ha & Ht & _ & He);
    [vm_compute; reflexivity|vm_compute; discriminate
    |vm_compute; split; discriminate|reflexivity|reflexivity|].
  exists m1, m2, r. auto.
Defined.

Lemma load_json_witness :
  exists s' m',
    load_json (Code.valueChanged 1) "in.json" 11 [] ghost_on_disk = Ret s' m'
    /\ cells (app m') = cells (app loaded_ghost)
    /\ autosave_path (app m') = "in.json"
    /\ _dirty (app m') = false.
Proof.
  destruct (load_json_shows_the_loaded_file (Code.valueChanged 1) "in.json" 11 []
              ghost_on_disk loaded_ghost)
    as (_ & s' & m' & Hr & _ & Hc & _ & _ & _ & _ & Hd & Hp & _);
    [discriminate|exact (loaded_ghost_run false)
    |vm_compute; reflexivity|vm_compute; discriminate|].
  exists s', m'. auto.
Defined.

Lemma append_days_past_calendar_end_witness :
  exists m',
    Sched._append_days 60 last_days = Raise OverflowError m'
    /\ range_end (app m') = Date.MAXORDINAL
    /\ length (table (app m')) = 60%nat.
Proof.
  destruct (append_days_past_calendar_end 60 last_days)
    as (m' & Hr & _ & He & Hl & _);
    [reflexivity|vm_compute; split; [reflexivity|discriminate]
    |vm_compute; discriminate|].
  exists m'. auto.
Defined.

Lemma sched_tick_keeps_dirty_witness :
  exists m', Sched._autosave_tick dirty_disk_full = Ret tt m'
             /\ _dirty (app m') = true.
Proof.
  destruct (sched_tick_keeps_dirty_on_failure dirty_disk_full)
    as (m' & Hr & Hd & _); [reflexivity|reflexivity|].
  exists m'. auto.
Defined.

Lemma strip_url_cjk_witness :
  _strip_url_trailing_punct [97; 41; 12290; 12289]%N = [97]%N
  /\ exists tail,
       [97; 41; 12290; 12289]%N
       = _strip_url_trailing_punct [97; 41; 12290; 12289]%N ++ tail
       /\ all_punct tail = true.
Proof.
  split; [vm_compute; reflexivity|].
  exact (proj1 (strip_url_trailing_punct_longest_run [97; 41; 12290; 12289]%N)).
Defined.
